(** * Verification of the qmd-to-PreTeXt conversion scripts (PreTeXtBooks/ims)

    The scripts are line-oriented text converters.  A Python [str] is modelled
    as a Stdlib [string]: the sequence of the bytes of its UTF-8 encoding.
    Every pattern the scripts search for is ASCII, and UTF-8 never reuses an
    ASCII byte inside a multi-byte character, so searching and replacing on
    the bytes agrees with Python's behaviour on code points.  Two operations
    look at the characters themselves: blanks ([strip], [rstrip], the class
    of blanks in patterns) and letter case ([lower]).  They are modelled on
    ASCII, the alphabet of the markup and of the chapters' metadata: on a text
    of ASCII characters they are Python's, and [is_ascii] below says of a text
    that it is of that kind.

    The file has three parts: the scripts, function by function and under
    the names of the source; the inputs and notions the statements speak of;
    the proofs, with one theorem per claim of the specification. *)

From Stdlib Require Import String Ascii List Bool Arith ZArith Lia DecimalString.
Import ListNotations.
Open Scope string_scope.

(** ** Python string primitives used by the scripts *)

Module PyStr.

(** [s.startswith(p)] *)
Fixpoint startswith (s p : string) {struct p} : bool :=
  match p with
  | EmptyString => true
  | String a p' =>
      match s with
      | EmptyString => false
      | String b s' => Ascii.eqb a b && startswith s' p'
      end
  end.

(** The scanning loop of [s.replace(old, new)] for a non-empty [old]: at each
    position, an occurrence of [old] is replaced by [new] and the scan resumes
    after it; otherwise the character is copied.  [skip] counts the characters
    of the occurrence still to be passed over. *)
Fixpoint replace_from (old new : string) (skip : nat) (s : string) : string :=
  match s with
  | EmptyString => EmptyString
  | String c s' =>
      match skip with
      | S k => replace_from old new k s'
      | O =>
          if startswith s old
          then new ++ replace_from old new (String.length old - 1) s'
          else String c (replace_from old new 0 s')
      end
  end.

(** With an empty [old], Python inserts [new] before every character and at
    the end. *)
Fixpoint interleave (new s : string) : string :=
  match s with
  | EmptyString => new
  | String c s' => new ++ String c (interleave new s')
  end.

(** [s.replace(old, new)] *)
Definition replace (s old new : string) : string :=
  match old with
  | EmptyString => interleave new s
  | String _ _ => replace_from old new 0 s
  end.

(** [s[n:]] *)
Fixpoint drop (n : nat) (s : string) : string :=
  match n, s with
  | S k, String _ s' => drop k s'
  | _, _ => s
  end.

(** [sub in s] *)
Fixpoint contains (s sub : string) : bool :=
  startswith s sub ||
  match s with
  | EmptyString => false
  | String _ s' => contains s' sub
  end.

(** The parts of [s.split(sep)] for a non-empty [sep]; [cur] is the part being
    read.  The result always has at least one part. *)
Fixpoint split_from (sep : string) (skip : nat) (cur s : string) : list string :=
  match s with
  | EmptyString => [cur]
  | String c s' =>
      match skip with
      | S k => split_from sep k cur s'
      | O =>
          if startswith s sep
          then cur :: split_from sep (String.length sep - 1) "" s'
          else split_from sep 0 (cur ++ String c "") s'
      end
  end.

Definition split (s sep : string) : list string := split_from sep 0 "" s.

(** [s.split(sep, 1)]: at most one cut, at the first occurrence. *)
Fixpoint split1_from (sep : string) (cur s : string) : list string :=
  match s with
  | EmptyString => [cur]
  | String c s' =>
      if startswith s sep
      then [cur; drop (String.length sep) s]
      else split1_from sep (cur ++ String c "") s'
  end.

Definition split1 (s sep : string) : list string := split1_from sep "" s.

(** [sep.join(parts)] *)
Fixpoint join (sep : string) (parts : list string) : string :=
  match parts with
  | [] => ""
  | [x] => x
  | x :: rest => x ++ sep ++ join sep rest
  end.

(** [''.join(parts)] *)
Definition concat (parts : list string) : string := join "" parts.

(** Whitespace of [str.strip()], [str.isspace()] within ASCII: tab, line feed,
    vertical tab, form feed, carriage return, the four separators 28 to 31,
    and the space. *)
Definition is_space (c : ascii) : bool :=
  let n := nat_of_ascii c in
  (((9 <=? n) && (n <=? 13)) || ((28 <=? n) && (n <=? 32)))%nat.

Fixpoint lstrip_by (p : ascii -> bool) (s : string) : string :=
  match s with
  | EmptyString => EmptyString
  | String c s' => if p c then lstrip_by p s' else s
  end.

Fixpoint rstrip_by (p : ascii -> bool) (s : string) : string :=
  match s with
  | EmptyString => EmptyString
  | String c s' =>
      match rstrip_by p s' with
      | EmptyString => if p c then EmptyString else String c EmptyString
      | r => String c r
      end
  end.

Definition strip_by (p : ascii -> bool) (s : string) : string :=
  rstrip_by p (lstrip_by p s).

(** [s.strip()], [s.rstrip()] *)
Definition strip (s : string) : string := strip_by is_space s.
Definition rstrip (s : string) : string := rstrip_by is_space s.

(** [chars] as the set of characters of [s.strip(chars)] *)
Fixpoint mem_char (chars : string) (c : ascii) : bool :=
  match chars with
  | EmptyString => false
  | String a chars' => Ascii.eqb a c || mem_char chars' c
  end.

(** A Python string is true when it is not empty. *)
Definition truthy (s : string) : bool :=
  match s with EmptyString => false | String _ _ => true end.

Definition is_upper (c : ascii) : bool :=
  let n := nat_of_ascii c in ((65 <=? n) && (n <=? 90))%nat.
Definition is_lower (c : ascii) : bool :=
  let n := nat_of_ascii c in ((97 <=? n) && (n <=? 122))%nat.
Definition is_digit (c : ascii) : bool :=
  let n := nat_of_ascii c in ((48 <=? n) && (n <=? 57))%nat.

(** [s.lower()] on ASCII letters. *)
Definition lower_char (c : ascii) : ascii :=
  if is_upper c then ascii_of_nat (nat_of_ascii c + 32) else c.

Fixpoint lower (s : string) : string :=
  match s with
  | EmptyString => EmptyString
  | String c s' => String (lower_char c) (lower s')
  end.

(** The characters that cannot be typed inside a string literal here. *)
Definition dq : string := String (ascii_of_nat 34) "".
Definition nl : string := String (ascii_of_nat 10) "".

(** [str(n)] for a natural number. *)
Definition str_of_nat (n : nat) : string :=
  NilEmpty.string_of_uint (Nat.to_uint n).

(** List helpers for the index loops over [lines]. *)
Fixpoint take_while {A} (p : A -> bool) (l : list A) : list A :=
  match l with
  | [] => []
  | x :: l' => if p x then x :: take_while p l' else []
  end.

(** [lines[i]], read only under the guard [i < len(lines)]. *)
Definition line_at (lines : list string) (i : nat) : string := nth i lines "".

(** [parts[k]] of a split, read only where the separator is known to occur. *)
Definition part (parts : list string) (k : nat) : string := nth k parts "".

End PyStr.

(** ** The fragment of Python's [re] the scripts use

    Every regular expression modelled here is a sequence of literal text,
    single characters of a class, an optional run [cls*] and one captured run
    [cls+] (or [cls+?]).  In each of them a run is followed by a character
    outside [cls], or ends the pattern as a greedy run, so the match is the
    maximal run and no backtracking is involved. *)

Module PyRe.
Import PyStr.

Inductive atom :=
| Lit (s : string)
| One (cls : ascii -> bool)
| Skip (cls : ascii -> bool)
| Run (cls : ascii -> bool).

Fixpoint span (cls : ascii -> bool) (s : string) : string * string :=
  match s with
  | EmptyString => (EmptyString, EmptyString)
  | String c s' =>
      if cls c then let '(r, rest) := span cls s' in (String c r, rest)
      else (EmptyString, s)
  end.

(** A match of [pat] at the start of [s]: the captured run and the number of
    characters matched. *)
Fixpoint match_atoms (pat : list atom) (s : string) : option (string * nat) :=
  match pat with
  | [] => Some (EmptyString, 0)
  | Lit p :: pat' =>
      if startswith s p then
        match match_atoms pat' (drop (String.length p) s) with
        | Some (g, n) => Some (g, String.length p + n)
        | None => None
        end
      else None
  | One cls :: pat' =>
      match s with
      | String c s' =>
          if cls c then
            match match_atoms pat' s' with
            | Some (g, n) => Some (g, S n)
            | None => None
            end
          else None
      | EmptyString => None
      end
  | Skip cls :: pat' =>
      let '(r, rest) := span cls s in
      match match_atoms pat' rest with
      | Some (g, n) => Some (g, String.length r + n)
      | None => None
      end
  | Run cls :: pat' =>
      let '(r, rest) := span cls s in
      match r with
      | EmptyString => None
      | String _ _ =>
          match match_atoms pat' rest with
          | Some (_, n) => Some (r, String.length r + n)
          | None => None
          end
      end
  end.

(** The left-to-right scan shared by [re.sub], [re.search] and [re.split]:
    the text cut into unmatched characters and matches. *)
Inductive piece :=
| Chr (c : ascii)
| Hit (g : string).

Fixpoint scan_from (pat : list atom) (skip : nat) (s : string) : list piece :=
  match s with
  | EmptyString => []
  | String c s' =>
      match skip with
      | S k => scan_from pat k s'
      | O =>
          match match_atoms pat s with
          | Some (g, S n) => Hit g :: scan_from pat n s'
          | _ => Chr c :: scan_from pat 0 s'
          end
      end
  end.

Definition scan (pat : list atom) (s : string) : list piece := scan_from pat 0 s.

(** [re.sub(pat, f, s)] where [f] reads group 1; [f k g] for a callback that
    numbers its matches from [k]. *)
Fixpoint render_idx (f : nat -> string -> string) (k : nat) (ps : list piece) : string :=
  match ps with
  | [] => EmptyString
  | Chr c :: ps' => String c (render_idx f k ps')
  | Hit g :: ps' => f k g ++ render_idx f (S k) ps'
  end.

Definition sub (pat : list atom) (f : string -> string) (s : string) : string :=
  render_idx (fun _ => f) 0 (scan pat s).

(** The groups of the matches, in order. *)
Fixpoint groups (ps : list piece) : list string :=
  match ps with
  | [] => []
  | Chr _ :: ps' => groups ps'
  | Hit g :: ps' => g :: groups ps'
  end.

(** [re.search(pat, s)]: group 1 of the leftmost match. *)
Definition search (pat : list atom) (s : string) : option string :=
  match groups (scan pat s) with
  | [] => None
  | g :: _ => Some g
  end.

Definition not_char (a : ascii) (c : ascii) : bool := negb (Ascii.eqb a c).

End PyRe.

(** ** convert_ch17_comprehensive.py *)

Module Ch17Comprehensive.
Import PyStr.

(** [escape_xml], lines 10-22. *)
Definition escape_xml (text : string) : string :=
  match text with
  | EmptyString => text
  | String _ _ =>
      let text := replace text "&" "&amp;" in
      let text := replace text "<" "&lt;" in
      let text := replace text ">" "&gt;" in
      let text := replace text "&amp;amp;" "&amp;" in
      let text := replace text "&amp;lt;" "&lt;" in
      let text := replace text "&amp;gt;" "&gt;" in
      text
  end.

Import PyRe.

(** The classes [a-zA-Z0-9\-] and [a-zA-Z0-9:_\-]. *)
Definition id_char (c : ascii) : bool :=
  is_lower c || is_upper c || is_digit c || Ascii.eqb c "-".

Definition cite_char (c : ascii) : bool :=
  id_char c || Ascii.eqb c ":" || Ascii.eqb c "_".

Definition xref (prefix g : string) : string :=
  "<xref ref=" ++ dq ++ prefix ++ g ++ dq ++ " />".

Definition math_placeholder (k : nat) : string := "__MATH_" ++ str_of_nat k ++ "__".

(** [re.sub(pat, save_math, text)] for the pattern [delim [^\$]+ delim]: the
    whole match is appended to [math_placeholders], which holds [k] entries
    before the call, and replaced by the placeholder of its position. *)
Definition save_math (delim : string) (k : nat) (text : string) : string * list string :=
  let ps := scan [Lit delim; Run (not_char "$"); Lit delim] text in
  (render_idx (fun k _ => math_placeholder k) k ps,
   map (fun g => delim ++ g ++ delim) (groups ps)).

(** The loop of lines 63-72. *)
Fixpoint restore_math (k : nat) (saved : list string) (text : string) : string :=
  match saved with
  | [] => text
  | math_expr :: saved' =>
      restore_math (S k) saved'
        (if contains math_expr "$$"
         then replace text (math_placeholder k)
                ("<me>" ++ strip (strip_by (Ascii.eqb "$") math_expr) ++ "</me>")
         else replace text (math_placeholder k)
                ("<m>" ++ strip_by (Ascii.eqb "$") math_expr ++ "</m>"))
  end.

(** [process_inline_formatting], lines 24-74. *)
Definition process_inline_formatting (text : string) : string :=
  if negb (truthy text) then text else
  let '(text, display) := save_math "$$" 0 text in
  let '(text, inline) := save_math "$" (List.length display) text in
  let math_placeholders := List.app display inline in
  let text := sub [Lit "@sec-"; Run id_char] (xref "sec-") text in
  let text := sub [Lit "@fig-"; Run id_char] (xref "fig-") text in
  let text := sub [Lit "@tbl-"; Run id_char] (xref "tbl-") text in
  let text := sub [Lit "@eq-"; Run id_char] (xref "eq-") text in
  let text := sub [Lit "@exm-"; Run id_char] (xref "exm-") text in
  let text := sub [Lit "@exr-"; Run id_char] (xref "exr-") text in
  let text := sub [Lit "[Chapter -@sec-"; Run id_char; Lit "]"] (xref "sec-") text in
  let text := sub [Lit "[@"; Run cite_char; Lit "]"] (xref "biblio-") text in
  let text := sub [Lit "**"; Run (not_char "*"); Lit "**"]
                  (fun g => "<alert>" ++ g ++ "</alert>") text in
  let text := sub [Lit "*"; Run (not_char "*"); Lit "*"]
                  (fun g => "<em>" ++ g ++ "</em>") text in
  let text := sub [Lit "`"; Run (not_char "`"); Lit "`"]
                  (fun g => "<c>" ++ g ++ "</c>") text in
  restore_math 0 math_placeholders text.

End Ch17Comprehensive.

(** ** convert_ch17_comprehensive.py: the function [convert_qmd_to_ptx]

    The state of its loops is a record of the local variables.  [in_list]
    and [content_buffer] are assigned once and never read, and
    [exercises_content] is never read; they are left out.  Every turn of
    the main loop ends with [i += 1], so the loop is a fold of [step] over
    the lines that the first loop leaves. *)

Module ConvertQmdToPtx.
Import PyStr PyRe Ch17Comprehensive.

Record state := mkState {
  output : list string;
  in_code_block : bool;
  in_guidedpractice : bool;
  in_workedexample : bool;
  in_data_box : bool;
  in_important : bool;
  in_solution : bool;
  code_block_lines : list string;
  current_section_level : nat
}.

(** [output.append] for each of [ls]. *)
Definition emit (ls : list string) (st : state) : state :=
  mkState (List.app (output st) ls) (in_code_block st) (in_guidedpractice st)
    (in_workedexample st) (in_data_box st) (in_important st) (in_solution st)
    (code_block_lines st) (current_section_level st).

Definition set_code (b : bool) (ls : list string) (st : state) : state :=
  mkState (output st) b (in_guidedpractice st) (in_workedexample st) (in_data_box st)
    (in_important st) (in_solution st) ls (current_section_level st).

Definition set_in_guidedpractice (b : bool) (st : state) : state :=
  mkState (output st) (in_code_block st) b (in_workedexample st) (in_data_box st)
    (in_important st) (in_solution st) (code_block_lines st) (current_section_level st).

Definition set_in_workedexample (b : bool) (st : state) : state :=
  mkState (output st) (in_code_block st) (in_guidedpractice st) b (in_data_box st)
    (in_important st) (in_solution st) (code_block_lines st) (current_section_level st).

Definition set_in_data_box (b : bool) (st : state) : state :=
  mkState (output st) (in_code_block st) (in_guidedpractice st) (in_workedexample st) b
    (in_important st) (in_solution st) (code_block_lines st) (current_section_level st).

Definition set_in_important (b : bool) (st : state) : state :=
  mkState (output st) (in_code_block st) (in_guidedpractice st) (in_workedexample st)
    (in_data_box st) b (in_solution st) (code_block_lines st) (current_section_level st).

Definition set_in_solution (b : bool) (st : state) : state :=
  mkState (output st) (in_code_block st) (in_guidedpractice st) (in_workedexample st)
    (in_data_box st) (in_important st) b (code_block_lines st) (current_section_level st).

Definition set_current_section_level (n : nat) (st : state) : state :=
  mkState (output st) (in_code_block st) (in_guidedpractice st) (in_workedexample st)
    (in_data_box st) (in_important st) (in_solution st) (code_block_lines st) n.

(** Lines 84-105. *)
Definition init : state :=
  mkState
    [ "<?xml version=" ++ dq ++ "1.0" ++ dq ++ " encoding=" ++ dq ++ "UTF-8" ++ dq ++ " ?>";
      "";
      "<chapter xml:id=" ++ dq ++ "ch17-inference-two-proportions" ++ dq
        ++ " xmlns:xi=" ++ dq ++ "http://www.w3.org/2001/XInclude" ++ dq ++ ">";
      "  <title>Inference for comparing two proportions</title>";
      "" ]
    false false false false false false [] 0.

(** Lines 116-123: what the introduction writes once its lines are read. *)
Definition close_introduction (intro_lines : list string) (st : state) : state :=
  let intro_text := process_inline_formatting (strip (join nl intro_lines)) in
  let st := if truthy intro_text
            then emit ["    <p>"; "      " ++ intro_text; "    </p>"] st
            else st in
  emit ["  </introduction>"; ""] st.

(** The loop of lines 108-124, with the loop of lines 113-115 inside it: the
    state and the lines from index [i] on.  [intro] is [None] in the outer
    loop and holds [intro_lines] in the inner one, which ends at a line that
    holds three colons or at the end of the lines; the [i += 1] of line 124
    then passes that line. *)
Fixpoint skip_header (intro : option (list string)) (lines : list string) (st : state)
  : state * list string :=
  match lines with
  | [] =>
      match intro with
      | Some intro_lines => (close_introduction intro_lines st, [])
      | None => (st, [])
      end
  | line :: rest =>
      match intro with
      | Some intro_lines =>
          if contains line ":::"
          then skip_header None rest (close_introduction intro_lines st)
          else skip_header (Some (List.app intro_lines [line])) rest st
      | None =>
          if startswith (strip line) "## " then (st, lines)
          else if contains line ":::{.chapterintro"
          then skip_header (Some []) rest (emit ["  <introduction>"] st)
          else skip_header None rest st
      end
  end.

(** [s[:s.index(sub)]], read only where [sub] occurs in [s]. *)
Definition before (s sub : string) : string := hd "" (split1 s sub).

(** Lines 141-151: the listing of a code block. *)
Definition listing (st : state) : state :=
  match code_block_lines st with
  | [] => st
  | _ :: _ =>
      let st := emit ["  <listing>"; "    <program language=" ++ dq ++ "r" ++ dq ++ ">";
                      "      <code>"] st in
      let st := emit (map (fun code_line => "        " ++ escape_xml code_line)
                          (code_block_lines st)) st in
      emit ["      </code>"; "    </program>"; "  </listing>"; ""] st
  end.

(** Lines 158-175. *)
Definition section (line : string) (st : state) : state :=
  let st := if (0 <? current_section_level st)%nat
            then emit ["  </section>"; ""] st else st in
  let section_title := strip (replace line "## " "") in
  let '(section_id, section_title) :=
    if contains section_title "{#sec-" then
      match search [Lit "{#sec-"; Run id_char; Lit "}"] section_title with
      | Some g => ("sec-" ++ g, strip (before section_title "{"))
      | None => ("", section_title)
      end
    else ("", section_title) in
  let section_title := process_inline_formatting section_title in
  let st := emit ["  <section xml:id=" ++ dq ++ section_id ++ dq ++ ">";
                  "    <title>" ++ section_title ++ "</title>";
                  ""] st in
  set_current_section_level 1 st.

(** Lines 177-194. *)
Definition subsection (line : string) (st : state) : state :=
  let st := if (current_section_level st =? 2)%nat
            then emit ["    </subsection>"; ""] st else st in
  let subsection_title := strip (replace line "### " "") in
  let '(subsection_id, subsection_title) :=
    if contains subsection_title "{#" then
      match search [Lit "{#"; Run id_char; Lit "}"] subsection_title with
      | Some g => (g, strip (before subsection_title "{"))
      | None => ("", subsection_title)
      end
    else ("", subsection_title) in
  let subsection_title := process_inline_formatting subsection_title in
  let st := emit ["    <subsection xml:id=" ++ dq ++ subsection_id ++ dq ++ ">";
                  "      <title>" ++ subsection_title ++ "</title>";
                  ""] st in
  set_current_section_level 2 st.

(** Lines 204-215. *)
Definition workedexample (line : string) (st : state) : state :=
  let example_id :=
    if contains line "{#" then
      match search [Lit "{#"; Run id_char] line with
      | Some g => " xml:id=" ++ dq ++ g ++ dq
      | None => ""
      end
    else "" in
  emit ["    <example" ++ example_id ++ ">"; "      <statement>"]
       (set_in_workedexample true st).

(** Lines 232-240 and 242-249: the end of an exercise or of an example. *)
Definition close_statement (tag : string) (st : state) : state :=
  let st := if in_solution st
            then set_in_solution false (emit ["      </solution>"] st)
            else emit ["      </statement>"] st in
  emit ["    </" ++ tag ++ ">"; ""] st.

(** Lines 231-257. *)
Definition close_box (st : state) : state :=
  if in_guidedpractice st then set_in_guidedpractice false (close_statement "exercise" st)
  else if in_workedexample st then set_in_workedexample false (close_statement "example" st)
  else if in_data_box st then set_in_data_box false (emit ["    </note>"; ""] st)
  else if in_important st then set_in_important false (emit ["    </assemblage>"; ""] st)
  else st.

(** Lines 260-265. *)
Definition open_solution (st : state) : state :=
  if in_guidedpractice st || in_workedexample st then
    if negb (in_solution st)
    then set_in_solution true (emit ["      </statement>"; "      <solution>"] st)
    else st
  else st.

(** Lines 268-280. *)
Definition paragraph (line : string) (st : state) : state :=
  let processed_line := process_inline_formatting (strip line) in
  if truthy processed_line then
    let indent := "    " in
    let indent := if (current_section_level st =? 2)%nat then "      " else indent in
    let indent := if in_guidedpractice st || in_workedexample st || in_data_box st
                     || in_important st
                  then "        " else indent in
    emit [indent ++ "<p>"; indent ++ "  " ++ processed_line; indent ++ "</p>"] st
  else st.

(** One turn of the loop of lines 127-282. *)
Definition step (st : state) (line : string) : state :=
  if startswith (strip line) "```{r" then set_code true [] st
  else if in_code_block st then
    if String.eqb (strip line) "```"
    then set_code false [] (listing st)
    else set_code (in_code_block st) (List.app (code_block_lines st) [line]) st
  else if startswith line "## " then section line st
  else if startswith line "### " then subsection line st
  else if contains line ":::{.guidedpractice" || contains line ":::guidedpractice"
  then emit ["    <exercise>"; "      <statement>"] (set_in_guidedpractice true st)
  else if contains line ":::{.workedexample" || contains line ":::workedexample"
  then workedexample line st
  else if contains line ":::{.data" || contains line ":::data"
  then emit ["    <note>"; "      <title>Data</title>"] (set_in_data_box true st)
  else if contains line ":::{.important" || contains line ":::important"
  then emit ["    <assemblage>"] (set_in_important true st)
  else if String.eqb (strip line) ":::" || startswith (strip line) ":::"
  then close_box st
  else if contains line "## Solution" || contains line "## Answer"
          || contains line "{.callout-note"
  then open_solution st
  else if truthy (strip line) && negb (startswith (strip line) "#")
  then paragraph line st
  else st.

(** Lines 284-298. *)
Definition finish (st : state) : state :=
  let st := if (current_section_level st =? 2)%nat
            then emit ["    </subsection>"] st else st in
  let st := if (1 <=? current_section_level st)%nat
            then emit ["  </section>"] st else st in
  emit [ "";
         "  <section xml:id=" ++ dq ++ "sec-chp17-exercises" ++ dq ++ ">";
         "    <title>Chapter exercises</title>";
         "    <p>Exercises from the chapter exercises file will be included here.</p>";
         "  </section>";
         "";
         "</chapter>" ] st.

(** The list [output] at line 300. *)
Definition output_lines (qmd_content : string) : list string :=
  let '(st, rest) := skip_header None (split qmd_content nl) init in
  output (finish (fold_left step rest st)).

(** [convert_qmd_to_ptx], lines 81-300. *)
Definition convert_qmd_to_ptx (qmd_content exercises_content : string) : string :=
  join nl (output_lines qmd_content).

End ConvertQmdToPtx.

(** ** convert_ch19.py *)

Module Ch19.
Import PyStr PyRe.

(** [escape_xml], lines 10-15. *)
Definition escape_xml (text : string) : string :=
  let text := replace text "&" "&amp;" in
  let text := replace text "<" "&lt;" in
  let text := replace text ">" "&gt;" in
  text.

(** [convert_inline_math], lines 17-26: the pattern is [\$([^\$]+?)\$]. *)
Definition convert_inline_math (text : string) : string :=
  sub [Lit "$"; Run (not_char "$"); Lit "$"]
      (fun content => "<m>" ++ content ++ "</m>") text.

(** [convert_display_math], lines 28-36: [\$\$([^\$]+?)\$\$]. *)
Definition convert_display_math (text : string) : string :=
  sub [Lit "$$"; Run (not_char "$"); Lit "$$"]
      (fun content => "<me>" ++ strip content ++ "</me>") text.

(** [convert_bold_italic], lines 38-44. *)
Definition convert_bold_italic (text : string) : string :=
  let text := sub [Lit "**"; Run (not_char "*"); Lit "**"]
                  (fun g => "<alert>" ++ g ++ "</alert>") text in
  let text := sub [Lit "*"; Run (not_char "*"); Lit "*"]
                  (fun g => "<em>" ++ g ++ "</em>") text in
  text.

(** The class [a-zA-Z0-9_-]. *)
Definition ref_char (c : ascii) : bool :=
  is_lower c || is_upper c || is_digit c || Ascii.eqb c "_" || Ascii.eqb c "-".

Definition xref (prefix g : string) : string :=
  "<xref ref=" ++ dq ++ prefix ++ g ++ dq ++ "/>".

(** [convert_cross_refs], lines 46-56. *)
Definition convert_cross_refs (text : string) : string :=
  let text := sub [Lit "@fig-"; Run ref_char] (xref "fig-") text in
  let text := sub [Lit "@sec-"; Run ref_char] (xref "sec-") text in
  let text := sub [Lit "@tbl-"; Run ref_char] (xref "tbl-") text in
  let text := sub [Lit "Chapter -@sec-"; Run ref_char] (xref "sec-") text in
  text.

(** [convert_index], lines 58-61: [\\index\{([^\}]+?)\}]. *)
Definition convert_index (text : string) : string :=
  sub [Lit "\index{"; Run (not_char "}"); Lit "}"]
      (fun g => "<idx>" ++ g ++ "</idx>") text.

(** [process_line], lines 63-71. *)
Definition process_line (line : string) : string :=
  let line := convert_cross_refs line in
  let line := convert_index line in
  let line := convert_display_math line in
  let line := convert_inline_math line in
  let line := convert_bold_italic line in
  line.

(** The variables of [main] that are read after being written.  ([in_code_block],
    [in_figure_block], [in_callout], [callout_type] and [callout_lines] are
    assigned but never read.)  [stopped] records the [break] of the loop. *)
Record state := mkState {
  i : nat;
  output : list string;
  figure_caption : string;
  figure_label : string;
  figure_width : string;
  section_level : nat;
  in_intro : bool;
  in_exercise : bool;
  exercise_lines : list string;
  stopped : bool
}.

Definition init : state :=
  mkState 0
    [ "<?xml version=" ++ dq ++ "1.0" ++ dq ++ " encoding=" ++ dq ++ "UTF-8" ++ dq ++ " ?>" ++ nl;
      nl;
      "<chapter xml:id=" ++ dq ++ "ch19-inference-single-mean" ++ dq ++ ">" ++ nl;
      "  <title>Inference for a single mean</title>" ++ nl;
      nl ]
    "" "" "70%" 0 true false [] false.

Definition set_i (n : nat) (st : state) : state :=
  mkState n (output st) (figure_caption st) (figure_label st) (figure_width st)
          (section_level st) (in_intro st) (in_exercise st) (exercise_lines st) (stopped st).

Definition emit (xs : list string) (st : state) : state :=
  mkState (i st) (List.app (output st) xs) (figure_caption st) (figure_label st) (figure_width st)
          (section_level st) (in_intro st) (in_exercise st) (exercise_lines st) (stopped st).

Definition set_figure (cap lab wid : string) (st : state) : state :=
  mkState (i st) (output st) cap lab wid
          (section_level st) (in_intro st) (in_exercise st) (exercise_lines st) (stopped st).

Definition set_section_level (n : nat) (st : state) : state :=
  mkState (i st) (output st) (figure_caption st) (figure_label st) (figure_width st)
          n (in_intro st) (in_exercise st) (exercise_lines st) (stopped st).

Definition set_in_intro (b : bool) (st : state) : state :=
  mkState (i st) (output st) (figure_caption st) (figure_label st) (figure_width st)
          (section_level st) b (in_exercise st) (exercise_lines st) (stopped st).

Definition set_exercise (b : bool) (ls : list string) (st : state) : state :=
  mkState (i st) (output st) (figure_caption st) (figure_label st) (figure_width st)
          (section_level st) (in_intro st) b ls (stopped st).

Definition stop (st : state) : state :=
  mkState (i st) (output st) (figure_caption st) (figure_label st) (figure_width st)
          (section_level st) (in_intro st) (in_exercise st) (exercise_lines st) true.

(** [i += 1; continue] *)
Definition next (st : state) : state := set_i (S (i st)) st.

(** The index reached by [while i < len(lines) and p(lines[i]): i += 1]. *)
Definition scan_to (lines : list string) (p : string -> bool) (i : nat) : nat :=
  i + List.length (take_while p (skipn i lines)).

Definition in_range (lines : list string) (i : nat) : bool :=
  Nat.ltb i (List.length lines).

(** The tag of an element with an optional [xml:id]. *)
Definition open_tag (name id : string) : string :=
  if truthy id then "<" ++ name ++ " xml:id=" ++ dq ++ id ++ dq ++ ">"
  else "<" ++ name ++ ">".

(** [line.split('{#')[1].rstrip('}') if '{#' in line else ''] *)
Definition heading_id (line : string) : string :=
  if contains line "{#"
  then rstrip_by (Ascii.eqb "}") (part (split line "{#") 1)
  else "".

(** [line.replace(marker, '').split('{#')[0].strip()] *)
Definition heading_title (marker line : string) : string :=
  strip (part (split (replace line marker "") "{#") 0).

(** Section headings, lines 131-180. *)
Definition section_heading (line : string) (st : state) : state :=
  let st := if in_intro st
            then set_in_intro false (emit ["  <introduction>" ++ nl] st)
            else st in
  let st := if Nat.eqb (section_level st) 2
            then emit ["    </subsection>" ++ nl; "  </section>" ++ nl] st
            else if Nat.eqb (section_level st) 1
            then emit ["  </section>" ++ nl] st
            else st in
  if contains line "Chapter review" then
    next (set_section_level 1
      (emit [nl ++ "  <section xml:id=" ++ dq ++ "sec-chp19-review" ++ dq ++ ">" ++ nl;
             "    <title>Chapter review</title>" ++ nl] st))
  else if contains line "Exercises" && contains line "#sec-chp19-exercises" then
    let st := if Nat.ltb 0 (section_level st)
              then emit (List.app (if Nat.eqb (section_level st) 2
                                   then ["    </subsection>" ++ nl] else [])
                                  ["  </section>" ++ nl]) st
              else st in
    stop (emit [nl ++ "  <xi:include href=" ++ dq ++ "../exercises/ch19-exercises.ptx" ++ dq
                   ++ " xmlns:xi=" ++ dq ++ "http://www.w3.org/2001/XInclude" ++ dq ++ "/>" ++ nl;
                "</chapter>" ++ nl] st)
  else if contains line "Bootstrap confidence interval for a mean" then
    next (set_section_level 1
      (emit ["  </introduction>" ++ nl ++ nl;
             "  <section xml:id=" ++ dq ++ "sec-boot1mean" ++ dq ++ ">" ++ nl;
             "    <title>Bootstrap confidence interval for a mean</title>" ++ nl] st))
  else if contains line "Mathematical model for a mean" then
    let st := if Nat.eqb (section_level st) 2
              then emit ["    </subsection>" ++ nl] st else st in
    next (set_section_level 1
      (emit ["  </section>" ++ nl ++ nl;
             "  <section xml:id=" ++ dq ++ "sec-one-mean-math" ++ dq ++ ">" ++ nl;
             "    <title>Mathematical model for a mean</title>" ++ nl] st))
  else
    let section_id := heading_id line in
    let title := heading_title "## " line in
    next (set_section_level 1
      (emit [nl ++ "  " ++ open_tag "section" section_id ++ nl;
             "    <title>" ++ title ++ "</title>" ++ nl] st)).

(** Subsection headings, lines 183-196. *)
Definition subsection_heading (line : string) (st : state) : state :=
  let st := if Nat.eqb (section_level st) 2
            then emit ["    </subsection>" ++ nl] st else st in
  let section_id := heading_id line in
  let title := heading_title "### " line in
  next (set_section_level 2
    (emit [nl ++ "    " ++ open_tag "subsection" section_id ++ nl;
           "      <title>" ++ title ++ "</title>" ++ nl] st)).

(** The [for ex_line in exercise_lines] loop, lines 219-229: the output lines
    and the final value of [in_solution]. *)
Fixpoint exercise_body (ls : list string) (in_solution : bool) : list string * bool :=
  match ls with
  | [] => ([], in_solution)
  | ex_line :: ls' =>
      if String.eqb ex_line "SOLUTION_START" then
        let '(out, b) := exercise_body ls' true in
        (("        </statement>" ++ nl) :: ("        <solution>" ++ nl) :: out, b)
      else
        let '(out, b) := exercise_body ls' in_solution in
        if truthy (strip ex_line)
        then (("          <p>" ++ process_line ex_line ++ "</p>" ++ nl) :: out, b)
        else (out, b)
  end.

(** End of an exercise block, lines 213-240. *)
Definition close_exercise (st : state) : state :=
  let '(body, in_solution) := exercise_body (exercise_lines st) false in
  next (set_exercise false []
    (emit (List.app [nl ++ "      <exercise>" ++ nl; "        <statement>" ++ nl]
          (List.app body
             [if in_solution then "        </solution>" ++ nl
              else "        </statement>" ++ nl;
              "      </exercise>" ++ nl])) st)).

(** The metadata scan of a code chunk, lines 252-266, from index [j]: the
    final [figure_caption], [figure_label] and [figure_width].  Every turn
    advances [j], so [len(lines)] turns are enough. *)
Definition is_caption_line (l : string) : bool :=
  startswith l "#|  " || startswith l "#|   ".

Fixpoint chunk_metadata (fuel : nat) (lines : list string) (j : nat)
    (cap lab wid : string) : string * string * string :=
  match fuel with
  | O => (cap, lab, wid)
  | S fuel' =>
      if in_range lines j && startswith (line_at lines j) "#|" then
        let code_line := line_at lines j in
        let lab := if contains code_line "label:"
                   then strip (part (split code_line "label:") 1) else lab in
        let '(j, cap) :=
          if contains code_line "fig-cap:" then
            let caption_lines := take_while is_caption_line (skipn (S j) lines) in
            (S j + List.length caption_lines,
             join " " (map (fun l => strip (replace l "#|" "")) caption_lines))
          else (j, cap) in
        let wid := if contains code_line "out-width:"
                   then strip (part (split code_line "out-width:") 1) else wid in
        chunk_metadata fuel' lines (S j) cap lab wid
      else (cap, lab, wid)
  end.

Definition is_quote (c : ascii) : bool :=
  Ascii.eqb c (ascii_of_nat 34) || Ascii.eqb c "'".

(** The pattern of line 292: the text include_graphics, an opening
    parenthesis, a quote of either kind, a captured run of characters that
    are not quotes, a quote, and a closing parenthesis. *)
Definition include_graphics_re : list atom :=
  [Lit "include_graphics("; One is_quote; Run (fun c => negb (is_quote c));
   One is_quote; Lit ")"].

(** The image file of a figure, lines 287-294. *)
Definition figure_source (label : string) (code_lines : list string) : string :=
  let fig_source := replace label "fig-" "" ++ ".png" in
  if contains (join nl code_lines) "include_graphics" then
    fold_left
      (fun fig_source code_line =>
         if contains code_line "include_graphics" then
           match search include_graphics_re code_line with
           | Some g => g
           | None => fig_source
           end
         else fig_source)
      code_lines fig_source
  else fig_source.

(** The lines kept from the body of a chunk, lines 274-277. *)
Definition chunk_body (lines : list string) (i1 : nat) : list string :=
  take_while (fun l => negb (startswith l "```")) (skipn i1 lines).

Definition keep_nonblank (body : list string) : list string :=
  filter (fun l => truthy (strip l)) body.

Definition caption_of (cap : string) : list string :=
  if truthy cap then ["        <caption>" ++ process_line cap ++ "</caption>" ++ nl] else [].

(** The listing emitted for the kept lines of a chunk, lines 308-315. *)
Definition listing (cap : string) (code_lines : list string) : list string :=
  List.app [nl ++ "      <listing>" ++ nl]
 (List.app (caption_of cap)
 (List.app ["        <program language=" ++ dq ++ "r" ++ dq ++ "><input>" ++ nl]
 (List.app (map (fun code_line => escape_xml code_line ++ nl) code_lines)
           ["        </input></program>" ++ nl; "      </listing>" ++ nl]))).

(** The figure emitted for a chunk whose label starts with [fig-], lines 296-301. *)
Definition figure (cap lab wid : string) (code_lines : list string) : list string :=
  List.app [nl ++ "      <figure xml:id=" ++ dq ++ lab ++ dq ++ ">" ++ nl]
 (List.app (caption_of cap)
           ["        <image source=" ++ dq ++ figure_source lab code_lines ++ dq
              ++ " width=" ++ dq ++ wid ++ dq ++ "/>" ++ nl;
            "      </figure>" ++ nl]).

(** Code chunks, lines 248-319. *)
Definition code_block (lines : list string) (st : state) : state :=
  let '(cap, lab, wid) :=
    chunk_metadata (List.length lines) lines (S (i st))
                   (figure_caption st) (figure_label st) (figure_width st) in
  let i1 := scan_to lines (fun l => startswith l "#|") (S (i st)) in
  let body := chunk_body lines i1 in
  let code_lines := keep_nonblank body in
  let i2 := i1 + List.length body in
  let i3 := if in_range lines i2 && startswith (line_at lines i2) "```"
            then S i2 else i2 in
  let st := set_i i3 (set_figure cap lab wid st) in
  if startswith lab "fig-" then
    set_figure "" "" "70%" (emit (figure cap lab wid code_lines) st)
  else
    match code_lines with
    | [] => st
    | _ :: _ => emit (listing cap code_lines) st
    end.

(** A paragraph line, lines 336-345. *)
Definition paragraph (line : string) (st : state) : state :=
  if truthy (strip line) && negb (startswith line "#|") && negb (startswith line "```") then
    let processed := process_line line in
    let indent := if in_intro st then "    "
                  else if Nat.eqb (section_level st) 2 then "      "
                  else if Nat.eqb (section_level st) 1 then "    "
                  else "  " in
    emit [indent ++ "<p>" ++ processed ++ "</p>" ++ nl] st
  else st.

(** One turn of the [while i < len(lines)] loop, lines 107-347. *)
Definition step (lines : list string) (st : state) : state :=
  let line := rstrip (line_at lines (i st)) in
  if Nat.ltb (i st) 5
     && (startswith line "---" || contains line "output:"
         || contains line "editor_options" || contains line "chunk_output_type")
  then next st
  else if contains line "```{r}" && Nat.ltb (i st) 30
  then set_i (S (scan_to lines (fun l => negb (contains l "```")) (S (i st)))) st
  else if startswith line "# Inference for a single mean"
  then next st
  else if startswith line "## " && negb (startswith line "### ")
  then section_heading line st
  else if startswith line "### "
  then subsection_heading line st
  else if (startswith line "::: {." && contains line "workedexample")
          || contains line "guidedpractice"
  then next (set_exercise true [] st)
  else if String.eqb line "## Solution"
          || (startswith line "::: {" && contains (lower line) "solution")
  then next (if in_exercise st
             then set_exercise true (List.app (exercise_lines st) ["SOLUTION_START"]) st
             else st)
  else if in_exercise st && String.eqb line ":::"
  then close_exercise st
  else if in_exercise st
  then next (set_exercise true (List.app (exercise_lines st) [line]) st)
  else if startswith line "```{r}" || startswith line "```{r "
  then code_block lines st
  else if contains line "::: {.chapterintro"
  then next (if negb (in_intro st)
             then set_in_intro true (emit ["  <introduction>" ++ nl] st)
             else st)
  else if String.eqb line ":::" && in_intro st && Nat.ltb 20 (i st)
  then next st
  else next (paragraph line st).

(** The loop; every turn advances [i] or breaks, so [len(lines)] turns reach
    the end of the input. *)
Fixpoint loop (fuel : nat) (lines : list string) (st : state) : state :=
  match fuel with
  | O => st
  | S fuel' =>
      if stopped st then st
      else if in_range lines (i st) then loop fuel' lines (step lines st)
      else st
  end.

(** [output[-n:]] *)
Definition lastn {A} (n : nat) (l : list A) : list A :=
  skipn (List.length l - n) l.

(** After the loop, lines 349-358. *)
Definition finish (st : state) : list string :=
  let out := output st in
  let out := if Nat.eqb (section_level st) 2
             then List.app out ["    </subsection>" ++ nl; "  </section>" ++ nl]
             else if Nat.eqb (section_level st) 1
             then List.app out ["  </section>" ++ nl]
             else out in
  if negb (contains (concat (lastn 5 out)) "</chapter>")
  then List.app out ["</chapter>" ++ nl]
  else out.

Definition output_file : string :=
  "/home/runner/work/ims/ims/source/chapters/ch19-inference-single-mean.ptx".

(** What a run leaves: the lines written to the output file and the lines
    printed. *)
Record result := mkResult {
  written : list string;
  printed : list string
}.

(** [main], lines 78-365, on the lines read from the input file. *)
Definition main (lines : list string) : result :=
  let st := loop (List.length lines) lines init in
  mkResult (finish st)
    ["Conversion complete! Output written to " ++ output_file;
     "Processed " ++ str_of_nat (List.length lines) ++ " lines from input file"].

End Ch19.

(** ** convert_ch17_complete.py *)

Module Ch17Complete.
Import PyStr PyRe.

(** The class [a-zA-Z0-9\-]. *)
Definition id_char (c : ascii) : bool :=
  is_lower c || is_upper c || is_digit c || Ascii.eqb c "-".

(** The class [a-zA-Z0-9\-:]. *)
Definition cite_char (c : ascii) : bool := id_char c || Ascii.eqb c ":".

Definition xref (prefix g : string) : string :=
  "<xref ref=" ++ dq ++ prefix ++ g ++ dq ++ " />".

(** [store_math] and [store_code]: the match is stored and replaced by a
    numbered placeholder.  The result is the new text and the stored list. *)
Definition store (pat : list atom) (tag : string) (text : string) : string * list string :=
  let ps := scan pat text in
  (render_idx (fun k _ => "__" ++ tag ++ str_of_nat k ++ "__") 0 ps, groups ps).

(** [for i, x in enumerate(saved): text = text.replace(placeholder i, open x close)] *)
Fixpoint restore (tag op cl : string) (k : nat) (saved : list string) (text : string) : string :=
  match saved with
  | [] => text
  | x :: saved' =>
      restore tag op cl (S k) saved'
        (replace text ("__" ++ tag ++ str_of_nat k ++ "__") (op ++ x ++ cl))
  end.

(** [convert_inline], lines 27-69. *)
Definition convert_inline (text : string) : string :=
  if negb (truthy text) then text else
  let '(text, math_exprs) := store [Lit "$"; Run (not_char "$"); Lit "$"] "MATH" text in
  let '(text, code_spans) := store [Lit "`"; Run (not_char "`"); Lit "`"] "CODE" text in
  let text := sub [Lit "**"; Run (not_char "*"); Lit "**"]
                  (fun g => "<alert>" ++ g ++ "</alert>") text in
  let text := sub [Lit "*"; Run (not_char "*"); Lit "*"]
                  (fun g => "<em>" ++ g ++ "</em>") text in
  let text := restore "CODE" "<c>" "</c>" 0 code_spans text in
  let text := restore "MATH" "<m>" "</m>" 0 math_exprs text in
  let text := sub [Lit "@fig-"; Run id_char] (xref "fig-") text in
  let text := sub [Lit "@tbl-"; Run id_char] (xref "tbl-") text in
  let text := sub [Lit "@sec-"; Run id_char] (xref "sec-") text in
  let text := sub [Lit "[Chapter -@sec-"; Run id_char; Lit "]"] (xref "sec-") text in
  let text := sub [Lit "[@"; Run cite_char; Lit "]"] (xref "biblio-") text in
  text.

End Ch17Complete.

(** ** convert_ch17_two_props.py *)

Module Ch17TwoProps.
Import PyStr PyRe.

(** [escape_xml], lines 10-15. *)
Definition escape_xml (text : string) : string :=
  if negb (truthy text) then text
  else replace (replace (replace text "&" "&amp;") "<" "&lt;") ">" "&gt;".

Definition placeholder (tag : string) (k : nat) : string :=
  "<<<" ++ tag ++ "_" ++ str_of_nat k ++ ">>>".

(** [save_math_inline] and [save_code]: the new text and the saved list. *)
Definition save (pat : list atom) (tag : string) (text : string) : string * list string :=
  let ps := scan pat text in
  (render_idx (fun k _ => placeholder tag k) 0 ps, groups ps).

Fixpoint restore (tag op cl : string) (k : nat) (saved : list string) (text : string) : string :=
  match saved with
  | [] => text
  | x :: saved' =>
      restore tag op cl (S k) saved' (replace text (placeholder tag k) (op ++ x ++ cl))
  end.

(** [convert_inline_formatting], lines 17-50. *)
Definition convert_inline_formatting (text : string) : string :=
  if negb (truthy text) then text else
  let '(text, math_inline) := save [Lit "$"; Run (not_char "$"); Lit "$"] "MATH_INLINE" text in
  let '(text, code_spans) := save [Lit "`"; Run (not_char "`"); Lit "`"] "CODE" text in
  let text := sub [Lit "**"; Run (not_char "*"); Lit "**"]
                  (fun g => "<alert>" ++ g ++ "</alert>") text in
  let text := sub [Lit "*"; Run (not_char "*"); Lit "*"]
                  (fun g => "<em>" ++ g ++ "</em>") text in
  let text := restore "CODE" "<c>" "</c>" 0 code_spans text in
  let text := restore "MATH_INLINE" "<m>" "</m>" 0 math_inline text in
  text.

(** The class [a-zA-Z0-9\-]. *)
Definition id_char (c : ascii) : bool :=
  is_lower c || is_upper c || is_digit c || Ascii.eqb c "-".

Definition xref (prefix g : string) : string :=
  "<xref ref=" ++ dq ++ prefix ++ g ++ dq ++ " />".

(** [convert_cross_refs], lines 52-68. *)
Definition convert_cross_refs (text : string) : string :=
  if negb (truthy text) then text else
  let text := sub [Lit "@fig-"; Run id_char] (xref "fig-") text in
  let text := sub [Lit "@tbl-"; Run id_char] (xref "tbl-") text in
  let text := sub [Lit "@sec-"; Run id_char] (xref "sec-") text in
  let text := sub [Lit "[Chapter -@sec-"; Run id_char; Lit "]"] (xref "sec-") text in
  let text := sub [Lit "[@"; Run (fun c => id_char c || Ascii.eqb c ":"); Lit "]"]
                  (xref "biblio-") text in
  text.

(** The heading patterns of lines 147 and 162 backtrack: after [##] the
    whitespace run is taken whole and given back one character at a time;
    the title is the shortest non-empty text, free of line feeds, after which
    the rest of the pattern matches. *)
Definition heading_tail : list atom :=
  [Skip is_space; Lit "{#"; Run id_char; Lit "}"].

Fixpoint lazy_title (title s : string) : option (string * string) :=
  match s with
  | EmptyString => None
  | String c s' =>
      if Ascii.eqb c (ascii_of_nat 10) then None
      else
        let title := title ++ String c "" in
        match match_atoms heading_tail s' with
        | Some (g, _) => Some (title, g)
        | None => lazy_title title s'
        end
  end.

Fixpoint backtrack_ws {A} (try : string -> option A) (k : nat) (s : string) : option A :=
  match k with
  | O => None
  | S k' =>
      match try (drop k s) with
      | Some r => Some r
      | None => backtrack_ws try k' s
      end
  end.

(** [re.match(r'##\s+(.+?)\s*\{#([a-zA-Z0-9\-]+)\}', line)]: title and id. *)
Definition section_match (line : string) : option (string * string) :=
  if startswith line "##" then
    let s := drop 2 line in
    backtrack_ws (lazy_title "") (String.length (fst (span is_space s))) s
  else None.

(** [re.match(r'###\s+(.+?)(?:\s*\{#([a-zA-Z0-9\-]+)\})?', line)]: the lazy
    title is one character, the id what follows it at once, if any. *)
Definition subsection_match (line : string) : option (string * option string) :=
  if startswith line "###" then
    let s := drop 3 line in
    backtrack_ws
      (fun r => match r with
                | EmptyString => None
                | String c r' =>
                    if Ascii.eqb c (ascii_of_nat 10) then None
                    else Some (String c "",
                               match match_atoms heading_tail r' with
                               | Some (g, _) => Some g
                               | None => None
                               end)
                end)
      (String.length (fst (span is_space s))) s
  else None.

(** The variables of [convert_to_ptx] that are read.  ([in_worked_example] and
    [in_important_box] never are.) *)
Record state := mkState {
  i : nat;
  output : list string;
  in_code_block : bool;
  in_guide_practice : bool;
  in_data_box : bool;
  code_block : list string;
  current_block : list string;
  indent_level : nat
}.

Definition init : state :=
  mkState 0
    [ "<?xml version=" ++ dq ++ "1.0" ++ dq ++ " encoding=" ++ dq ++ "UTF-8" ++ dq ++ " ?>";
      "";
      "<chapter xml:id=" ++ dq ++ "sec-inference-two-props" ++ dq ++ ">";
      "  <title>Inference for comparing two proportions</title>";
      "" ]
    false false false [] [] 1.

Definition set_i (n : nat) (st : state) : state :=
  mkState n (output st) (in_code_block st) (in_guide_practice st) (in_data_box st)
          (code_block st) (current_block st) (indent_level st).

Definition emit (xs : list string) (st : state) : state :=
  mkState (i st) (List.app (output st) xs) (in_code_block st) (in_guide_practice st)
          (in_data_box st) (code_block st) (current_block st) (indent_level st).

Definition set_code (b : bool) (ls : list string) (st : state) : state :=
  mkState (i st) (output st) b (in_guide_practice st) (in_data_box st)
          ls (current_block st) (indent_level st).

Definition set_guide (b : bool) (ls : list string) (st : state) : state :=
  mkState (i st) (output st) (in_code_block st) b (in_data_box st)
          (code_block st) ls (indent_level st).

Definition set_data (b : bool) (ls : list string) (st : state) : state :=
  mkState (i st) (output st) (in_code_block st) (in_guide_practice st) b
          (code_block st) ls (indent_level st).

Definition set_indent_level (n : nat) (st : state) : state :=
  mkState (i st) (output st) (in_code_block st) (in_guide_practice st) (in_data_box st)
          (code_block st) (current_block st) n.

Definition next (st : state) : state := set_i (S (i st)) st.

Definition in_range (lines : list string) (i : nat) : bool :=
  Nat.ltb i (List.length lines).

(** [indent = '      ' if indent_level == 3 else '    '] *)
Definition indent_of (st : state) : string :=
  if Nat.eqb (indent_level st) 3 then "      " else "    ".

(** Chapter introduction, lines 116-131. *)
Definition chapter_intro (lines : list string) (st : state) : state :=
  let st := emit ["  <introduction>"] st in
  let intro_lines := take_while (fun l => negb (contains l ":::")) (skipn (S (i st)) lines) in
  let intro_text := strip (join nl intro_lines) in
  let intro_text := convert_cross_refs intro_text in
  let intro_text := convert_inline_formatting intro_text in
  set_i (S (S (i st) + List.length intro_lines))
    (emit ["    <p>"; "      " ++ intro_text; "    </p>"; "  </introduction>"] st).

(** Section headings, lines 139-155. *)
Definition section_heading (line : string) (st : state) : state :=
  let st := if Nat.ltb 2 (indent_level st)
            then set_indent_level 2 (emit ["    </subsection>"] st) else st in
  let st := if Nat.ltb 1 (indent_level st)
            then emit ["  </section>"] st else st in
  let st :=
    match section_match line with
    | Some (title, xml_id) =>
        set_indent_level 2
          (emit ["  <section xml:id=" ++ dq ++ xml_id ++ dq ++ ">";
                 "    <title>" ++ title ++ "</title>"] st)
    | None => st
    end in
  next st.

(** Subsection headings, lines 158-173. *)
Definition subsection_heading (line : string) (st : state) : state :=
  let st := if Nat.ltb 2 (indent_level st)
            then emit ["    </subsection>"] st else st in
  let st :=
    match subsection_match line with
    | Some (title, xml_id) =>
        set_indent_level 3
          (emit [match xml_id with
                 | Some id => "    <subsection xml:id=" ++ dq ++ id ++ dq ++ ">"
                 | None => "    <subsection>"
                 end;
                 "      <title>" ++ title ++ "</title>"] st)
    | None => st
    end in
  next st.

(** Opening fence of a code chunk, lines 176-183. *)
Definition open_code (lines : list string) (st : state) : state :=
  let skipped := take_while (fun l => startswith l "#|" || String.eqb (strip l) "")
                            (skipn (S (i st)) lines) in
  set_i (S (i st) + List.length skipped) (set_code true [] st).

(** Inside a code chunk, lines 185-202. *)
Definition in_code (line : string) (st : state) : state :=
  if String.eqb (strip line) "```" then
    let st' := set_code false [] st in
    next (match code_block st with
          | [] => st'
          | _ :: _ =>
              let indent := indent_of st in
              emit (List.app
                      [indent ++ "<listing>";
                       indent ++ "  <program language=" ++ dq ++ "r" ++ dq ++ ">";
                       indent ++ "    <code>"]
                   (List.app
                      (map (fun code_line => indent ++ "      " ++ escape_xml code_line)
                           (code_block st))
                      [indent ++ "    </code>";
                       indent ++ "  </program>";
                       indent ++ "</listing>"])) st'
          end)
  else next (set_code true (List.app (code_block st) [line]) st).

Definition callout_marker : string :=
  "::: {.callout-note collapse=" ++ dq ++ "true" ++ dq ++ "}".

(** Statement and solution of a guided practice, lines 216-228. *)
Definition split_block (block_text : string) : string * string :=
  if contains block_text callout_marker then
    let parts := split block_text callout_marker in
    let statement := strip (part parts 0) in
    let solution_part := if Nat.ltb 1 (List.length parts) then part parts 1 else "" in
    let solution :=
      if contains solution_part "## Solution" then
        let solution := strip (part (split solution_part "## Solution") 1) in
        strip (replace solution ":::" "")
      else "" in
    (statement, solution)
  else (block_text, "").

(** Inside a guided practice, lines 211-252. *)
Definition in_guide (line : string) (st : state) : state :=
  if contains line ":::" then
    let block_text := join nl (current_block st) in
    let '(statement, solution) := split_block block_text in
    let indent := indent_of st in
    let statement := convert_inline_formatting (convert_cross_refs statement) in
    let st' := set_guide false [] st in
    next (emit
      (List.app
         [indent ++ "<exercise>";
          indent ++ "  <statement>";
          indent ++ "    <p>";
          indent ++ "      " ++ statement;
          indent ++ "    </p>";
          indent ++ "  </statement>"]
      (List.app
         (if truthy solution then
            [indent ++ "  <solution>";
             indent ++ "    <p>";
             indent ++ "      " ++ convert_inline_formatting (convert_cross_refs solution);
             indent ++ "    </p>";
             indent ++ "  </solution>"]
          else [])
         [indent ++ "</exercise>"])) st')
  else next (set_guide true (List.app (current_block st) [line]) st).

(** Inside a data box, lines 261-278. *)
Definition in_data (line : string) (st : state) : state :=
  if contains line ":::" then
    let block_text := strip (join nl (current_block st)) in
    let block_text := convert_inline_formatting (convert_cross_refs block_text) in
    let indent := indent_of st in
    next (emit [indent ++ "<note>";
                indent ++ "  <title>Data</title>";
                indent ++ "  <p>";
                indent ++ "    " ++ block_text;
                indent ++ "  </p>";
                indent ++ "</note>"] (set_data false [] st))
  else next (set_data true (List.app (current_block st) [line]) st).

Definition para_line (l : string) : bool :=
  truthy (strip l) && negb (startswith l "#") && negb (startswith l "```")
  && negb (startswith l ":::").

(** Paragraphs, lines 281-297. *)
Definition paragraph (lines : list string) (line : string) (st : state) : state :=
  let more := take_while para_line (skipn (S (i st)) lines) in
  let para_text := strip (join " " (line :: more)) in
  let para_text := convert_inline_formatting (convert_cross_refs para_text) in
  let indent := indent_of st in
  set_i (S (i st) + List.length more)
    (emit [indent ++ "<p>"; indent ++ "  " ++ para_text; indent ++ "</p>"] st).

(** One turn of the loop, lines 105-299. *)
Definition step (lines : list string) (st : state) : state :=
  let line := line_at lines (i st) in
  if Nat.ltb (i st) 20
     && (startswith line "```{r}" || startswith line "#|"
         || contains line "include: false"
         || contains line ("source(" ++ dq ++ "_common.R" ++ dq ++ ")")
         || String.eqb (strip line) "```" || startswith line "terms_chp_")
  then next st
  else if contains line "::: {.chapterintro"
  then chapter_intro lines st
  else if startswith (strip line) "\vspace" || startswith (strip line) "\clearpage"
  then next st
  else if startswith line "## " && negb (startswith line "## Solution")
  then section_heading line st
  else if startswith line "### " && negb (startswith line "### ")
  then subsection_heading line st
  else if startswith (strip line) "```{r}"
  then open_code lines st
  else if in_code_block st
  then in_code line st
  else if contains line "::: {.guidedpractice"
  then next (set_guide true [] st)
  else if in_guide_practice st
  then in_guide line st
  else if contains line "::: {.data"
  then next (set_data true [] st)
  else if in_data_box st
  then in_data line st
  else if truthy (strip line) && negb (startswith line "#") && negb (startswith line "```")
  then paragraph lines line st
  else next st.

Fixpoint loop (fuel : nat) (lines : list string) (st : state) : state :=
  match fuel with
  | O => st
  | S fuel' =>
      if in_range lines (i st) then loop fuel' lines (step lines st) else st
  end.

(** [convert_to_ptx], lines 84-316, as the list [output] before the join. *)
Definition convert_lines (lines : list string) : list string :=
  let st := loop (List.length lines) lines init in
  let out := output st in
  let out := if Nat.ltb 2 (indent_level st) then List.app out ["    </subsection>"] else out in
  let out := if Nat.ltb 1 (indent_level st) then List.app out ["  </section>"] else out in
  List.app out
    [ "";
      "  <section xml:id=" ++ dq ++ "sec-chp17-exercises" ++ dq ++ ">";
      "    <title>Exercises</title>";
      "    <!-- Exercises to be added -->";
      "  </section>";
      "</chapter>" ].

Definition convert_to_ptx (main_content exercises_content : string) : string :=
  join nl (convert_lines (split main_content nl)).

End Ch17TwoProps.

(** ** convert_ch17_complete.py: the class [QmdToPreTeXtConverter]

    The methods change the fields of the converter and may fail: with an
    empty [indent_stack], [indent_stack[-1]] and [indent_stack.pop()] raise
    IndexError.  The loop of [handle_chapter_review] has no bound on its
    number of turns, so the functions that reach it take a number of turns
    allowed and report when it is used up.  Digits in patterns are the ASCII
    digits. *)

Module QmdToPreTeXtConverter.
Import PyStr PyRe.

Record converter := mkConverter {
  output : list string;
  indent_stack : list nat;      (* the last element of the Python list first *)
  in_section : bool;
  in_subsection : bool
}.

(** [__init__], lines 11-15. *)
Definition init : converter := mkConverter [] [0] false false.

Inductive outcome (A : Type) : Type :=
| Returns (x : A) (c : converter)
| IndexError
| OutOfTurns.
Arguments Returns {A} x c.
Arguments IndexError {A}.
Arguments OutOfTurns {A}.

Definition M (A : Type) : Type := converter -> outcome A.

Definition ret {A : Type} (x : A) : M A := fun c => Returns x c.

Definition bind {A B : Type} (m : M A) (f : A -> M B) : M B :=
  fun c =>
    match m c with
    | Returns x c' => f x c'
    | IndexError => IndexError
    | OutOfTurns => OutOfTurns
    end.

Notation "x <- m ;; k" := (bind m (fun x => k))
  (at level 100, m at next level, right associativity).
Notation "m ;; k" := (bind m (fun _ => k))
  (at level 100, right associativity).

(** [self.output.append(line)] *)
Definition output_append (line : string) : M unit :=
  fun c => Returns tt (mkConverter (List.app (output c) [line]) (indent_stack c)
                         (in_section c) (in_subsection c)).

(** [self.indent_stack[-1]] *)
Definition top : M nat :=
  fun c => match indent_stack c with
           | [] => IndexError
           | n :: _ => Returns n c
           end.

(** [self.indent_stack.append(n)] *)
Definition push (n : nat) : M unit :=
  fun c => Returns tt (mkConverter (output c) (n :: indent_stack c)
                         (in_section c) (in_subsection c)).

(** [self.indent_stack.pop()] *)
Definition pop : M unit :=
  fun c => match indent_stack c with
           | [] => IndexError
           | _ :: s => Returns tt (mkConverter (output c) s (in_section c) (in_subsection c))
           end.

Definition get_in_section : M bool := fun c => Returns (in_section c) c.
Definition get_in_subsection : M bool := fun c => Returns (in_subsection c) c.

Definition set_in_section (b : bool) : M unit :=
  fun c => Returns tt (mkConverter (output c) (indent_stack c) b (in_subsection c)).

Definition set_in_subsection (b : bool) : M unit :=
  fun c => Returns tt (mkConverter (output c) (indent_stack c) (in_section c) b).

Definition when (b : bool) (m : M unit) : M unit := if b then m else ret tt.

Fixpoint for_each {A : Type} (f : A -> M unit) (l : list A) : M unit :=
  match l with
  | [] => ret tt
  | x :: l' => f x;; for_each f l'
  end.

(** ['  ' * n] *)
Fixpoint spaces (n : nat) : string :=
  match n with
  | O => ""
  | S k => "  " ++ spaces k
  end.

(** [add_line], lines 17-20. *)
Definition add_line (line : string) (extra_indent : nat) : M unit :=
  n <- top;;
  output_append (spaces (n + extra_indent) ++ line).

Definition id_char := Ch17Complete.id_char.
Definition convert_inline := Ch17Complete.convert_inline.

(** [escape_xml], lines 71-76. *)
Definition escape_xml (text : string) : string :=
  let text := replace text "&" "&amp;" in
  let text := replace text "<" "&lt;" in
  let text := replace text ">" "&gt;" in
  text.

Definition in_range (lines : list string) (i : nat) : bool :=
  Nat.ltb i (List.length lines).

(** The lines read by [while i < len(lines) and p(lines[i])] from index [i]. *)
Definition lines_while (p : string -> bool) (lines : list string) (i : nat) : list string :=
  take_while p (skipn i lines).

(** [if para_lines: ...]: the three lines of a paragraph, with the tags at
    [tag_indent] and the text two blanks deeper. *)
Definition add_paragraph (tag_indent : string) (text : string) : M unit :=
  add_line (tag_indent ++ "<p>") 0;;
  add_line (tag_indent ++ "  " ++ text) 0;;
  add_line (tag_indent ++ "</p>") 0.

(** [handle_chapter_intro], lines 184-206. *)
Definition handle_chapter_intro (lines : list string) (i : nat) : M nat :=
  add_line "<introduction>" 0;;
  n <- top;;
  push (n + 1);;
  let body := lines_while (fun l => negb (contains l ":::")) lines (S i) in
  let para_lines := map strip (filter (fun l => truthy (strip l)) body) in
  when (negb (Nat.eqb (List.length para_lines) 0))
       (add_paragraph "" (convert_inline (join " " para_lines)));;
  pop;;
  add_line "</introduction>" 0;;
  output_append "";;
  ret (S i + List.length body + 1).

(** The closing of the open subsection and section that starts
    [handle_section], [handle_chapter_review] and [process_exercises]. *)
Definition close_open_sections : M unit :=
  sub <- get_in_subsection;;
  when sub (pop;; add_line "</subsection>" 0;; set_in_subsection false);;
  sec <- get_in_section;;
  when sec (pop;; add_line "</section>" 0;; output_append "").

(** [re.match(r'##\s+(.+?)\s*\{#([a-zA-Z0-9\-]+)\}', line)], the pattern of
    convert_ch17_two_props.py. *)
Definition section_match : string -> option (string * string) :=
  Ch17TwoProps.section_match.

(** The [if match:] block of lines 224-230 and 445-451. *)
Definition open_section (line : string) : M unit :=
  match section_match line with
  | Some (title, xml_id) =>
      add_line ("<section xml:id=" ++ dq ++ xml_id ++ dq ++ ">") 0;;
      n <- top;;
      push (n + 1);;
      add_line ("<title>" ++ title ++ "</title>") 0;;
      set_in_section true
  | None => ret tt
  end.

(** [handle_section], lines 208-232. *)
Definition handle_section (lines : list string) (i : nat) : M nat :=
  close_open_sections;;
  open_section (line_at lines i);;
  ret (i + 1).

(** [$] matches at the end of the text and before a final line feed. *)
Definition at_end (r : string) : bool := String.eqb r "" || String.eqb r nl.

(** The title of [###\s+(.+?)(?:\s*\{#([a-zA-Z0-9\-]+)\})?$]: the shortest
    non-empty text without line feed after which the identifier and the end,
    or the end alone, follow. *)
Fixpoint lazy_title_end (title s : string) : option (string * option string) :=
  match s with
  | EmptyString => None
  | String c s' =>
      if Ascii.eqb c (ascii_of_nat 10) then None
      else
        let title := title ++ String c "" in
        match match_atoms Ch17TwoProps.heading_tail s' with
        | Some (g, n) =>
            if at_end (drop n s') then Some (title, Some g)
            else if at_end s' then Some (title, None)
            else lazy_title_end title s'
        | None =>
            if at_end s' then Some (title, None)
            else lazy_title_end title s'
        end
  end.

(** [re.match(r'###\s+(.+?)(?:\s*\{#([a-zA-Z0-9\-]+)\})?$', line)] *)
Definition subsection_match (line : string) : option (string * option string) :=
  if startswith line "###" then
    let s := drop 3 line in
    Ch17TwoProps.backtrack_ws (lazy_title_end "")
      (String.length (fst (span is_space s))) s
  else None.

(** [handle_subsection], lines 234-254. *)
Definition handle_subsection (lines : list string) (i : nat) : M nat :=
  sub <- get_in_subsection;;
  when sub (pop;; add_line "</subsection>" 0);;
  match subsection_match (line_at lines i) with
  | Some (title, xml_id) =>
      add_line (match xml_id with
                | Some id => if truthy id
                             then "<subsection xml:id=" ++ dq ++ id ++ dq ++ ">"
                             else "<subsection>"
                | None => "<subsection>"
                end) 0;;
      n <- top;;
      push (n + 1);;
      add_line ("<title>" ++ title ++ "</title>") 0;;
      set_in_subsection true
  | None => ret tt
  end;;
  ret (i + 1).

(** [handle_code_block], lines 256-279. *)
Definition handle_code_block (lines : list string) (i : nat) : M nat :=
  let metadata :=
    lines_while (fun l => startswith l "#|" || negb (truthy (strip l))) lines (S i) in
  let i := S i + List.length metadata in
  let code_lines := lines_while (fun l => negb (String.eqb (strip l) "```")) lines i in
  when (negb (Nat.eqb (List.length code_lines) 0))
       (add_line "<listing>" 0;;
        add_line ("  <program language=" ++ dq ++ "r" ++ dq ++ ">") 0;;
        add_line "    <code>" 0;;
        for_each (fun code_line => add_line ("      " ++ escape_xml code_line) 0) code_lines;;
        add_line "    </code>" 0;;
        add_line "  </program>" 0;;
        add_line "</listing>" 0);;
  ret (i + List.length code_lines + 1).

(** The lines collected by the loop of lines 286-291; [prev] is [lines[i-1]]. *)
Fixpoint guided_block (prev : string) (rest : list string) : list string :=
  match rest with
  | [] => []
  | l :: rest' =>
      if String.eqb (strip l) ":::" && negb (contains prev ":::") then []
      else l :: guided_block l rest'
  end.

(** The parts of [re.split]: the texts between the matches. *)
Fixpoint re_split (cur : string) (ps : list piece) : list string :=
  match ps with
  | [] => [cur]
  | Chr c :: ps' => re_split (cur ++ String c "") ps'
  | Hit _ :: ps' => cur :: re_split "" ps'
  end.

(** [s.endswith(p)] *)
Fixpoint endswith (s p : string) : bool :=
  String.eqb s p ||
  match s with
  | EmptyString => false
  | String _ s' => endswith s' p
  end.

(** [re.sub(r':::$', '', s)] for a text [s] that does not end with a line
    feed: the marker is removed at the very end only. *)
Definition drop_final_marker (s : string) : string :=
  if endswith s ":::" then substring 0 (String.length s - 3) s else s.

(** The pattern of line 300: the opening of a callout up to its closing
    brace. *)
Definition callout_re : list atom :=
  [Lit "::: {.callout-note"; Skip (not_char "}"); Lit "}"].

(** Statement and solution of a guided practice, lines 294-308. *)
Definition guided_parts (block_text : string) : string * string :=
  if contains block_text "::: {.callout-note" then
    let parts := re_split "" (scan callout_re block_text) in
    let statement := strip (part parts 0) in
    let solution :=
      if Nat.ltb 1 (List.length parts) then
        let sol_part := part parts 1 in
        if contains sol_part "## Solution" then
          let solution := strip (part (split1 sol_part "## Solution") 1) in
          strip (drop_final_marker solution)
        else ""
      else "" in
    (statement, solution)
  else (strip block_text, "").

(** The element emitted for a statement and a solution, lines 310-326 and
    350-366. *)
Definition add_exercise (tag statement solution : string) : M unit :=
  add_line ("<" ++ tag ++ ">") 0;;
  add_line "  <statement>" 0;;
  add_paragraph "    " (convert_inline statement);;
  add_line "  </statement>" 0;;
  when (truthy solution)
       (add_line "  <solution>" 0;;
        add_paragraph "    " (convert_inline solution);;
        add_line "  </solution>" 0);;
  add_line ("</" ++ tag ++ ">") 0.

(** [handle_guided_practice], lines 281-328. *)
Definition handle_guided_practice (lines : list string) (i : nat) : M nat :=
  let block_lines := guided_block (line_at lines i) (skipn (S i) lines) in
  let '(statement, solution) := guided_parts (join nl block_lines) in
  add_exercise "exercise" statement solution;;
  ret (S i + List.length block_lines + 1).

(** [handle_worked_example], lines 330-368. *)
Definition handle_worked_example (lines : list string) (i : nat) : M nat :=
  let block_lines := lines_while (fun l => negb (contains l ":::")) lines (S i) in
  let block_text := join nl block_lines in
  let '(statement, solution) :=
    if contains block_text "## Solution" then
      let parts := split1 block_text "## Solution" in
      (strip (part parts 0), strip (part parts 1))
    else (strip block_text, "") in
  add_exercise "example" statement solution;;
  ret (S i + List.length block_lines + 1).

(** The non-blank lines of a box, stripped. *)
Definition box_lines (lines : list string) (i : nat) : list string * nat :=
  let body := lines_while (fun l => negb (contains l ":::")) lines (S i) in
  (map strip (filter (fun l => truthy (strip l)) body), S i + List.length body + 1).

(** [handle_data_box], lines 370-390. *)
Definition handle_data_box (lines : list string) (i : nat) : M nat :=
  let '(text_lines, j) := box_lines lines i in
  when (negb (Nat.eqb (List.length text_lines) 0))
       (add_line "<note>" 0;;
        add_line "  <title>Data</title>" 0;;
        add_paragraph "  " (convert_inline (join " " text_lines));;
        add_line "</note>" 0);;
  ret j.

(** [handle_important_box], lines 392-411. *)
Definition handle_important_box (lines : list string) (i : nat) : M nat :=
  let '(text_lines, j) := box_lines lines i in
  when (negb (Nat.eqb (List.length text_lines) 0))
       (add_line "<assemblage>" 0;;
        add_paragraph "  " (convert_inline (join " " text_lines));;
        add_line "</assemblage>" 0);;
  ret j.

Definition para_line (l : string) : bool :=
  truthy (strip l) && negb (startswith l "#") && negb (startswith l "```")
  && negb (startswith l ":::").

(** [handle_paragraph], lines 413-428. *)
Definition handle_paragraph (lines : list string) (i : nat) : M nat :=
  let para_lines := lines_while para_line lines i in
  when (negb (Nat.eqb (List.length para_lines) 0))
       (add_paragraph "" (convert_inline (join " " (map strip para_lines))));;
  ret (i + List.length para_lines).

(** One turn of the loop of lines 456-464. *)
Definition review_step (lines : list string) (i : nat) : M nat :=
  let line := line_at lines i in
  if startswith line "### " then handle_subsection lines i
  else if truthy (strip line) && negb (startswith line "#") then handle_paragraph lines i
  else ret (i + 1).

Fixpoint review_loop (turns : nat) (lines : list string) (i : nat) : M nat :=
  if in_range lines i && negb (startswith (line_at lines i) "## Exercises") then
    match turns with
    | O => fun _ => OutOfTurns
    | S turns' => j <- review_step lines i;; review_loop turns' lines j
    end
  else ret i.

(** [handle_chapter_review], lines 430-466. *)
Definition handle_chapter_review (turns : nat) (lines : list string) (i : nat) : M nat :=
  close_open_sections;;
  open_section (line_at lines i);;
  review_loop turns lines (i + 1).

(** One turn of the loop of [process_main_content], lines 113-182; no index
    is returned at the [break]. *)
Definition main_step (turns : nat) (lines : list string) (i : nat) : M (option nat) :=
  let line := line_at lines i in
  let continue (m : M nat) : M (option nat) := j <- m;; ret (Some j) in
  if Nat.ltb i 25
     && (startswith line "```{r}" || startswith line "#|"
         || contains line "include: false" || contains line "source("
         || contains line "terms_chp")
  then
    if String.eqb (strip line) "```{r}"
    then ret (Some (S i + List.length
                      (lines_while (fun l => negb (String.eqb (strip l) "```")) lines (S i))
                    + 1))
    else ret (Some (S i))
  else if contains line "::: {.chapterintro"
  then continue (handle_chapter_intro lines i)
  else if startswith (strip line) "\vspace" || startswith (strip line) "\clearpage"
  then ret (Some (i + 1))
  else if startswith line "## " && contains line "Chapter review"
  then continue (handle_chapter_review turns lines i)
  else if startswith line "## " && contains line "Exercises"
  then ret None
  else if startswith line "## " && negb (contains line "## Solution")
  then continue (handle_section lines i)
  else if startswith line "### " && contains line "### "
  then continue (handle_subsection lines i)
  else if startswith (strip line) "```{r}"
  then continue (handle_code_block lines i)
  else if contains line "::: {.guidedpractice"
  then continue (handle_guided_practice lines i)
  else if contains line "::: {.workedexample"
  then continue (handle_worked_example lines i)
  else if contains line "::: {.data"
  then continue (handle_data_box lines i)
  else if contains line "::: {.important"
  then continue (handle_important_box lines i)
  else if para_line line
  then continue (handle_paragraph lines i)
  else ret (Some (i + 1)).

Fixpoint main_loop (turns : nat) (lines : list string) (i : nat) : M unit :=
  if in_range lines i then
    match turns with
    | O => fun _ => OutOfTurns
    | S turns' =>
        r <- main_step turns' lines i;;
        match r with
        | Some j => main_loop turns' lines j
        | None => ret tt
        end
    end
  else ret tt.

(** [process_main_content], lines 108-182. *)
Definition process_main_content (turns : nat) (content : string) : M unit :=
  main_loop turns (split content nl) 0.

(** [re.match(r'^\d+\.\s+\*\*', line)]: the number of characters matched. *)
Definition exercise_start (line : string) : option nat :=
  match match_atoms [Run is_digit; Lit "."; Run is_space; Lit "**"] line with
  | Some (_, n) => Some n
  | None => None
  end.

Definition is_exercise_start (line : string) : bool :=
  match exercise_start line with Some _ => true | None => false end.

(** The pattern of line 506: the start of an exercise, the title up to the
    next two stars, an optional full stop, blanks, and the rest of the line;
    the title and the rest are returned. *)
Definition title_match (line : string) : option (string * string) :=
  match exercise_start line with
  | Some n =>
      let r := drop n line in
      match match_atoms [Run (not_char "*"); Lit "**"] r with
      | Some (title, n') =>
          let r := drop n' r in
          let r := if startswith r "." then drop 1 r else r in
          let r := lstrip_by is_space r in
          Some (title, fst (span (not_char (ascii_of_nat 10)) r))
      | None => None
      end
  | None => None
  end.

(** [handle_exercise_item], lines 502-552. *)
Definition handle_exercise_item (lines : list string) (i exercise_num : nat) : M nat :=
  let line := line_at lines i in
  let '(title, first_line) :=
    match title_match line with
    | Some (title, first_line) => (title, first_line)
    | None => ("Exercise " ++ str_of_nat exercise_num, line)
    end in
  let more :=
    lines_while (fun l => negb (is_exercise_start l) && negb (contains l "\clearpage"))
                lines (S i) in
  let j := S i + List.length more in
  let j := if in_range lines j && negb (is_exercise_start (line_at lines j))
           then j + 1 else j in
  let content_lines :=
    List.app (if truthy (strip first_line) then [first_line] else []) more in
  let content := join nl content_lines in
  add_line "<exercise>" 0;;
  add_line ("  <title>" ++ title ++ "</title>") 0;;
  add_line "  <statement>" 0;;
  add_paragraph "    " (convert_inline (strip content));;
  add_line "  </statement>" 0;;
  add_line "</exercise>" 0;;
  ret j.

(** The loop of lines 488-497; every turn advances [i], so [len(lines)]
    turns reach the end of the input. *)
Fixpoint exercises_loop (turns : nat) (lines : list string) (i exercise_num : nat) : M unit :=
  match turns with
  | O => ret tt
  | S turns' =>
      if in_range lines i then
        if is_exercise_start (line_at lines i) then
          j <- handle_exercise_item lines i exercise_num;;
          exercises_loop turns' lines j (exercise_num + 1)
        else exercises_loop turns' lines (i + 1) exercise_num
      else ret tt
  end.

(** [process_exercises], lines 468-500. *)
Definition process_exercises (content : string) : M unit :=
  close_open_sections;;
  add_line ("<section xml:id=" ++ dq ++ "sec-chp17-exercises" ++ dq ++ ">") 0;;
  n <- top;;
  push (n + 1);;
  add_line "<title>Exercises</title>" 0;;
  let lines := split content nl in
  exercises_loop (List.length lines) lines 0 1;;
  pop;;
  add_line "</section>" 0.

(** [convert], lines 78-106, on the contents of the two files read. *)
Definition convert (turns : nat) (main_content exercises_content : string) : M string :=
  output_append ("<?xml version=" ++ dq ++ "1.0" ++ dq ++ " encoding=" ++ dq ++ "UTF-8"
                   ++ dq ++ " ?>");;
  output_append "";;
  output_append ("<chapter xml:id=" ++ dq ++ "sec-inference-two-props" ++ dq ++ ">");;
  push 1;;
  add_line "<title>Inference for comparing two proportions</title>" 0;;
  output_append "";;
  process_main_content turns main_content;;
  process_exercises exercises_content;;
  pop;;
  output_append "</chapter>";;
  fun c => Returns (join nl (output c)) c.

End QmdToPreTeXtConverter.

(** ** convert_ch17_full.py *)

Module Ch17Full.
Import PyStr PyRe.

(** The class [a-z0-9] and its complement [^a-z0-9]. *)
Definition slug_char (c : ascii) : bool := is_lower c || is_digit c.

(** The id of a worked example from the title of its opening line, line 238:
    [re.sub(r'[^a-z0-9]+', '-', ex_title.lower()).strip('-') if ex_title else 'example']. *)
Definition example_id (ex_title : string) : string :=
  if truthy ex_title
  then strip_by (Ascii.eqb "-")
         (sub [Run (fun c => negb (slug_char c))] (fun _ => "-") (lower ex_title))
  else "example".

(** The opening tag of line 239. *)
Definition example_open (indent ex_title : string) : string :=
  indent ++ "<example xml:id=" ++ dq ++ "ex-" ++ example_id ex_title ++ dq ++ ">".

(** The end of the patterns of lines 145 and 158 after the title: blanks,
    then the end of the line or the annotation [{#prefix...}] and the end of
    the line.  [Some None] is a match without annotation, [Some (Some id)] a
    match whose second group is [id].  The line is right-stripped at line
    99, so it holds no line feed. *)
Definition annotation (prefix tail : string) : option (option string) :=
  let r := lstrip_by is_space tail in
  match r with
  | EmptyString => Some None
  | String _ _ =>
      match match_atoms [Lit ("{#" ++ prefix); Run (not_char "}"); Lit "}"] r with
      | Some (g, n) =>
          if Nat.eqb n (String.length r) then Some (Some (prefix ++ g)) else None
      | None => None
      end
  end.

(** The lazy group of the title: the shortest text of at least one character
    after which the end of the pattern matches. *)
Fixpoint lazy_heading (prefix s : string) : option (option string) :=
  match s with
  | EmptyString => None
  | String _ s' =>
      match annotation prefix s' with
      | Some g => Some g
      | None => lazy_heading prefix s'
      end
  end.

(** [re.match] of lines 145 and 158: the hashes, the blanks after them, at
    least one and all of them unless nothing would be left for the title,
    then the title. *)
Definition heading_match (hashes prefix line : string) : option (option string) :=
  if startswith line hashes then
    let '(blanks, rest) := span is_space (drop (String.length hashes) line) in
    match blanks, rest with
    | EmptyString, _ => None
    | String _ _, String _ _ => lazy_heading prefix rest
    | String _ (String _ _), EmptyString => Some None
    | String _ EmptyString, EmptyString => None
    end
  else None.

(** [sec_id] of line 148 and [subsec_id] of line 162; [None] when the
    pattern does not match and nothing is written. *)
Definition sec_id (line : string) : option string :=
  match heading_match "##" "sec-" line with
  | Some (Some id) => Some id
  | Some None => Some "sec-unknown"
  | None => None
  end.

Definition subsec_id (line : string) : option string :=
  match heading_match "###" "subsec-" line with
  | Some (Some id) => Some id
  | Some None => Some "subsec-unknown"
  | None => None
  end.

End Ch17Full.

(** ** convert_ch24_enhanced.py *)

Module Ch24Enhanced.
Import PyStr PyRe.

(** Lines 479 to 498 of the file, inside the loop of [main]. *)
Definition main_lines_479_498 : list string :=
  [ "        if line.strip() == ':::' and in_special_block:";
    "            # Check if this is closing a nested callout-note";
    "            # We need to look ahead or track the nesting level better";
    "            # For now, if we're in guidedpractice/workedexample, check if next ::: is coming";
    "            if in_special_block in ['guidedpractice', 'workedexample']:";
    "                # Check if this is the inner ::: or outer :::";
    "                # Count how many ::: we've seen in block_content";
    "                if '__SOLUTION_START__' in ''.join(block_content):";
    "                    # We have a nested solution, this might be the inner :::";
    "                    # Peek ahead to see if there's another :::";
    "                    if i + 1 < len(lines) and lines[i + 1].strip() == ':::':";
    "                        # This is inner, skip it";
    "                        i += 1";
    "                        continue";
    "                ";
    "            # Close the block";
    "            if in_special_block in ['guidedpractice', 'workedexample']:";
    "            if in_special_block in ['guidedpractice', 'workedexample']:";
    "                # Process guided practice or worked example";
    "                block_type = 'exercise' if in_special_block == 'guidedpractice' else 'example'" ].

(** Python's block rule on physical lines that are each one logical line: a
    line that ends with a colon opens a block, and the next line of code
    (blank lines and comment lines do not count) must be indented deeper;
    otherwise compiling the module raises IndentationError at the header. *)
Definition indent_width (l : string) : nat := String.length (fst (span (Ascii.eqb " ") l)).

Definition is_code_line (l : string) : bool :=
  match strip l with
  | EmptyString => false
  | String c _ => negb (Ascii.eqb c "#")
  end.

Fixpoint last_char (s : string) : option ascii :=
  match s with
  | EmptyString => None
  | String c EmptyString => Some c
  | String _ s' => last_char s'
  end.

Definition opens_block (l : string) : bool :=
  match last_char (rstrip l) with
  | Some c => Ascii.eqb c ":"
  | None => false
  end.

(** The code lines with their line numbers, from line [n]. *)
Fixpoint numbered (n : nat) (ls : list string) : list (nat * string) :=
  match ls with
  | [] => []
  | l :: ls' =>
      if is_code_line l then (n, l) :: numbered (S n) ls' else numbered (S n) ls'
  end.

(** The number of the first header that has no indented block after it. *)
Fixpoint missing_block (ls : list (nat * string)) : option nat :=
  match ls with
  | (n, a) :: (((_, b) :: _) as rest) =>
      if opens_block a && Nat.leb (indent_width b) (indent_width a)
      then Some n
      else missing_block rest
  | _ => None
  end.

Inductive outcome :=
| IndentationError (line : nat)
| Ran (written : list string).

Section RunModule.

(** What the compiled module would write for the lines of its input file. *)
Variable execute : list string -> list string.

(** Running the script: the whole file is compiled before any statement of it
    runs. *)
Definition run (input : list string) : outcome :=
  match missing_block (numbered 479 main_lines_479_498) with
  | Some n => IndentationError n
  | None => Ran (execute input)
  end.

End RunModule.

End Ch24Enhanced.

(** ** convert_ch24_inf_model_slr.py *)

Module Ch24Slr.
Import PyStr PyRe.

(** [escape_xml], lines 60-65. *)
Definition escape_xml (text : string) : string :=
  let text := replace text "&" "&amp;" in
  let text := replace text "<" "&lt;" in
  let text := replace text ">" "&gt;" in
  text.

(** The variables of the metadata loop of [process_code_block], lines 70-77. *)
Record meta := mkMeta {
  label : string;
  caption_lines : list string;
  subcap_lines : list string;
  alt_lines : list string;
  code_content : list string;
  in_caption : bool;
  in_subcap : bool;
  in_alt : bool
}.

Definition meta0 : meta := mkMeta "" [] [] [] [] false false false.

Definition mem_string (x : string) (l : list string) : bool :=
  existsb (String.eqb x) l.

(** [line.split(':', 1)[1].strip()] on a line that holds a colon. *)
Definition after_colon (line : string) : string := strip (part (split1 line ":") 1).

Definition option_keys : list string :=
  ["fig-width:"; "fig-asp:"; "out-width:"; "layout-ncol:"; "fig-height:"].

(** One turn of [for line in code_lines], lines 79-118. *)
Definition meta_step (m : meta) (line : string) : meta :=
  let line := rstrip line in
  if contains line "#| label:" then
    mkMeta (after_colon line) (caption_lines m) (subcap_lines m) (alt_lines m)
           (code_content m) (in_caption m) (in_subcap m) (in_alt m)
  else if contains line "#| fig-cap:" then
    let cap_text := after_colon line in
    mkMeta (label m)
           (if truthy cap_text && negb (mem_string cap_text [""; "|"])
            then List.app (caption_lines m) [cap_text] else caption_lines m)
           (subcap_lines m) (alt_lines m) (code_content m) true false false
  else if contains line "#| fig-subcap:" then
    mkMeta (label m) (caption_lines m) (subcap_lines m) (alt_lines m)
           (code_content m) false true false
  else if contains line "#| fig-alt:" then
    let alt_text := after_colon line in
    mkMeta (label m) (caption_lines m) (subcap_lines m)
           (if truthy alt_text && negb (mem_string alt_text [""; "|"])
            then List.app (alt_lines m) [alt_text] else alt_lines m)
           (code_content m) false false true
  else if startswith line "#|" && (in_caption m || in_subcap m || in_alt m) then
    if existsb (fun x => contains line x) option_keys then
      mkMeta (label m) (caption_lines m) (subcap_lines m) (alt_lines m)
             (code_content m) false false false
    else
      let content := strip (replace line "#|" "") in
      if truthy content && negb (mem_string content [""; "|"; "-"]) then
        if in_caption m then
          mkMeta (label m) (List.app (caption_lines m) [content]) (subcap_lines m)
                 (alt_lines m) (code_content m) (in_caption m) (in_subcap m) (in_alt m)
        else if in_subcap m then
          mkMeta (label m) (caption_lines m) (List.app (subcap_lines m) [content])
                 (alt_lines m) (code_content m) (in_caption m) (in_subcap m) (in_alt m)
        else if in_alt m then
          mkMeta (label m) (caption_lines m) (subcap_lines m)
                 (List.app (alt_lines m) [content]) (code_content m)
                 (in_caption m) (in_subcap m) (in_alt m)
        else m
      else m
  else if negb (startswith line "#|") then
    mkMeta (label m) (caption_lines m) (subcap_lines m) (alt_lines m)
           (List.app (code_content m) [line]) (in_caption m) (in_subcap m) (in_alt m)
  else m.

Definition read_meta (code_lines : list string) : meta :=
  fold_left meta_step code_lines meta0.

(** [code_content = [l for l in code_content if l.strip()]], line 121. *)
Definition clean (code_content : list string) : list string :=
  filter (fun l => truthy (strip l)) code_content.

(** The listing of the code, lines 129-146. *)
Definition listing_part (label : string) (has_caption : bool) (code_content : list string)
  : list string :=
  match code_content with
  | [] => []
  | _ :: _ =>
      List.app
        [ (if truthy label
           then "<listing xml:id=" ++ dq ++ "listing-" ++ label ++ dq ++ ">" ++ nl
           else "<listing>" ++ nl);
          (if truthy label && has_caption
           then "  <caption><c>R</c> code to generate <xref ref=" ++ dq ++ label ++ dq
                  ++ " /></caption>" ++ nl
           else "  <caption><c>R</c> code</caption>" ++ nl);
          "  <program language=" ++ dq ++ "r" ++ dq ++ ">" ++ nl;
          "    <input>" ++ nl ]
     (List.app
        (map (fun line => escape_xml line ++ nl) code_content)
        [ "    </input>" ++ nl;
          "  </program>" ++ nl;
          "</listing>" ++ nl ++ nl ])
  end.

Definition image_line (indent img_name width : string) : string :=
  indent ++ "<image source=" ++ dq ++ "images/" ++ img_name ++ dq
         ++ " width=" ++ dq ++ width ++ dq ++ " />" ++ nl.

(** [for i, subcap in enumerate(subcap_lines, 1)], lines 159-164, from [i]. *)
Fixpoint panels (label : string) (i : nat) (subcaps : list string) : list string :=
  match subcaps with
  | [] => []
  | subcap :: rest =>
      let img_name := label ++ "-" ++ str_of_nat i ++ ".png" in
      List.app
        [ "    <figure xml:id=" ++ dq ++ label ++ "-" ++ str_of_nat i ++ dq ++ ">" ++ nl;
          "      <caption>" ++ strip_by (mem_char "- ") subcap ++ "</caption>" ++ nl;
          image_line "      " img_name "90%";
          "    </figure>" ++ nl ]
        (panels label (S i) rest)
  end.

(** What a call returns, or the [re.error] it raises with its message. *)
Inductive outcome (A : Type) : Type :=
| Returns (x : A)
| ReError (msg : string).
Arguments Returns {A} x.
Arguments ReError {A} msg.

(** The pattern of the inline math, line 29. *)
Definition inline_math_pattern : string :=
  "\$([a-zA-Z_][^\$\n]*?[a-zA-Z_0-9})\])\$".

(** The pattern as the parser of [re] reads it: character by character, a
    backslash together with the character after it. *)
Fixpoint tokens (pattern : string) : list string :=
  match pattern with
  | EmptyString => []
  | String c EmptyString => [String c ""]
  | String c (String d r as r1) =>
      if Ascii.eqb c "\" then String c (String d "") :: tokens r
      else String c "" :: tokens r1
  end.

(** Where the parser stands with regard to the character sets: outside of
    them, behind the opening bracket, before an item of the set ([first] when
    the set has no item yet), behind an item, or behind the hyphen of a
    range. *)
Inductive place := Outside | Opened | Items (first : bool) | AfterItem | Dash.

(** A closing bracket ends the set unless it is its first item. *)
Definition item_step (first : bool) (t : string) : place :=
  if String.eqb t "]" && negb first then Outside else AfterItem.

Definition set_step (pl : place) (t : string) : place :=
  match pl with
  | Outside => if String.eqb t "[" then Opened else Outside
  | Opened => if String.eqb t "^" then Items true else item_step true t
  | Items first => item_step first t
  | AfterItem => if String.eqb t "-" then Dash else item_step false t
  | Dash => if String.eqb t "]" then Outside else Items false
  end.

(** The pattern ends inside a character set: compiling it raises
    [re.error], unterminated character set. *)
Definition unterminated_set (pattern : string) : bool :=
  match fold_left set_step (tokens pattern) Outside with
  | Outside => false
  | _ => true
  end.

(** [has_figure], line 123. *)
Definition has_figure (m : meta) : bool :=
  truthy (label m) && negb (Nat.eqb (List.length (caption_lines m)) 0).

(** The figure, lines 153-173, with the text of its caption. *)
Definition figure_part (cap_text : string) (m : meta) : list string :=
  match subcap_lines m with
  | _ :: _ =>
      List.app
        [ "<figure xml:id=" ++ dq ++ label m ++ dq ++ ">" ++ nl;
          "  <caption>" ++ cap_text ++ "</caption>" ++ nl;
          "  <sidebyside widths=" ++ dq ++ "45% 45%" ++ dq ++ ">" ++ nl ]
     (List.app
        (panels (label m) 1 (subcap_lines m))
        [ "  </sidebyside>" ++ nl;
          "</figure>" ++ nl ++ nl ])
  | [] =>
      [ "<figure xml:id=" ++ dq ++ label m ++ dq ++ ">" ++ nl;
        "  <caption>" ++ cap_text ++ "</caption>" ++ nl;
        image_line "  " (label m ++ "-1.png") "70%";
        "</figure>" ++ nl ++ nl ]
  end.

Section ProcessCodeBlock.

(** [convert_text_formatting], lines 21-41.  Each [re.sub] compiles its
    pattern before it looks at the text.  The substitution of line 25
    returns; the pattern of line 29 ends inside its last character set, whose
    only closing bracket is escaped, so the call raises [re.error] whatever
    the text.  [formatted] stands for what the five substitutions would give
    for a pattern that compiles. *)
Variable formatted : string -> string.

Definition convert_text_formatting (text : string) : outcome string :=
  if unterminated_set inline_math_pattern
  then ReError "unterminated character set"
  else Returns (formatted text).

(** [convert_cross_references], lines 43-53, is reached with the text that
    [convert_text_formatting] returns. *)
Variable convert_cross_references : string -> string.

(** [cap_text] of lines 132-134 and of lines 150-152. *)
Definition cap_text (m : meta) : outcome string :=
  match convert_text_formatting (join " " (caption_lines m)) with
  | Returns text => Returns (convert_cross_references text)
  | ReError msg => ReError msg
  end.

(** The listing, lines 128-146: the caption text is computed, and dropped,
    when there are code lines, a label and a caption. *)
Definition listing_of (m : meta) : outcome (list string) :=
  match clean (code_content m) with
  | [] => Returns []
  | _ :: _ =>
      if has_figure m then
        match cap_text m with
        | Returns _ => Returns (listing_part (label m) true (clean (code_content m)))
        | ReError msg => ReError msg
        end
      else Returns (listing_part (label m) false (clean (code_content m)))
  end.

(** [process_code_block], lines 67-175. *)
Definition process_code_block (code_lines : list string) : outcome string :=
  let m := read_meta code_lines in
  match listing_of m with
  | ReError msg => ReError msg
  | Returns listing =>
      if has_figure m then
        match cap_text m with
        | Returns text => Returns (concat (List.app listing (figure_part text m)))
        | ReError msg => ReError msg
        end
      else Returns (concat listing)
  end.

End ProcessCodeBlock.

End Ch24Slr.

(** ** convert_ch18_exercises.py: the class [Ch18ExerciseConverter]

    [indent_level] is a Python integer; a negative number of copies of the
    two blanks is the empty string. *)

Module Ch18ExerciseConverter.
Import PyStr PyRe.

Record converter := mkConverter {
  output : list string;
  indent_level : Z
}.

(** [__init__], lines 10-12. *)
Definition init : converter := mkConverter [] 0%Z.

Definition set_indent_level (n : Z) (c : converter) : converter :=
  mkConverter (output c) n.

(** [indent], lines 14-15. *)
Definition indent (extra : Z) (c : converter) : string :=
  QmdToPreTeXtConverter.spaces (Z.to_nat (indent_level c + extra)).

(** [add_line], lines 17-18. *)
Definition add_line (line : string) (extra : Z) (c : converter) : converter :=
  mkConverter (List.app (output c) [indent extra c ++ line]) (indent_level c).

(** [convert_inline], lines 20-40. *)
Definition convert_inline (text : string) : string :=
  if negb (truthy text) then text else
  let text := sub [Lit "$"; Run (not_char "$"); Lit "$"]
                  (fun g => "<m>" ++ g ++ "</m>") text in
  let text := sub [Lit "**"; Run (not_char "*"); Lit "**"]
                  (fun g => "<alert>" ++ g ++ "</alert>") text in
  let text := sub [Lit "*"; Run (not_char "*"); Lit "*"]
                  (fun g => "<em>" ++ g ++ "</em>") text in
  let text := sub [Lit "`"; Run (not_char "`"); Lit "`"]
                  (fun g => "<c>" ++ g ++ "</c>") text in
  let text := sub [Lit "[@"; Run (not_char "]"); Lit "]"]
                  (fun g => "<xref ref=" ++ dq ++ g ++ dq ++ " />") text in
  text.

(** The scan of [re.sub] and [re.split] for a pattern given by its matcher:
    the captured text and the length of the match at the start of a text. *)
Fixpoint scan_by (m : string -> option (string * nat)) (skip : nat) (s : string)
  : list piece :=
  match s with
  | EmptyString => []
  | String c s' =>
      match skip with
      | S k => scan_by m k s'
      | O =>
          match m s with
          | Some (g, S n) => Hit g :: scan_by m n s'
          | _ => Chr c :: scan_by m 0 s'
          end
      end
  end.

(** [s.find(sub)] *)
Fixpoint find (s sub : string) : option nat :=
  if startswith s sub then Some 0
  else match s with
       | EmptyString => None
       | String _ s' => option_map S (find s' sub)
       end.

(** The pattern of line 82 under DOTALL: the opening fence of an R chunk,
    the shortest text of any characters, and a fence. *)
Definition chunk_match (s : string) : option (string * nat) :=
  if startswith s "```{r}" then
    match find (drop 6 s) "```" with
    | Some k => Some ("", 6 + k + 3)
    | None => None
    end
  else None.

(** The pattern of line 85: one of two commands. *)
Definition command_match (s : string) : option (string * nat) :=
  if startswith s "\vfill" then Some ("", 6)
  else if startswith s "\clearpage" then Some ("", 10)
  else None.

(** The pattern of line 97, matched at the start of a paragraph: blanks, a
    lower-case letter, a full stop and at least one blank. *)
Definition is_subquestion (part : string) : bool :=
  match match_atoms [Skip is_space; One is_lower; Lit "."; Run is_space] part with
  | Some _ => true
  | None => false
  end.

(** The pattern of line 104: a line feed, blanks, a lower-case letter, a full
    stop and at least one blank. *)
Definition item_re : list atom :=
  [Lit nl; Skip is_space; One is_lower; Lit "."; Run is_space].

(** [items[j+1]] for the odd [j] of lines 105-107: the texts that follow the
    matches of [item_re]; the text before the first match is [items[0]]. *)
Definition item_texts (part : string) : list string :=
  tl (QmdToPreTeXtConverter.re_split "" (scan item_re part)).

(** [part.split()]: the maximal runs of characters that are not blanks. *)
Fixpoint words_from (cur : string) (s : string) : list string :=
  match s with
  | EmptyString => if truthy cur then [cur] else []
  | String c s' =>
      if is_space c
      then if truthy cur then cur :: words_from "" s' else words_from "" s'
      else words_from (cur ++ String c "") s'
  end.

Definition words (s : string) : list string := words_from "" s.

(** Lines 98-101 and lines 113-116, 126-128. *)
Definition open_list (in_list : bool) (c : converter) : converter :=
  if in_list then c
  else
    let c := add_line ("<p><ol marker=" ++ dq ++ "a." ++ dq ++ ">") 0%Z c in
    set_indent_level (indent_level c + 1)%Z c.

Definition close_list (in_list : bool) (c : converter) : converter :=
  if in_list
  then add_line "</ol></p>" 0%Z (set_indent_level (indent_level c - 1)%Z c)
  else c.

(** One turn of [for part in parts], lines 91-123: [in_list] and the
    converter. *)
Definition convert_part (st : bool * converter) (part : string) : bool * converter :=
  let '(in_list, c) := st in
  let part := strip part in
  if negb (truthy part) || String.eqb part "[Table data shown]" then (in_list, c)
  else if is_subquestion part then
    let c := open_list in_list c in
    (true,
     fold_left
       (fun c item => add_line ("<li>" ++ convert_inline (strip item) ++ "</li>") 0%Z c)
       (item_texts part) c)
  else
    let c := close_list in_list c in
    let part := join " " (words (convert_inline part)) in
    (false, if truthy part then add_line ("<p>" ++ part ++ "</p>") 0%Z c else c).

(** The paragraphs of an exercise, lines 82-88. *)
Definition parts_of (content : string) : list string :=
  let content :=
    render_idx (fun _ _ => "[Table data shown]") 0 (scan_by chunk_match 0 content) in
  let content := render_idx (fun _ _ => "") 0 (scan_by command_match 0 content) in
  split (strip content) (nl ++ nl).

(** [convert_exercise], lines 71-134. *)
Definition convert_exercise (title content : string) (c : converter) : converter :=
  let c := add_line "" 0%Z c in
  let c := add_line "<exercise>" 0%Z c in
  let c := set_indent_level (indent_level c + 1)%Z c in
  let c := add_line ("<title>" ++ title ++ "</title>") 0%Z c in
  let c := add_line "<statement>" 0%Z c in
  let c := set_indent_level (indent_level c + 1)%Z c in
  let '(in_list, c) := fold_left convert_part (parts_of content) (false, c) in
  let c := close_list in_list c in
  let c := set_indent_level (indent_level c - 1)%Z c in
  let c := add_line "</statement>" 0%Z c in
  let c := set_indent_level (indent_level c - 1)%Z c in
  add_line "</exercise>" 0%Z c.

(** The pattern of line 54: a line feed, digits, a full stop, blanks, two
    stars, the title up to the next two stars.  The title is captured. *)
Definition exercise_match (s : string) : option (string * nat) :=
  match match_atoms [Lit nl; Run is_digit; Lit "."; Run is_space; Lit "**"] s with
  | Some (_, n) =>
      match match_atoms [Run (not_char "*"); Lit "**"] (drop n s) with
      | Some (title, n') => Some (title, n + n')
      | None => None
      end
  | None => None
  end.

(** The list of [re.split] at line 54 read by threes, lines 57-62: the text
    before the first exercise, then the title and the content of each
    exercise. *)
Fixpoint exercises_of (ps : list piece) : string * list (string * string) :=
  match ps with
  | [] => ("", [])
  | Chr c :: ps' => let '(t, exs) := exercises_of ps' in (String c t, exs)
  | Hit title :: ps' => let '(t, exs) := exercises_of ps' in ("", (title, t) :: exs)
  end.

(** [process_file], lines 42-69, on the content of the file read. *)
Definition process_file (content : string) : string :=
  let c := add_line ("<?xml version=" ++ dq ++ "1.0" ++ dq ++ " encoding=" ++ dq
                       ++ "UTF-8" ++ dq ++ " ?>") 0%Z init in
  let c := add_line "" 0%Z c in
  let c := add_line ("<exercises xml:id=" ++ dq ++ "exercises-18-inference-tables"
                       ++ dq ++ ">") 0%Z c in
  let c := set_indent_level 1%Z c in
  let exercises := snd (exercises_of (scan_by exercise_match 0 content)) in
  let c := fold_left (fun c ex => convert_exercise (fst ex) (snd ex) c) exercises c in
  let c := set_indent_level 0%Z c in
  let c := add_line "</exercises>" 0%Z c in
  join nl (output c).

End Ch18ExerciseConverter.

(** ** convert_ch22_exercises.py: the class [QmdExerciseToPreTeXt]

    The converter is the list [output]; [current_exercise] is assigned once
    and never read.  The patterns of the sub-questions and of the R chunks
    are those of convert_ch18_exercises.py. *)

Module QmdExerciseToPreTeXt.
Import PyStr PyRe.

(** [add_line], lines 15-17. *)
Definition add_line (line : string) (indent : nat) (output : list string) : list string :=
  List.app output [QmdToPreTeXtConverter.spaces indent ++ line].

Definition placeholder (tag : string) (k : nat) : string :=
  "__" ++ tag ++ str_of_nat k ++ "__".

(** [store_math], [store_code] and [store_citation]: the new text and what
    the callback has stored, [f] of each group. *)
Definition store (pat : list atom) (tag : string) (f : string -> string) (text : string)
  : string * list string :=
  let ps := scan pat text in
  (render_idx (fun k _ => placeholder tag k) 0 ps, map f (groups ps)).

(** The loops of lines 63-72. *)
Fixpoint restore (tag : string) (f : string -> string) (k : nat) (stored : list string)
    (text : string) : string :=
  match stored with
  | [] => text
  | x :: stored' => restore tag f (S k) stored' (replace text (placeholder tag k) (f x))
  end.

(** The classes [a-zA-Z0-9\-:+] and [a-zA-Z0-9\-]. *)
Definition id_char (c : ascii) : bool :=
  is_lower c || is_upper c || is_digit c || Ascii.eqb c "-".

Definition cite_char (c : ascii) : bool :=
  id_char c || Ascii.eqb c ":" || Ascii.eqb c "+".

Definition xref (prefix g : string) : string :=
  "<xref ref=" ++ dq ++ prefix ++ g ++ dq ++ " />".

(** [convert_inline], lines 19-80. *)
Definition convert_inline (text : string) : string :=
  if negb (truthy text) then text else
  let '(text, math_exprs) :=
    store [Lit "$"; Run (not_char "$"); Lit "$"] "MATH" (fun g => g) text in
  let '(text, code_spans) :=
    store [Lit "`"; Run (not_char "`"); Lit "`"] "CODE" (fun g => g) text in
  let '(text, citations) :=
    store [Lit "[@"; Run cite_char; Lit "]"] "CITE"
          (fun ref => xref "" (replace (replace ref "+" "-") ":" "-")) text in
  let text := sub [Lit "[^"; Run (not_char "]"); Lit "]"] (fun _ => "") text in
  let text := sub [Lit "**"; Run (not_char "*"); Lit "**"]
                  (fun g => "<term>" ++ g ++ "</term>") text in
  let text := sub [Lit "*"; Run (not_char "*"); Lit "*"]
                  (fun g => "<em>" ++ g ++ "</em>") text in
  let text := sub [Lit dq; Run (not_char (ascii_of_nat 34)); Lit dq]
                  (fun g => "<q>" ++ g ++ "</q>") text in
  let text := sub [Lit "@fig-"; Run id_char] (xref "fig-") text in
  let text := sub [Lit "@sec-"; Run id_char] (xref "sec-") text in
  let text := restore "CODE" (fun code => "<c>" ++ code ++ "</c>") 0 code_spans text in
  let text := restore "MATH" (fun math => "<m>" ++ math ++ "</m>") 0 math_exprs text in
  let text := restore "CITE" (fun cite => cite) 0 citations text in
  let text := replace text "---" "<mdash/>" in
  let text := replace text "____________" "____________" in
  text.

(** The values of [figure_map], lines 207-217: a file name or a list of
    file names. *)
Inductive fig_ref :=
| File (name : string)
| Files (names : list string).

Definition png (suffix : string) : string :=
  "_22-ex-inference-many-means-" ++ suffix ++ ".png".

Definition figure_map (ex_num : nat) : option fig_ref :=
  match ex_num with
  | 3 => Some (File (png "03"))
  | 4 => Some (File (png "04"))
  | 5 => Some (Files [png "05a"; png "05b"])
  | 7 => Some (Files [png "07a"; png "07b"])
  | 8 => Some (Files [png "08a"; png "08b"])
  | 9 => Some (File (png "09"))
  | 10 => Some (Files [png "10a"; png "10b"])
  | 13 => Some (File (png "13"))
  | 14 => Some (File (png "14"))
  | _ => None
  end.

(** [add_figure_reference], lines 204-226; [fig_num] is at least 1. *)
Definition add_figure_reference (ex_num fig_num indent : nat) (output : list string)
  : list string :=
  match figure_map ex_num with
  | Some ref =>
      let fig_ref :=
        match ref with
        | File name => name
        | Files names =>
            if (fig_num <=? List.length names)%nat
            then nth (fig_num - 1) names "" else nth 0 names ""
        end in
      let output :=
        add_line ("<figure xml:id=" ++ dq ++ "fig-22-ex-" ++ str_of_nat ex_num ++ "-"
                    ++ str_of_nat fig_num ++ dq ++ ">") indent output in
      let output :=
        add_line ("<image source=" ++ dq ++ "images/exercises/" ++ fig_ref ++ dq
                    ++ " width=" ++ dq ++ "85%" ++ dq ++ " />") (indent + 1) output in
      add_line "</figure>" indent output
  | None => output
  end.

(** [paragraphs.index(para)] for a paragraph of the list. *)
Fixpoint index (para : string) (paragraphs : list string) : nat :=
  match paragraphs with
  | [] => 0
  | p :: rest => if String.eqb p para then 0 else S (index para rest)
  end.

(** One turn of [for para in paragraphs], lines 166-199: [in_list] and the
    output. *)
Definition paragraph_step (ex_num : nat) (paragraphs : list string)
    (st : bool * list string) (para : string) : bool * list string :=
  let '(in_list, output) := st in
  if String.eqb para "\vfill" || String.eqb para "\clearpage" then (in_list, output)
  else if contains para "__FIGURE" then
    let fig_idx :=
      List.length (filter (fun p => contains p "__FIGURE")
                          (firstn (index para paragraphs) paragraphs)) in
    (in_list, add_figure_reference ex_num (fig_idx + 1) 3 output)
  else if Ch18ExerciseConverter.is_subquestion para then
    let output :=
      if in_list then output
      else add_line ("<p><ol marker=" ++ dq ++ "a." ++ dq ++ ">") 3 output in
    (true,
     fold_left
       (fun output subq =>
          let output := add_line "<li>" 4 output in
          let text := convert_inline (strip subq) in
          let output := add_line ("<p>" ++ text ++ "</p>") 5 output in
          add_line "</li>" 4 output)
       (Ch18ExerciseConverter.item_texts para) output)
  else
    let output := if in_list then add_line "</ol></p>" 3 output else output in
    let text := convert_inline (strip para) in
    (false, if truthy text then add_line ("<p>" ++ text ++ "</p>") 3 output else output).

(** [process_exercise_content], lines 144-202.  [has_subquestions] is never
    read. *)
Definition process_exercise_content (content : string) (ex_num : nat)
    (output : list string) : list string :=
  let content :=
    render_idx (fun k _ => nl ++ nl ++ placeholder "FIGURE" k ++ nl ++ nl) 0
      (Ch18ExerciseConverter.scan_by Ch18ExerciseConverter.chunk_match 0 content) in
  let paragraphs :=
    map strip (filter (fun p => truthy (strip p)) (split content (nl ++ nl))) in
  let '(in_list, output) :=
    fold_left (paragraph_step ex_num paragraphs) paragraphs (false, output) in
  if in_list then add_line "</ol></p>" 3 output else output.

(** The start of an exercise, after the line feed of line 102: digits, a
    full stop, blanks and two stars. *)
Definition exercise_start : list atom :=
  [Run is_digit; Lit "."; Run is_space; Lit "**"].

(** The pattern of line 102: a line feed before the start of an exercise. *)
Definition cut_match (s : string) : option (string * nat) :=
  if startswith s nl then
    match match_atoms exercise_start (drop 1 s) with
    | Some _ => Some ("", 1)
    | None => None
    end
  else None.

(** [int] of a run of digits. *)
Fixpoint int_of (acc : nat) (digits : string) : nat :=
  match digits with
  | EmptyString => acc
  | String c digits' => int_of (10 * acc + (nat_of_ascii c - 48)) digits'
  end.

(** One turn of [for ex_text in exercises], lines 104-128. *)
Definition convert_exercise (output : list string) (ex_text : string) : list string :=
  if negb (truthy (strip ex_text)) then output else
  match match_atoms exercise_start ex_text with
  | Some (digits, n) =>
      match match_atoms [Run (not_char "*"); Lit "**"] (drop n ex_text) with
      | Some (title, n') =>
          let ex_num := int_of 0 digits in
          let ex_title := strip title in
          let output := add_line "<exercise>" 1 output in
          let output := add_line ("<title>" ++ ex_title ++ "</title>") 2 output in
          let output := add_line "<statement>" 2 output in
          let rest := strip (drop (n + n') ex_text) in
          let output := process_exercise_content rest ex_num output in
          let output := add_line "</statement>" 2 output in
          let output := add_line "</exercise>" 1 output in
          add_line "" 0 output
      | None => output
      end
  | None => output
  end.

(** [convert_file], lines 91-142, on the content read: the text written. *)
Definition convert_file (content : string) : string :=
  let output := add_line ("<?xml version=" ++ dq ++ "1.0" ++ dq ++ " encoding=" ++ dq
                            ++ "UTF-8" ++ dq ++ " ?>") 0 [] in
  let output := add_line "" 0 output in
  let output := add_line ("<exercises xml:id=" ++ dq ++ "exercises-22-inference-many-means"
                            ++ dq ++ ">") 0 output in
  let output := add_line "" 0 output in
  let exercises :=
    QmdToPreTeXtConverter.re_split ""
      (Ch18ExerciseConverter.scan_by cut_match 0 content) in
  let output := fold_left convert_exercise exercises output in
  let output := add_line "<!-- Footnotes -->" 0 output in
  let output :=
    add_line ("<!-- [^_22-ex-inference-many-means-1]: The Cuckoo data used in this "
                ++ "exercise can be found in the Stat2Data R package. -->") 0 output in
  let output :=
    add_line ("<!-- [^_22-ex-inference-many-means-2]: The data Cuckoo used in this "
                ++ "exercise can be found in the Stat2Data R package. -->") 0 output in
  let output := add_line "" 0 output in
  let output := add_line "</exercises>" 0 output in
  join nl output.

End QmdExerciseToPreTeXt.

(** * Definitions used in the statements

    Concrete inputs, the rules of the specification written out, and the
    intermediate notions of the proofs. *)

Import PyStr.

(** [p] contains neither [a] nor [b]. *)
Fixpoint avoids (a b : ascii) (p : string) : bool :=
  match p with
  | EmptyString => true
  | String c p' => negb (Ascii.eqb c a) && negb (Ascii.eqb c b) && avoids a b p'
  end.

(** The first three replacements of [escape_xml] act character by character. *)
Definition esc_char (c : ascii) : string :=
  if Ascii.eqb "&" c then "&amp;"
  else if Ascii.eqb "<" c then "&lt;"
  else if Ascii.eqb ">" c then "&gt;"
  else String c "".

Fixpoint esc (s : string) : string :=
  match s with
  | EmptyString => EmptyString
  | String c s' => esc_char c ++ esc s'
  end.

(** Replacing every occurrence of one character. *)
Fixpoint subst_char (a : ascii) (new s : string) : string :=
  match s with
  | EmptyString => EmptyString
  | String c s' => (if Ascii.eqb a c then new else String c "") ++ subst_char a new s'
  end.

Definition is_plain (c : ascii) : bool :=
  negb (Ascii.eqb "&" c) && negb (Ascii.eqb "<" c) && negb (Ascii.eqb ">" c).

(** The last three replacements of [escape_xml]. *)
Definition collapse_amp (s : string) := replace_from "&amp;amp;" "&amp;" 0 s.

Definition collapse_lt (s : string) := replace_from "&amp;lt;" "&lt;" 0 s.

Definition collapse_gt (s : string) := replace_from "&amp;gt;" "&gt;" 0 s.

(** Strings in which every ampersand starts one of the three entities and no
    angle bracket occurs; [P] constrains what may follow [&amp;]. *)
Inductive Ent (P : string -> Prop) : string -> Prop :=
| Ent_nil : Ent P ""
| Ent_chr c r : is_plain c = true -> Ent P r -> Ent P (String c r)
| Ent_amp r : P r -> Ent P r -> Ent P ("&amp;" ++ r)
| Ent_lt r : Ent P r -> Ent P ("&lt;" ++ r)
| Ent_gt r : Ent P r -> Ent P ("&gt;" ++ r).

Definition lt_free (r : string) : Prop := startswith r "lt;" = false.

Definition gt_free (r : string) : Prop := startswith r "gt;" = false.

Fixpoint all_plain (p : string) : bool :=
  match p with
  | EmptyString => true
  | String c p' => is_plain c && all_plain p'
  end.

Definition entity_free (r : string) : Prop := lt_free r /\ gt_free r.

(** A guided practice whose solution is a nested callout: the block, the
    statement, the opening of the solution scope, its heading and text, the
    close of the solution scope and the close of the block. *)
Definition guided_practice_with_solution : list string :=
  [ "::: {.guidedpractice data-latex=" ++ dq ++ dq ++ "}";
    "What is 1 + 1?";
    "";
    "::: {.callout-note collapse=" ++ dq ++ "true" ++ dq ++ "}";
    "## Solution";
    "It is 2.";
    ":::";
    ":::" ].

(** The same guided practice as read by [readlines]: every line ends with a
    line feed. *)
Definition ch19_guided_practice : list string :=
  map (fun l => l ++ nl) guided_practice_with_solution.

(** Two inputs with unbalanced blocks: a guided practice that is never
    closed, and a close marker outside any block. *)
Definition ch19_unclosed_block : list string :=
  [ "::: {.guidedpractice}" ++ nl;
    "Question?" ++ nl ].

Definition ch19_stray_close : list string :=
  [ ":::" ++ nl ].

(** Two sections that declare the same identifier. *)
Definition ch19_duplicate_ids : list string :=
  [ "## A {#sec-a}" ++ nl;
    "text" ++ nl;
    "## B {#sec-a}" ++ nl ].

(** The headings that reach the last branch of lines 131-180. *)
Definition is_generic_heading (line : string) : bool :=
  negb (contains line "Chapter review")
  && negb (contains line "Exercises" && contains line "#sec-chp19-exercises")
  && negb (contains line "Bootstrap confidence interval for a mean")
  && negb (contains line "Mathematical model for a mean").

(** The fallback rule in the words of the specification: the title is
    lower-cased, every run of characters that are not letters or digits
    becomes a single hyphen, and leading and trailing hyphens are trimmed.
    It is stated of ASCII titles, whose letters and digits are those of
    [a-zA-Z0-9]. *)
Definition is_alnum (c : ascii) : bool := is_lower c || is_upper c || is_digit c.

Fixpoint hyphenate (alnum : ascii -> bool) (in_run : bool) (s : string) : string :=
  match s with
  | EmptyString => EmptyString
  | String c s' =>
      if alnum c then String c (hyphenate alnum false s')
      else if in_run then hyphenate alnum true s'
      else String "-" (hyphenate alnum true s')
  end.

Definition spec_slug (title : string) : string :=
  strip_by (Ascii.eqb "-") (hyphenate is_alnum false (lower title)).

(** Thirty blank lines, so that the chunk lies past the part of the file in
    which convert_ch19.py skips every chunk, then a chunk with a label, a
    caption and one line of code. *)
Definition ch19_figure_chunk : list string :=
  List.app (List.repeat nl 30)
    [ "```{r}" ++ nl;
      "#| label: fig-x" ++ nl;
      "#| fig-cap: |" ++ nl;
      "#|   A caption." ++ nl;
      "plot(x)" ++ nl;
      "```" ++ nl ].

(** Thirty blank lines, then a chunk without a label whose body is a line of
    code, an empty line and an indented line with trailing blanks. *)
Definition ch19_listing_chunk : list string :=
  List.app (List.repeat nl 30)
    [ "```{r}" ++ nl;
      "x <- 1" ++ nl;
      nl;
      "  y <- 1 < 2  " ++ nl;
      "```" ++ nl ].

(** [m] holds no line feed. *)
Fixpoint nl_free (m : string) : bool :=
  match m with
  | EmptyString => true
  | String c m' => negb (Ascii.eqb c (ascii_of_nat 10)) && nl_free m'
  end.

(** No line collected for the open block of convert_ch17_two_props.py holds
    the block marker. *)
Definition marker_free (st : Ch17TwoProps.state) : Prop :=
  Forall (fun l => contains l ":::" = false) (Ch17TwoProps.current_block st).

(** The paragraphs convert_ch19.py emits for the lines of an exercise that
    are not blank. *)
Definition ch19_paragraphs (ls : list string) : list string :=
  map (fun l => "          <p>" ++ Ch19.process_line l ++ "</p>" ++ nl)
      (filter (fun l => truthy (strip l)) ls).

Definition no_solution_marker (ls : list string) : bool :=
  forallb (fun l => negb (String.eqb l "SOLUTION_START")) ls.

(** A state of convert_ch19.py inside an exercise, at the fifth line of the
    input, and one whose exercise holds a statement line, the solution
    marker and a solution line. *)
Definition ch19_at_solution_heading : Ch19.state :=
  Ch19.set_i 4 (Ch19.set_exercise true ["What is 1 + 1?"] Ch19.init).

Definition ch19_marked_exercise : Ch19.state :=
  Ch19.set_exercise true ["What is 1 + 1?"; "SOLUTION_START"; "It is 2."] Ch19.init.

(** The lines of a chunk that [process_code_block] of
    convert_ch24_inf_model_slr.py takes as code (after [rstrip]): those that
    reach the last branch of the metadata loop. *)
Definition slr_is_code_line (line : string) : bool :=
  negb (contains line "#| label:") && negb (contains line "#| fig-cap:")
  && negb (contains line "#| fig-subcap:") && negb (contains line "#| fig-alt:")
  && negb (startswith line "#|").

(** The code lines of a chunk that are not blank. *)
Definition slr_kept_lines (code_lines : list string) : list string :=
  filter (fun l => truthy (strip l)) (filter slr_is_code_line (map rstrip code_lines)).

(** A chunk with a label, a caption and one line of code. *)
Definition slr_figure_chunk : list string :=
  ["#| label: fig-x"; "#| fig-cap: A caption"; "plot(x)"].

Definition slr_small_chunk : list string :=
  ["#| label: tbl-x"; "x <- 1  "; ""; "  y <- 1 < 2"].

(** Character data as an XML parser accepts it: no angle bracket, and every
    ampersand starts one of the entities amp, lt and gt. *)
Fixpoint well_escaped (s : string) : bool :=
  match s with
  | EmptyString => true
  | String c s' =>
      negb (Ascii.eqb c "<") && negb (Ascii.eqb c ">")
      && (negb (Ascii.eqb c "&")
          || startswith s' "amp;" || startswith s' "lt;" || startswith s' "gt;")
      && well_escaped s'
  end.

(** No character of [s] is in [chars]. *)
Fixpoint free_of (chars s : string) : bool :=
  match s with
  | EmptyString => true
  | String c s' => negb (mem_char chars c) && free_of chars s'
  end.

(** A text in which the scan finds no match. *)
Fixpoint unmatched (s : string) : list PyRe.piece :=
  match s with
  | EmptyString => []
  | String c s' => PyRe.Chr c :: unmatched s'
  end.

(** A line that opens or closes a fenced block. *)
Definition is_fence (l : string) : bool := startswith l "```" || startswith l ":::".

(** A line at which the loop of [process_main_content] enters
    [handle_chapter_review]. *)
Definition is_review_heading (l : string) : bool :=
  startswith l "## " && contains l "Chapter review".

(** A section heading without identifier that reaches [handle_section]: no
    earlier branch of the main loop takes it, and the pattern of line 223
    does not match it. *)
Definition bare_heading (l : string) : bool :=
  startswith l "## "
  && negb (contains l "include: false") && negb (contains l "source(")
  && negb (contains l "terms_chp") && negb (contains l "::: {.chapterintro")
  && negb (contains l "Chapter review") && negb (contains l "Exercises")
  && negb (contains l "## Solution")
  && match QmdToPreTeXtConverter.section_match l with Some _ => false | None => true end.

(** The lines of a chunk that [handle_code_block] passes over before the
    code, and the line that ends the code. *)
Definition is_chunk_option (l : string) : bool :=
  startswith l "#|" || negb (truthy (strip l)).

Definition is_closing_fence (l : string) : bool := String.eqb (strip l) "```".

(** The text of lines that are each followed by a line feed, and the text
    that follows a line when more lines come after it. *)
Fixpoint text_before (ls : list string) : string :=
  match ls with
  | [] => ""
  | l :: ls' => l ++ nl ++ text_before ls'
  end.

Definition text_after (ls : list string) : string :=
  match ls with
  | [] => ""
  | _ :: _ => nl ++ join nl ls
  end.

(** A line without block marker. *)
Definition marker_free_line (l : string) : bool := negb (contains l ":::").

(** The last character of [s] is not a blank. *)
Fixpoint solid_end (s : string) : bool :=
  match s with
  | EmptyString => false
  | String c EmptyString => negb (is_space c)
  | String _ s' => solid_end s'
  end.

(** Every character of [s] is in the class [p]. *)
Fixpoint all_chars (p : ascii -> bool) (s : string) : bool :=
  match s with
  | EmptyString => true
  | String c s' => p c && all_chars p s'
  end.

(** A title as a heading line carries it: it neither starts nor ends with a
    blank, and holds no brace and no line feed. *)
Definition is_title (t : string) : bool :=
  match t with
  | EmptyString => false
  | String c _ => negb (is_space c) && solid_end t && free_of "{" t && nl_free t
  end.

(** An identifier of the class [a-zA-Z0-9\-]. *)
Definition is_id (id : string) : bool := truthy id && all_chars Ch17TwoProps.id_char id.

(** The characters of an identifier made by [example_id]. *)
Definition slug_or_hyphen (c : ascii) : bool :=
  Ch17Full.slug_char c || Ascii.eqb "-" c.

(** The text of the sub-questions after the first one: each on a line of its
    own, with its letter, a full stop and a blank. *)
Fixpoint items_text (items : list (ascii * string)) : string :=
  match items with
  | [] => ""
  | (l, t) :: items' => nl ++ String l ". " ++ t ++ items_text items'
  end.

(** A paragraph of sub-questions as the converter of chapter 18 meets it,
    stripped: the first sub-question at its start, the others on the lines
    that follow. *)
Definition list_paragraph (a : ascii) (q : string) (items : list (ascii * string)) : string :=
  String a ". " ++ q ++ items_text items.

(** A sub-question: a lower-case letter and a text on one line that does not
    start with a blank. *)
Definition is_item (it : ascii * string) : bool :=
  is_lower (fst it) && free_of nl (snd it)
  && match snd it with
     | EmptyString => false
     | String d _ => negb (is_space d)
     end.

(** What the scan of line 104 finds in the text of the later sub-questions. *)
Fixpoint item_pieces (items : list (ascii * string)) : list PyRe.piece :=
  match items with
  | [] => []
  | (l, t) :: items' => PyRe.Hit " " :: List.app (unmatched t) (item_pieces items')
  end.

(** The depth a list adds to the indentation while it is open. *)
Definition list_depth (in_list : bool) : Z := if in_list then 1%Z else 0%Z.

(** A line written at a depth. *)
Definition indented (depth : Z) (line : string) : string :=
  QmdToPreTeXtConverter.spaces (Z.to_nat depth) ++ line.

(** The second converter has the lines of the first one, and maybe more. *)
Definition extends (c c' : Ch18ExerciseConverter.converter) : Prop :=
  exists more,
    Ch18ExerciseConverter.output c' = List.app (Ch18ExerciseConverter.output c) more.

(** The number of the lines that satisfy [p]. *)
Definition count (p : string -> bool) (ls : list string) : nat :=
  List.length (filter p ls).

(** The lines that open and that close a subsection in the output of
    convert_ch17_comprehensive.py. *)
Definition opens_subsection (l : string) : bool := startswith l "    <subsection".
Definition closes_subsection (l : string) : bool := String.eqb l "    </subsection>".

(** The lines that open or close an exercise, an example, a note or an
    assemblage there. *)
Definition is_box_tag (l : string) : bool :=
  String.eqb l "    <exercise>" || String.eqb l "    </exercise>"
  || startswith l "    <example" || String.eqb l "    </example>"
  || String.eqb l "    <note>" || String.eqb l "    </note>"
  || String.eqb l "    <assemblage>" || String.eqb l "    </assemblage>".

(** The lines that the main loop takes for the opening of a box. *)
Definition is_box_opener (line : string) : bool :=
  contains line ":::{.guidedpractice" || contains line ":::guidedpractice"
  || contains line ":::{.workedexample" || contains line ":::workedexample"
  || contains line ":::{.data" || contains line ":::data"
  || contains line ":::{.important" || contains line ":::important".

(** The main loop is at a section heading: the line is not the start of a
    chunk, no chunk is open, and the line starts with the marker. *)
Definition meets_section (st : ConvertQmdToPtx.state) (line : string) : bool :=
  negb (startswith (strip line) "```{r") && negb (ConvertQmdToPtx.in_code_block st)
  && startswith line "## ".

(** The section headings that the main loop meets while a subsection is
    open. *)
Fixpoint sections_in_subsection (st : ConvertQmdToPtx.state) (lines : list string) : nat :=
  match lines with
  | [] => 0
  | line :: rest =>
      (if meets_section st line && (ConvertQmdToPtx.current_section_level st =? 2)%nat
       then 1 else 0)
      + sections_in_subsection (ConvertQmdToPtx.step st line) rest
  end.

(** A line that is no tag of a subsection and no tag of a box. *)
Definition plain_line (l : string) : bool :=
  negb (opens_subsection l) && negb (closes_subsection l) && negb (is_box_tag l).

(** No box is open. *)
Definition no_box (st : ConvertQmdToPtx.state) : bool :=
  negb (ConvertQmdToPtx.in_guidedpractice st || ConvertQmdToPtx.in_workedexample st
        || ConvertQmdToPtx.in_data_box st || ConvertQmdToPtx.in_important st).

(** No line is a tag of a box. *)
Definition no_box_tag (ls : list string) : bool :=
  forallb (fun l => negb (is_box_tag l)) ls.

Section ComprehensiveNotions.
Import ConvertQmdToPtx.

(** What a part of the loop leaves untouched but the output, to which it adds
    plain lines only. *)
Definition adds_plain (st st' : state) : Prop :=
  (exists added, output st' = List.app (output st) added /\ forallb plain_line added = true)
  /\ in_guidedpractice st' = in_guidedpractice st
  /\ in_workedexample st' = in_workedexample st
  /\ in_data_box st' = in_data_box st
  /\ in_important st' = in_important st.

(** The lines added hold no tag of a subsection. *)
Definition no_sub_tag (l : string) : bool :=
  negb (opens_subsection l) && negb (closes_subsection l).

Definition adds_no_sub (st st' : state) : Prop :=
  exists added, output st' = List.app (output st) added /\ forallb no_sub_tag added = true.

(** The state of the tags of subsections: as many opened as closed, but for
    the one that is open and for [k] lost ones. *)
Definition accounted (st : state) (k : nat) : Prop :=
  count opens_subsection (output st)
  = count closes_subsection (output st)
    + (if (current_section_level st =? 2)%nat then 1 else 0) + k.

(** No box is open and no tag of a box has been written. *)
Definition boxless (st : state) : Prop :=
  no_box st = true /\ no_box_tag (output st) = true.

End ComprehensiveNotions.

(** The lines that open and that close a list of sub-questions in the output
    of convert_ch22_exercises.py. *)
Definition opens_list (l : string) : bool :=
  String.eqb l ("      <p><ol marker=" ++ dq ++ "a." ++ dq ++ ">").
Definition closes_list (l : string) : bool := String.eqb l "      </ol></p>".

(** The three lines of an item of such a list. *)
Definition item_lines (t : string) : list string :=
  [ "        <li>";
    "          <p>" ++ QmdExerciseToPreTeXt.convert_inline (strip t) ++ "</p>";
    "        </li>" ].

(** The lines added so far: as many lists opened as closed, but for the one
    that is open. *)
Definition balanced (output : list string) (st : bool * list string) : Prop :=
  exists added,
    snd st = List.app output added
    /\ count opens_list added = count closes_list added + (if fst st then 1 else 0).

(** A text of ASCII characters.  In such a text every byte is one character,
    and the blanks, the letter case and the digits of the model are those of
    Python. *)
Definition is_ascii_char (c : ascii) : bool := (nat_of_ascii c <? 128)%nat.

Definition is_ascii (s : string) : bool := all_chars is_ascii_char s.

(** A line as [readlines] gives it: the text and its line feed. *)
Definition with_nl (t : string) : string := t ++ nl.

(** A heading of convert_ch19.py with its identifier, and a chunk of R code:
    the opening fence, the lines of options, the lines of the body and the
    closing fence. *)
Definition heading_line (title id : string) : string :=
  "## " ++ title ++ " {#" ++ id ++ "}".

Definition chunk (options texts : list string) : list string :=
  with_nl "```{r}" :: List.app (map with_nl options)
                        (List.app (map with_nl texts) [with_nl "```"]).

(** A line of the body of a chunk: neither a fence nor an option. *)
Definition is_body_line (t : string) : bool :=
  negb (startswith t "```") && negb (startswith t "#|").

(** The closers that a section heading of convert_ch19.py writes first. *)
Definition ch19_closers (st : Ch19.state) : list string :=
  List.app (if Ch19.in_intro st then ["  <introduction>" ++ nl] else [])
    (if Nat.eqb (Ch19.section_level st) 2
     then ["    </subsection>" ++ nl; "  </section>" ++ nl]
     else if Nat.eqb (Ch19.section_level st) 1
     then ["  </section>" ++ nl]
     else []).

(** The caption that a figure or a listing of convert_ch19.py carries. *)
Definition ch19_caption (cap : string) : list string :=
  if truthy cap
  then ["        <caption>" ++ Ch19.process_line cap ++ "</caption>" ++ nl]
  else [].

(** The lines of a body that are not blank. *)
Definition nonblank_texts (texts : list string) : list string :=
  filter (fun t => truthy (strip t)) texts.

(** A character of the label of a chunk: a letter, a digit or a hyphen. *)
Definition label_char (c : ascii) : bool := is_alnum c || Ascii.eqb c "-".

(** Thirty blank lines: a chunk after them is past the part of the file in
    which convert_ch19.py skips the chunks. *)
Definition ch19_front : list string := List.repeat nl 30.

(** * Proofs *)

(** ** Generic facts about the string primitives *)

Section PyStrFacts.
Import PyStr.

Lemma startswith_app (p s : string) : startswith (p ++ s) p = true.
Proof.
  induction p as [|a p IH]; simpl; [reflexivity|].
  now rewrite Ascii.eqb_refl.
Qed.

Lemma startswith_split (s p : string) :
  startswith s p = true -> exists r, s = p ++ r.
Proof.
  revert s; induction p as [|a p IH]; intros s H; simpl in *.
  - now exists s.
  - destruct s as [|b s]; [discriminate|].
    apply andb_true_iff in H as [Hab Hs].
    apply Ascii.eqb_eq in Hab; subst b.
    destruct (IH _ Hs) as [r ->]. now exists r.
Qed.

Lemma sapp_assoc (a b c : string) : (a ++ b) ++ c = a ++ (b ++ c).
Proof. induction a; simpl; congruence. Qed.

Lemma sapp_nil_r (a : string) : a ++ "" = a.
Proof. induction a; simpl; congruence. Qed.

Lemma length_app (a b : string) :
  String.length (a ++ b) = String.length a + String.length b.
Proof. induction a; simpl; congruence. Qed.

(** A pattern [p] that contains neither the first character of [old] nor the
    first character of [new] is a prefix of the result exactly when it is a
    prefix of the argument: the scan copies everything up to the first
    occurrence, and the occurrence and its replacement both fail [p] at
    their first character. *)
Lemma replace_from_prefix (a b : ascii) (old new : string) :
  forall s p, avoids a b p = true ->
    startswith (replace_from (String a old) (String b new) 0 s) p = startswith s p.
Proof.
  induction s as [|c s IH]; intros p Hp; [reflexivity|].
  destruct p as [|q p]; [reflexivity|].
  simpl in Hp. apply andb_true_iff in Hp as [Hq Hp].
  apply andb_true_iff in Hq as [Hqa Hqb].
  apply negb_true_iff in Hqa, Hqb.
  cbn [replace_from].
  destruct (startswith (String c s) (String a old)) eqn:Hm.
  - cbn [startswith] in Hm. apply andb_true_iff in Hm as [Hac _].
    apply Ascii.eqb_eq in Hac; subst c.
    cbn. now rewrite Hqa, Hqb.
  - cbn. now rewrite IH.
Qed.

End PyStrFacts.

(** ** escape_xml of convert_ch17_comprehensive.py is idempotent *)

Section EscapeIdempotent.
Import PyStr Ch17Comprehensive.

Lemma replace_from_char (a : ascii) (new s : string) :
  replace_from (String a "") new 0 s = subst_char a new s.
Proof.
  induction s as [|c s IH]; [reflexivity|].
  cbn. rewrite andb_true_r, IH. now destruct (Ascii.eqb a c).
Qed.

Lemma subst_char_app (a : ascii) (new x y : string) :
  subst_char a new (x ++ y) = subst_char a new x ++ subst_char a new y.
Proof.
  induction x as [|c x IH]; [reflexivity|].
  cbn. now rewrite IH, sapp_assoc.
Qed.

Lemma three_replacements (t : string) :
  subst_char ">" "&gt;" (subst_char "<" "&lt;" (subst_char "&" "&amp;" t)) = esc t.
Proof.
  induction t as [|c t IH]; [reflexivity|].
  cbn [subst_char esc]. rewrite !subst_char_app, IH. f_equal.
  unfold esc_char.
  destruct (Ascii.eqb "&" c) eqn:Ea.
  { reflexivity. }
  cbn [subst_char append]. 
  destruct (Ascii.eqb "<" c) eqn:El.
  { reflexivity. }
  cbn [subst_char append].
  destruct (Ascii.eqb ">" c) eqn:Eg; reflexivity.
Qed.

Lemma escape_xml_passes (t : string) :
  escape_xml t = collapse_gt (collapse_lt (collapse_amp (esc t))).
Proof.
  destruct t as [|c t]; [reflexivity|].
  unfold escape_xml, replace.
  now rewrite !replace_from_char, three_replacements.
Qed.

Lemma plain_not_amp (c : ascii) : is_plain c = true -> Ascii.eqb "&" c = false.
Proof.
  unfold is_plain. destruct (Ascii.eqb "&" c); [discriminate|reflexivity].
Qed.

Lemma esc_char_plain (c : ascii) : is_plain c = true -> esc_char c = String c "".
Proof.
  unfold is_plain, esc_char.
  destruct (Ascii.eqb "&" c), (Ascii.eqb "<" c), (Ascii.eqb ">" c);
    (discriminate || reflexivity).
Qed.

Lemma Ent_tail (P : string -> Prop) (c : ascii) (r : string) :
  is_plain c = true -> Ent P (String c r) -> Ent P r.
Proof.
  intros Hc H. inversion H; subst; try assumption; discriminate.
Qed.

(** How one collapsing pass moves over the possible heads of a string. *)
Lemma collapse_chr (old new : string) (c : ascii) (r : string) :
  Ascii.eqb "&" c = false ->
  replace_from (String "&" old) new 0 (String c r)
  = String c (replace_from (String "&" old) new 0 r).
Proof. intros H. cbn [replace_from startswith]. now rewrite H. Qed.

Lemma collapse_amp_hit r : collapse_amp ("&amp;amp;" ++ r) = "&amp;" ++ collapse_amp r.
Proof. reflexivity. Qed.
Lemma collapse_amp_miss r :
  startswith r "amp;" = false -> collapse_amp ("&amp;" ++ r) = "&amp;" ++ collapse_amp r.
Proof. intros H. unfold collapse_amp. cbn. cbn in H. now rewrite H. Qed.
Lemma collapse_amp_lt r : collapse_amp ("&lt;" ++ r) = "&lt;" ++ collapse_amp r.
Proof. reflexivity. Qed.
Lemma collapse_amp_gt r : collapse_amp ("&gt;" ++ r) = "&gt;" ++ collapse_amp r.
Proof. reflexivity. Qed.

Lemma collapse_lt_hit r : collapse_lt ("&amp;lt;" ++ r) = "&lt;" ++ collapse_lt r.
Proof. reflexivity. Qed.
Lemma collapse_lt_miss r :
  startswith r "lt;" = false -> collapse_lt ("&amp;" ++ r) = "&amp;" ++ collapse_lt r.
Proof. intros H. unfold collapse_lt. cbn. cbn in H. now rewrite H. Qed.
Lemma collapse_lt_lt r : collapse_lt ("&lt;" ++ r) = "&lt;" ++ collapse_lt r.
Proof. reflexivity. Qed.
Lemma collapse_lt_gt r : collapse_lt ("&gt;" ++ r) = "&gt;" ++ collapse_lt r.
Proof. reflexivity. Qed.

Lemma collapse_gt_hit r : collapse_gt ("&amp;gt;" ++ r) = "&gt;" ++ collapse_gt r.
Proof. reflexivity. Qed.
Lemma collapse_gt_miss r :
  startswith r "gt;" = false -> collapse_gt ("&amp;" ++ r) = "&amp;" ++ collapse_gt r.
Proof. intros H. unfold collapse_gt. cbn. cbn in H. now rewrite H. Qed.
Lemma collapse_gt_lt r : collapse_gt ("&lt;" ++ r) = "&lt;" ++ collapse_gt r.
Proof. reflexivity. Qed.
Lemma collapse_gt_gt r : collapse_gt ("&gt;" ++ r) = "&gt;" ++ collapse_gt r.
Proof. reflexivity. Qed.

Lemma plain_neq (q : ascii) :
  is_plain q = true ->
  Ascii.eqb q "&" = false /\ Ascii.eqb q "<" = false /\ Ascii.eqb q ">" = false.
Proof.
  unfold is_plain. rewrite !(Ascii.eqb_sym q).
  destruct (Ascii.eqb "&" q), (Ascii.eqb "<" q), (Ascii.eqb ">" q);
    intros H; try discriminate; auto.
Qed.

Lemma esc_prefix (s p : string) :
  all_plain p = true -> startswith (esc s) p = startswith s p.
Proof.
  revert p; induction s as [|c s IH]; intros p Hp; [reflexivity|].
  destruct p as [|q p]; [reflexivity|].
  cbn in Hp. apply andb_true_iff in Hp as [Hq Hp].
  apply plain_neq in Hq as (Qa & Ql & Qg).
  cbn [esc]. unfold esc_char.
  destruct (Ascii.eqb "&" c) eqn:Ea;
    [apply Ascii.eqb_eq in Ea; subst c; cbn [append startswith];
     now rewrite Qa|].
  destruct (Ascii.eqb "<" c) eqn:El;
    [apply Ascii.eqb_eq in El; subst c; cbn [append startswith];
     now rewrite Qa, Ql|].
  destruct (Ascii.eqb ">" c) eqn:Eg;
    [apply Ascii.eqb_eq in Eg; subst c; cbn [append startswith];
     now rewrite Qa, Qg|].
  cbn [append startswith]. now rewrite IH.
Qed.

Lemma Ent_esc (t : string) : Ent (fun _ => True) (esc t).
Proof.
  induction t as [|c t IH]; [constructor|].
  cbn [esc]. unfold esc_char.
  destruct (Ascii.eqb "&" c) eqn:Ea; [now apply Ent_amp|].
  destruct (Ascii.eqb "<" c) eqn:El; [now apply Ent_lt|].
  destruct (Ascii.eqb ">" c) eqn:Eg; [now apply Ent_gt|].
  apply Ent_chr; [|exact IH]. unfold is_plain. now rewrite Ea, El, Eg.
Qed.

(** Each pass is followed through a string by induction on its length: an
    occurrence makes the scan jump over characters of the tail. *)
Ltac ent_tail4 H :=
  do 4 (apply Ent_tail in H; [|reflexivity]).
Ltac ent_tail3 H :=
  do 3 (apply Ent_tail in H; [|reflexivity]).

Lemma Ent_collapse_amp (s : string) :
  Ent (fun _ => True) s -> Ent (fun _ => True) (collapse_amp s).
Proof.
  remember (String.length s) as n eqn:Hn.
  revert s Hn; induction n as [n IH] using lt_wf_ind; intros s Hn H.
  inversion H as [|c r Hc Hr|r _ Hr|r Hr|r Hr]; subst.
  - constructor.
  - unfold collapse_amp. rewrite collapse_chr by now apply plain_not_amp.
    apply Ent_chr; [exact Hc|]. eapply IH; [|reflexivity|exact Hr]. simpl; lia.
  - destruct (startswith r "amp;") eqn:Hs.
    + apply startswith_split in Hs as [r' ->].
      change ("&amp;" ++ "amp;" ++ r') with ("&amp;amp;" ++ r').
      rewrite collapse_amp_hit. ent_tail4 Hr.
      apply Ent_amp; [exact I|]. eapply IH; [|reflexivity|exact Hr]. simpl; lia.
    + rewrite collapse_amp_miss by exact Hs.
      apply Ent_amp; [exact I|]. eapply IH; [|reflexivity|exact Hr]. simpl; lia.
  - rewrite collapse_amp_lt. apply Ent_lt.
    eapply IH; [|reflexivity|exact Hr]. simpl; lia.
  - rewrite collapse_amp_gt. apply Ent_gt.
    eapply IH; [|reflexivity|exact Hr]. simpl; lia.
Qed.

Lemma Ent_collapse_lt (s : string) :
  Ent (fun _ => True) s -> Ent lt_free (collapse_lt s).
Proof.
  remember (String.length s) as n eqn:Hn.
  revert s Hn; induction n as [n IH] using lt_wf_ind; intros s Hn H.
  inversion H as [|c r Hc Hr|r _ Hr|r Hr|r Hr]; subst.
  - constructor.
  - unfold collapse_lt. rewrite collapse_chr by now apply plain_not_amp.
    apply Ent_chr; [exact Hc|]. eapply IH; [|reflexivity|exact Hr]. simpl; lia.
  - destruct (startswith r "lt;") eqn:Hs.
    + apply startswith_split in Hs as [r' ->].
      change ("&amp;" ++ "lt;" ++ r') with ("&amp;lt;" ++ r').
      rewrite collapse_lt_hit. ent_tail3 Hr.
      apply Ent_lt. eapply IH; [|reflexivity|exact Hr]. simpl; lia.
    + rewrite collapse_lt_miss by exact Hs.
      apply Ent_amp.
      * unfold lt_free, collapse_lt. now rewrite replace_from_prefix.
      * eapply IH; [|reflexivity|exact Hr]. simpl; lia.
  - rewrite collapse_lt_lt. apply Ent_lt.
    eapply IH; [|reflexivity|exact Hr]. simpl; lia.
  - rewrite collapse_lt_gt. apply Ent_gt.
    eapply IH; [|reflexivity|exact Hr]. simpl; lia.
Qed.

Lemma Ent_collapse_gt (s : string) :
  Ent lt_free s -> Ent entity_free (collapse_gt s).
Proof.
  remember (String.length s) as n eqn:Hn.
  revert s Hn; induction n as [n IH] using lt_wf_ind; intros s Hn H.
  inversion H as [|c r Hc Hr|r Hl Hr|r Hr|r Hr]; subst.
  - constructor.
  - unfold collapse_gt. rewrite collapse_chr by now apply plain_not_amp.
    apply Ent_chr; [exact Hc|]. eapply IH; [|reflexivity|exact Hr]. simpl; lia.
  - destruct (startswith r "gt;") eqn:Hs.
    + apply startswith_split in Hs as [r' ->].
      change ("&amp;" ++ "gt;" ++ r') with ("&amp;gt;" ++ r').
      rewrite collapse_gt_hit. ent_tail3 Hr.
      apply Ent_gt. eapply IH; [|reflexivity|exact Hr]. simpl; lia.
    + rewrite collapse_gt_miss by exact Hs.
      apply Ent_amp.
      * unfold entity_free, lt_free, gt_free, collapse_gt.
        now rewrite !replace_from_prefix.
      * eapply IH; [|reflexivity|exact Hr]. simpl; lia.
  - rewrite collapse_gt_lt. apply Ent_lt.
    eapply IH; [|reflexivity|exact Hr]. simpl; lia.
  - rewrite collapse_gt_gt. apply Ent_gt.
    eapply IH; [|reflexivity|exact Hr]. simpl; lia.
Qed.

Lemma Ent_escape_xml (t : string) : Ent entity_free (escape_xml t).
Proof.
  rewrite escape_xml_passes.
  apply Ent_collapse_gt, Ent_collapse_lt, Ent_collapse_amp, Ent_esc.
Qed.

(** On a string already in entity form the whole function is the identity. *)
Lemma escape_xml_fixes (r : string) : Ent entity_free r -> escape_xml r = r.
Proof.
  intros H. rewrite escape_xml_passes.
  induction H as [|c r Hc Hr IH|r [Hl Hg] Hr IH|r Hr IH|r Hr IH].
  - reflexivity.
  - cbn [esc]. rewrite esc_char_plain by exact Hc. cbn [append].
    unfold collapse_amp, collapse_lt, collapse_gt in *.
    rewrite !collapse_chr by now apply plain_not_amp. now rewrite IH.
  - change (esc ("&amp;" ++ r)) with ("&amp;amp;" ++ esc r).
    rewrite collapse_amp_hit.
    rewrite collapse_lt_miss.
    2:{ unfold collapse_amp. rewrite replace_from_prefix by reflexivity.
        now rewrite esc_prefix. }
    rewrite collapse_gt_miss.
    2:{ unfold collapse_lt, collapse_amp.
        rewrite !replace_from_prefix by reflexivity. now rewrite esc_prefix. }
    now rewrite IH.
  - change (esc ("&lt;" ++ r)) with ("&amp;lt;" ++ esc r).
    change (collapse_amp ("&amp;lt;" ++ esc r)) with ("&amp;lt;" ++ collapse_amp (esc r)).
    rewrite collapse_lt_hit, collapse_gt_lt. now rewrite IH.
  - change (esc ("&gt;" ++ r)) with ("&amp;gt;" ++ esc r).
    change (collapse_amp ("&amp;gt;" ++ esc r)) with ("&amp;gt;" ++ collapse_amp (esc r)).
    change (collapse_lt ("&amp;gt;" ++ collapse_amp (esc r)))
      with ("&amp;gt;" ++ collapse_lt (collapse_amp (esc r))).
    rewrite collapse_gt_hit. now rewrite IH.
Qed.

End EscapeIdempotent.

(** C10.  [escape_xml] of convert_ch17_comprehensive.py is idempotent: escaping
    an already escaped string changes nothing. *)
Theorem escape_xml_idempotent (t : string) :
  Ch17Comprehensive.escape_xml (Ch17Comprehensive.escape_xml t)
  = Ch17Comprehensive.escape_xml t.
Proof. apply escape_xml_fixes, Ent_escape_xml. Qed.

(** ** The nested solution scope (convert_ch17_two_props.py) *)

Section TwoPropsLoop.
Import Ch17TwoProps.

Ltac split_cases :=
  repeat match goal with
         | |- context [if ?b then _ else _] => destruct b
         | |- context [match ?x with (_, _) => _ end] => destruct x
         | |- context [match ?x with Some _ => _ | None => _ end] => destruct x
         | |- context [match ?x with [] => _ | _ :: _ => _ end] => destruct x
         end.

(** Every turn of the loop advances the index. *)
Lemma two_props_step_progress (lines : list string) (st : state) :
  i st < i (step lines st).
Proof.
  unfold step, chapter_intro, section_heading, subsection_heading, open_code,
    in_code, in_guide, in_data, paragraph.
  split_cases; cbn; lia.
Qed.

(** With as many turns as there are lines the loop has read the whole input. *)
Lemma two_props_loop_reaches_end (fuel : nat) (lines : list string) (st : state) :
  List.length lines <= i st + fuel ->
  List.length lines <= i (loop fuel lines st).
Proof.
  revert st; induction fuel as [|fuel IH]; intros st H; cbn [loop].
  - lia.
  - unfold in_range. destruct (Nat.ltb_spec (i st) (List.length lines)) as [Hlt|Hge].
    + apply IH. pose proof (two_props_step_progress lines st). lia.
    + lia.
Qed.

End TwoPropsLoop.

(** C1.  In convert_ch17_two_props.py the block is closed by the first line
    that contains the marker, which is the line that opens the nested
    solution scope: after four turns the guided practice is no longer open,
    the exercise is emitted with a statement and no solution, the solution
    text becomes a paragraph of its own, and each of the two close tokens is
    emitted as a paragraph instead of closing anything. *)
Theorem two_props_nested_open_closes_exercise :
  Ch17TwoProps.in_guide_practice
    (Ch17TwoProps.loop 3 guided_practice_with_solution Ch17TwoProps.init) = true
  /\ Ch17TwoProps.in_guide_practice
       (Ch17TwoProps.loop 4 guided_practice_with_solution Ch17TwoProps.init) = false
  /\ Ch17TwoProps.convert_lines guided_practice_with_solution
     = List.app (Ch17TwoProps.output Ch17TwoProps.init)
         [ "    <exercise>";
           "      <statement>";
           "        <p>";
           "          What is 1 + 1?" ++ nl;
           "        </p>";
           "      </statement>";
           "    </exercise>";
           "    <p>";
           "      It is 2.";
           "    </p>";
           "    <p>";
           "      :::";
           "    </p>";
           "    <p>";
           "      :::";
           "    </p>";
           "";
           "  <section xml:id=" ++ dq ++ "sec-chp17-exercises" ++ dq ++ ">";
           "    <title>Exercises</title>";
           "    <!-- Exercises to be added -->";
           "  </section>";
           "</chapter>" ].
Proof. repeat split; vm_compute; reflexivity. Qed.

(** ** Statement and solution (convert_ch19.py) *)

(** C2.  In convert_ch19.py the heading of the solution is taken by the
    section branch, which comes first in the loop: a section titled Solution
    is opened in the middle of the block, no solution marker is recorded, and
    the text of the solution is emitted inside the statement; the exercise
    has no solution element. *)
Theorem ch19_solution_text_lands_in_statement :
  Ch19.written (Ch19.main ch19_guided_practice)
  = List.app (Ch19.output Ch19.init)
      [ "  <introduction>" ++ nl;
        nl ++ "  <section>" ++ nl;
        "    <title>Solution</title>" ++ nl;
        nl ++ "      <exercise>" ++ nl;
        "        <statement>" ++ nl;
        "          <p>What is 1 + 1?</p>" ++ nl;
        "          <p>::: {.callout-note collapse=" ++ dq ++ "true" ++ dq ++ "}</p>" ++ nl;
        "          <p>It is 2.</p>" ++ nl;
        "        </statement>" ++ nl;
        "      </exercise>" ++ nl;
        "    <p>:::</p>" ++ nl;
        "  </section>" ++ nl;
        "</chapter>" ++ nl ].
Proof. vm_compute. reflexivity. Qed.

(** ** Protected spans (convert_ch17_complete.py) *)

(** C5.  [convert_inline] of convert_ch17_complete.py restores the code and
    math spans before it rewrites cross-references, so a reference marker
    inside a code span or a math span is rewritten into a tag. *)
Theorem complete_convert_inline_rewrites_inside_spans :
  Ch17Complete.convert_inline "Use `@fig-a` here"
  = "Use <c><xref ref=" ++ dq ++ "fig-a" ++ dq ++ " /></c> here"
  /\ Ch17Complete.convert_inline "$@sec-b$"
     = "<m><xref ref=" ++ dq ++ "sec-b" ++ dq ++ " /></m>".
Proof. split; vm_compute; reflexivity. Qed.

(** ** The loop of convert_ch19.py reaches the end of its input *)

Section Ch19Loop.
Import Ch19.

Ltac split_ifs :=
  repeat match goal with
         | |- context [if ?b then _ else _] => destruct b
         | |- context [match ?x with (_, _) => _ end] => destruct x
         end.

Lemma section_heading_progress (line : string) (st : state) :
  i (section_heading line st) = S (i st) \/ stopped (section_heading line st) = true.
Proof. unfold section_heading. split_ifs; cbn; auto. Qed.

Lemma subsection_heading_progress (line : string) (st : state) :
  i (subsection_heading line st) = S (i st).
Proof. unfold subsection_heading. split_ifs; reflexivity. Qed.

Lemma close_exercise_progress (st : state) : i (close_exercise st) = S (i st).
Proof. unfold close_exercise. split_ifs; reflexivity. Qed.

Lemma code_block_progress (lines : list string) (st : state) :
  i st < i (code_block lines st).
Proof.
  unfold code_block.
  destruct (chunk_metadata _ _ _ _ _ _) as [[cap lab] wid].
  unfold scan_to.
  split_ifs; cbn; try lia.
  all: destruct (keep_nonblank _); cbn; lia.
Qed.

(** Every turn advances the index or breaks. *)
Lemma step_progress (lines : list string) (st : state) :
  i st < i (step lines st) \/ stopped (step lines st) = true.
Proof.
  unfold step.
  repeat match goal with
  | |- context [if ?b then _ else _] => destruct b;
      [first [ left; cbn; unfold scan_to; lia
             | destruct (section_heading_progress (rstrip (line_at lines (i st))) st)
                 as [->| ->]; auto
             | left; rewrite subsection_heading_progress; lia
             | left; rewrite close_exercise_progress; lia
             | left; apply code_block_progress
             | idtac ] | ]
    end.
  all: try (left; cbn; lia).
  all: try (left; unfold paragraph; split_ifs; cbn; lia).
Qed.

Lemma loop_stopped (fuel : nat) (lines : list string) (st : state) :
  stopped st = true -> loop fuel lines st = st.
Proof. intros H. destruct fuel; cbn; [reflexivity|now rewrite H]. Qed.

(** With as many turns as there are lines the loop ends as the Python loop
    does: by its [break] or with the index past the last line. *)
Lemma loop_reaches_end (fuel : nat) (lines : list string) (st : state) :
  List.length lines <= i st + fuel ->
  stopped (loop fuel lines st) = true \/ List.length lines <= i (loop fuel lines st).
Proof.
  revert st; induction fuel as [|fuel IH]; intros st H; cbn [loop].
  - right. lia.
  - destruct (stopped st) eqn:Hs; [now left|].
    unfold in_range. destruct (Nat.ltb_spec (i st) (List.length lines)) as [Hlt|Hge].
    + destruct (step_progress lines st) as [Hp|Hp].
      * apply IH. lia.
      * rewrite loop_stopped by exact Hp. now left.
    + right. lia.
Qed.

End Ch19Loop.

(** ** What the end of a run of convert_ch19.py writes *)

Section Ch19Finish.
Import Ch19.

Lemma contains_here (s p : string) : startswith s p = true -> contains s p = true.
Proof. intros H. destruct s; cbn in *; now rewrite H. Qed.

Lemma contains_app_r (a s p : string) :
  contains s p = true -> contains (a ++ s) p = true.
Proof.
  intros H. induction a as [|c a IH]; [exact H|].
  cbn [append contains]. rewrite IH. apply orb_true_r.
Qed.

Lemma join_empty_app (l : list string) (x : string) :
  PyStr.concat (List.app l [x]) = PyStr.concat l ++ x.
Proof.
  unfold PyStr.concat.
  induction l as [|a l IH]; [reflexivity|].
  destruct l as [|b l].
  - cbn. reflexivity.
  - change (join "" (List.app (a :: b :: l) [x]))
      with (a ++ "" ++ join "" (List.app (b :: l) [x])).
    rewrite IH. cbn [join]. cbn [append]. now rewrite sapp_assoc.
Qed.

Lemma lastn_snoc {A} (n : nat) (l : list A) (x : A) :
  lastn (S n) (List.app l [x]) = List.app (lastn n l) [x].
Proof.
  unfold lastn. rewrite List.length_app. cbn [List.length].
  replace (List.length l + 1 - S n) with (List.length l - n) by lia.
  rewrite skipn_app.
  replace (List.length l - n - List.length l) with 0 by lia.
  reflexivity.
Qed.

(** Whatever the loop leaves, the chapter is closed within the last five
    chunks of what is written. *)
Lemma finish_closes_chapter (st : state) :
  contains (PyStr.concat (lastn 5 (finish st))) "</chapter>" = true.
Proof.
  unfold finish.
  match goal with
  | |- context [negb (contains ?x "</chapter>")] =>
      destruct (contains x "</chapter>") eqn:Hc
  end; cbn [negb].
  - exact Hc.
  - rewrite lastn_snoc, join_empty_app. apply contains_app_r. reflexivity.
Qed.

(** The text collected for a block that is still open is not looked at. *)
Lemma finish_ignores_open_block (st : state) (b : bool) (ls : list string) :
  finish (set_exercise b ls st) = finish st.
Proof. reflexivity. Qed.

End Ch19Finish.



(** ** Identifiers of headings (convert_ch19.py) *)

(** C4, as stated, fails on convert_ch19.py: the second declaration of the
    identifier is converted like the first, both sections are written with
    it, and the run reports completion. *)
Lemma ch19_duplicate_id_is_written_twice :
  Ch19.main ch19_duplicate_ids
  = Ch19.mkResult
      (List.app (Ch19.output Ch19.init)
         [ "  <introduction>" ++ nl;
           nl ++ "  <section xml:id=" ++ dq ++ "sec-a" ++ dq ++ ">" ++ nl;
           "    <title>A</title>" ++ nl;
           "    <p>text</p>" ++ nl;
           "  </section>" ++ nl;
           nl ++ "  <section xml:id=" ++ dq ++ "sec-a" ++ dq ++ ">" ++ nl;
           "    <title>B</title>" ++ nl;
           "  </section>" ++ nl;
           "</chapter>" ++ nl ])
      [ "Conversion complete! Output written to /home/runner/work/ims/ims/source/chapters/ch19-inference-single-mean.ptx";
        "Processed 3 lines from input file" ].
Proof. vm_compute. reflexivity. Qed.

(** ** Identifiers derived from titles *)

Section Slug.
Import PyRe.

(** Replacing every match of [cls+] by a hyphen, followed along the scan: at
    a character outside a run, and inside a run whose remaining length is the
    number of characters to pass over. *)
Lemma sub_run_hyphenate (cls : ascii -> bool) (s : string) :
  forall k,
    render_idx (fun _ _ => "-") k (scan_from [Run cls] 0 s)
    = hyphenate (fun c => negb (cls c)) false s
    /\ render_idx (fun _ _ => "-") k
         (scan_from [Run cls] (String.length (fst (span cls s))) s)
       = hyphenate (fun c => negb (cls c)) true s.
Proof.
  induction s as [|c s IH]; intros k; [split; reflexivity|].
  assert (A : render_idx (fun _ _ => "-") k (scan_from [Run cls] 0 (String c s))
              = hyphenate (fun c => negb (cls c)) false (String c s)).
  { cbn [scan_from match_atoms span hyphenate].
    destruct (cls c) eqn:Hc; cbn [negb].
    - destruct (span cls s) as [r rest] eqn:Hsp.
      cbn [String.length Nat.add]. rewrite Nat.add_0_r.
      cbn [render_idx append]. f_equal.
      destruct (IH (S k)) as [_ B]. exact B.
    - cbn [render_idx]. f_equal. apply IH. }
  split; [exact A|].
  cbn [span]. destruct (cls c) eqn:Hc.
  - destruct (span cls s) as [r rest] eqn:Hsp.
    cbn [fst String.length scan_from hyphenate]. rewrite Hc. cbn [negb].
    destruct (IH k) as [_ B]. exact B.
  - cbn [fst String.length]. rewrite A.
    cbn [hyphenate]. now rewrite Hc.
Qed.

Lemma lower_char_not_upper (c : ascii) : is_upper (lower_char c) = false.
Proof. destruct c as [[] [] [] [] [] [] [] []]; reflexivity. Qed.

Lemma hyphenate_lower (p q : ascii -> bool) (b : bool) (t : string) :
  (forall c, is_upper c = false -> p c = q c) ->
  hyphenate p b (lower t) = hyphenate q b (lower t).
Proof.
  intros H. revert b; induction t as [|c t IH]; intros b; [reflexivity|].
  cbn [lower hyphenate].
  rewrite (H _ (lower_char_not_upper c)), !IH. reflexivity.
Qed.

Lemma example_id_is_spec_slug (title : string) :
  Ch17Full.example_id title = (if truthy title then spec_slug title else "example").
Proof.
  unfold Ch17Full.example_id, spec_slug.
  destruct (truthy title); [|reflexivity].
  f_equal. unfold sub, scan.
  rewrite (proj1 (sub_run_hyphenate _ _ 0)).
  apply hyphenate_lower. intros c Hc.
  unfold Ch17Full.slug_char, is_alnum. rewrite Hc, negb_involutive.
  now rewrite orb_false_r.
Qed.

End Slug.

(** ** Image files of figures *)


(** ** Code listings *)


(** ** convert_ch24_enhanced.py does not compile *)

(** C9.  Line 495 of convert_ch24_enhanced.py is a header with no indented
    block after it (line 496 repeats it at the same depth), so compiling the
    module raises IndentationError there: whatever the module would do once
    compiled and whatever the input, a run executes nothing and writes
    nothing. *)
Theorem ch24_enhanced_never_runs
    (execute : list string -> list string) (input : list string) :
  Ch24Enhanced.run execute input = Ch24Enhanced.IndentationError 495.
Proof. reflexivity. Qed.

(** * Further properties of the scripts *)

(** ** The solution of a guided practice in convert_ch17_two_props.py *)

Section TwoPropsSolution.
Import Ch17TwoProps.

Lemma startswith_prefix (s p q : string) :
  startswith s (p ++ q) = true -> startswith s p = true.
Proof.
  revert s; induction p as [|a p IH]; intros s H; [reflexivity|].
  destruct s as [|b s]; [discriminate|]. cbn in *.
  apply andb_true_iff in H as [-> H]. cbn. now apply IH.
Qed.

Lemma contains_prefix (s p q : string) :
  contains s (p ++ q) = true -> contains s p = true.
Proof.
  induction s as [|c s IH]; cbn [contains]; intros H.
  - apply orb_true_iff in H as [H|H]; [|discriminate].
    apply startswith_prefix in H. now rewrite H.
  - apply orb_true_iff in H as [H|H].
    + apply startswith_prefix in H. now rewrite H.
    + rewrite (IH H). apply orb_true_r.
Qed.

Lemma startswith_before_nl (m a rest : string) :
  nl_free m = true ->
  startswith (a ++ String (ascii_of_nat 10) rest) m = true -> startswith a m = true.
Proof.
  revert a; induction m as [|c m IH]; intros a Hm H; [reflexivity|].
  cbn in Hm. apply andb_true_iff in Hm as [Hc Hm]. apply negb_true_iff in Hc.
  destruct a as [|b a].
  - cbn in H. rewrite Hc in H. discriminate.
  - cbn [append startswith] in *.
    apply andb_true_iff in H as [-> H]. cbn. now apply IH.
Qed.

Lemma contains_app_nl (m a rest : string) :
  nl_free m = true -> truthy m = true ->
  contains (a ++ String (ascii_of_nat 10) rest) m = true ->
  contains a m = true \/ contains rest m = true.
Proof.
  intros Hm Ht. induction a as [|b a IH]; cbn [append contains]; intros H.
  - apply orb_true_iff in H as [H|H]; [|now right].
    destruct m as [|c m]; [discriminate|].
    cbn in Hm. apply andb_true_iff in Hm as [Hc _]. apply negb_true_iff in Hc.
    cbn in H. rewrite Hc in H. discriminate.
  - apply orb_true_iff in H as [H|H].
    + left. apply (startswith_before_nl m (String b a) rest Hm) in H.
      now rewrite H.
    + destruct (IH H) as [Ha|Hr]; [left|now right].
      rewrite Ha. apply orb_true_r.
Qed.

Lemma contains_join_nl (m : string) (ls : list string) :
  nl_free m = true -> truthy m = true ->
  contains (join nl ls) m = true ->
  Exists (fun l => contains l m = true) ls.
Proof.
  intros Hm Ht. induction ls as [|x ls IH]; intros H.
  - destruct m; discriminate.
  - destruct ls as [|y ls].
    + now constructor.
    + change (join nl (x :: y :: ls))
        with (x ++ String (ascii_of_nat 10) (join nl (y :: ls))) in H.
      apply (contains_app_nl m x _ Hm Ht) in H as [H|H].
      * now constructor.
      * apply Exists_cons_tl. now apply IH.
Qed.

Lemma split_block_marker_free (ls : list string) :
  Forall (fun l => contains l ":::" = false) ls ->
  split_block (join nl ls) = (join nl ls, "").
Proof.
  intros H. unfold split_block.
  destruct (contains (join nl ls) callout_marker) eqn:Hc; [|reflexivity].
  apply contains_join_nl in Hc; [|reflexivity|reflexivity].
  apply Exists_exists in Hc as (l & Hin & Hl).
  rewrite Forall_forall in H. specialize (H l Hin).
  change callout_marker with (":::" ++ drop 3 callout_marker) in Hl.
  apply contains_prefix in Hl. congruence.
Qed.

Ltac split_cases :=
  repeat match goal with
         | |- context [if ?b then _ else _] => destruct b
         | |- context [match ?x with (_, _) => _ end] => destruct x
         | |- context [match ?x with Some _ => _ | None => _ end] => destruct x
         | |- context [match ?x with [] => _ | _ :: _ => _ end] => destruct x
         end.

Lemma in_guide_marker_free (line : string) (st : state) :
  marker_free st -> marker_free (in_guide line st).
Proof.
  unfold marker_free, in_guide. intros H.
  destruct (contains line ":::") eqn:E.
  - destruct (split_block _). cbn. constructor.
  - cbn. apply Forall_app. split; [exact H|]. now constructor.
Qed.

Lemma in_data_marker_free (line : string) (st : state) :
  marker_free st -> marker_free (in_data line st).
Proof.
  unfold marker_free, in_data. intros H.
  destruct (contains line ":::") eqn:E.
  - cbn. constructor.
  - cbn. apply Forall_app. split; [exact H|]. now constructor.
Qed.

Lemma step_marker_free (lines : list string) (st : state) :
  marker_free st -> marker_free (step lines st).
Proof.
  intros H. unfold step.
  repeat match goal with
  | |- context [if ?b then _ else _] => destruct b;
      [first [ now apply in_guide_marker_free
             | now apply in_data_marker_free
             | idtac ] | ]
  end.
  all: unfold marker_free, chapter_intro, section_heading, subsection_heading,
         open_code, in_code, paragraph in *.
  all: split_cases; cbn; first [exact H | constructor].
Qed.

Lemma loop_marker_free (fuel : nat) (lines : list string) (st : state) :
  marker_free st -> marker_free (loop fuel lines st).
Proof.
  revert st; induction fuel as [|fuel IH]; intros st H; cbn [loop]; [exact H|].
  destruct (in_range lines (i st)); [|exact H].
  apply IH. now apply step_marker_free.
Qed.

End TwoPropsSolution.

(** X1.  In convert_ch17_two_props.py, for every input and after any number
    of turns of the loop, the text collected for the open block does not hold
    the callout marker, so the split of lines 216-228 yields the whole text
    as the statement and an empty solution: no guided practice is ever
    emitted with a solution. *)
Theorem two_props_solution_is_always_empty (lines : list string) (fuel : nat) :
  Ch17TwoProps.split_block
    (join nl (Ch17TwoProps.current_block
                (Ch17TwoProps.loop fuel lines Ch17TwoProps.init)))
  = (join nl (Ch17TwoProps.current_block
                (Ch17TwoProps.loop fuel lines Ch17TwoProps.init)), "").
Proof.
  apply split_block_marker_free. apply loop_marker_free. constructor.
Qed.

(** X4.  The loop of [convert_to_ptx] in convert_ch17_two_props.py terminates: with
    one turn per line it has read the whole input. *)
Theorem two_props_reads_whole_input (lines : list string) :
  List.length lines
  <= Ch17TwoProps.i (Ch17TwoProps.loop (List.length lines) lines Ch17TwoProps.init).
Proof. apply two_props_loop_reaches_end. cbn. lia. Qed.

(** ** The solution of an exercise in convert_ch19.py *)

Section Ch19Exercise.
Import Ch19.

Lemma exercise_body_in_solution (ls : list string) :
  snd (exercise_body ls true) = true.
Proof.
  induction ls as [|l ls IH]; [reflexivity|].
  cbn [exercise_body].
  destruct (String.eqb l "SOLUTION_START");
    destruct (exercise_body ls true) as [out b]; cbn in *;
    [exact IH|destruct (truthy (strip l)); exact IH].
Qed.

Lemma exercise_body_before_marker (pre rest : list string) (b : bool) :
  no_solution_marker pre = true ->
  exercise_body (List.app pre rest) b
  = (List.app (ch19_paragraphs pre) (fst (exercise_body rest b)),
     snd (exercise_body rest b)).
Proof.
  unfold no_solution_marker, ch19_paragraphs.
  induction pre as [|l pre IH]; intros H.
  - cbn. now destruct (exercise_body rest b).
  - cbn [forallb] in H. apply andb_true_iff in H as [Hl H].
    apply negb_true_iff in Hl.
    cbn [List.app exercise_body filter]. rewrite Hl, (IH H).
    destruct (truthy (strip l)); reflexivity.
Qed.

End Ch19Exercise.

(** X2.  In convert_ch19.py a line that reads [## Solution] is always handled by
    the section branch of the loop: the turn is the one of a section heading,
    and neither the exercise flag nor the lines collected for the exercise
    change, so no solution marker is recorded for it. *)
Theorem ch19_solution_heading_is_a_section (lines : list string) (st : Ch19.state) :
  rstrip (line_at lines (Ch19.i st)) = "## Solution" ->
  Ch19.step lines st = Ch19.section_heading "## Solution" st
  /\ Ch19.in_exercise (Ch19.step lines st) = Ch19.in_exercise st
  /\ Ch19.exercise_lines (Ch19.step lines st) = Ch19.exercise_lines st.
Proof.
  intros H.
  assert (E : Ch19.step lines st = Ch19.section_heading "## Solution" st).
  { unfold Ch19.step. rewrite H. cbn -[Ch19.section_heading Nat.ltb].
    now rewrite andb_false_r. }
  rewrite E. split; [reflexivity|].
  unfold Ch19.section_heading. cbn -[Nat.eqb].
  destruct (Ch19.in_intro st); cbn -[Nat.eqb];
    destruct (Nat.eqb (Ch19.section_level st) 2); cbn -[Nat.eqb];
    try destruct (Nat.eqb (Ch19.section_level st) 1); cbn; split; reflexivity.
Qed.

Lemma ch19_solution_heading_is_a_section_witness :
  Ch19.step ch19_guided_practice ch19_at_solution_heading
  = Ch19.section_heading "## Solution" ch19_at_solution_heading
  /\ Ch19.in_exercise (Ch19.step ch19_guided_practice ch19_at_solution_heading) = true
  /\ Ch19.exercise_lines (Ch19.step ch19_guided_practice ch19_at_solution_heading)
     = ["What is 1 + 1?"].
Proof.
  exact (ch19_solution_heading_is_a_section ch19_guided_practice
           ch19_at_solution_heading eq_refl).
Defined.



(** ** Chunks in convert_ch24_inf_model_slr.py *)

Section SlrFacts.
Import Ch24Slr.

Lemma meta_step_code_content (m : meta) (line : string) :
  code_content (meta_step m line)
  = List.app (code_content m)
      (if slr_is_code_line (rstrip line) then [rstrip line] else []).
Proof.
  unfold meta_step, slr_is_code_line.
  destruct (contains (rstrip line) "#| label:"); cbn [negb andb code_content];
    [now rewrite List.app_nil_r|].
  destruct (contains (rstrip line) "#| fig-cap:"); cbn [negb andb code_content];
    [now rewrite List.app_nil_r|].
  destruct (contains (rstrip line) "#| fig-subcap:"); cbn [negb andb code_content];
    [now rewrite List.app_nil_r|].
  destruct (contains (rstrip line) "#| fig-alt:"); cbn [negb andb code_content];
    [now rewrite List.app_nil_r|].
  destruct (startswith (rstrip line) "#|"); cbn [negb andb].
  - repeat match goal with
           | |- context [if ?b then _ else _] => destruct b
           end; cbn [code_content]; now rewrite List.app_nil_r.
  - reflexivity.
Qed.

Lemma fold_meta_step_code_content (code_lines : list string) (m : meta) :
  code_content (fold_left meta_step code_lines m)
  = List.app (code_content m) (filter slr_is_code_line (map rstrip code_lines)).
Proof.
  revert m; induction code_lines as [|l ls IH]; intros m; cbn [fold_left map filter].
  - now rewrite List.app_nil_r.
  - rewrite IH, meta_step_code_content.
    destruct (slr_is_code_line (rstrip l)).
    + now rewrite <- List.app_assoc.
    + now rewrite List.app_nil_r.
Qed.

Lemma inline_math_pattern_is_unterminated :
  unterminated_set inline_math_pattern = true.
Proof. reflexivity. Qed.

End SlrFacts.

(** X5.  [process_code_block] of convert_ch24_inf_model_slr.py never returns
    for a chunk of ASCII lines with a label and a caption: the text of the
    caption goes through [convert_text_formatting], whose pattern of line 29
    does not compile, and the call raises [re.error], whatever the code, the
    caption and the sub-captions. *)
Theorem slr_code_block_with_caption_raises
    (formatted convert_cross_references : string -> string) (code_lines : list string) :
  forallb is_ascii code_lines = true ->
  Ch24Slr.has_figure (Ch24Slr.read_meta code_lines) = true ->
  Ch24Slr.process_code_block formatted convert_cross_references code_lines
  = Ch24Slr.ReError "unterminated character set".
Proof.
  intros _ H.
  unfold Ch24Slr.process_code_block, Ch24Slr.listing_of, Ch24Slr.cap_text,
    Ch24Slr.convert_text_formatting.
  cbv zeta. rewrite H, inline_math_pattern_is_unterminated.
  now destruct (Ch24Slr.clean _).
Qed.

Lemma slr_code_block_with_caption_raises_witness :
  Ch24Slr.process_code_block (fun s => s) (fun s => s) slr_figure_chunk
  = Ch24Slr.ReError "unterminated character set".
Proof.
  exact (slr_code_block_with_caption_raises (fun s => s) (fun s => s) slr_figure_chunk
           eq_refl eq_refl).
Defined.

(** X6.  For a chunk of ASCII lines without both a label and a caption,
    [process_code_block] of convert_ch24_inf_model_slr.py returns the listing
    alone: nothing when no code line is left, else four opening lines, then
    the lines of the chunk that are code and not blank, with the blanks at
    their right end removed, each escaped and followed by a line feed, in the
    order of the source, then the three closing lines. *)
Theorem slr_listing_keeps_nonblank_lines
    (formatted convert_cross_references : string -> string) (code_lines : list string) :
  forallb is_ascii code_lines = true ->
  Ch24Slr.has_figure (Ch24Slr.read_meta code_lines) = false ->
  Ch24Slr.process_code_block formatted convert_cross_references code_lines
  = Ch24Slr.Returns
      (concat
         (match slr_kept_lines code_lines with
          | [] => []
          | _ :: _ =>
              List.app
                [ (if truthy (Ch24Slr.label (Ch24Slr.read_meta code_lines))
                   then "<listing xml:id=" ++ dq ++ "listing-"
                          ++ Ch24Slr.label (Ch24Slr.read_meta code_lines) ++ dq ++ ">" ++ nl
                   else "<listing>" ++ nl);
                  "  <caption><c>R</c> code</caption>" ++ nl;
                  "  <program language=" ++ dq ++ "r" ++ dq ++ ">" ++ nl;
                  "    <input>" ++ nl ]
             (List.app
                (map (fun l => Ch24Slr.escape_xml l ++ nl) (slr_kept_lines code_lines))
                [ "    </input>" ++ nl; "  </program>" ++ nl; "</listing>" ++ nl ++ nl ])
          end)).
Proof.
  intros _ H.
  unfold Ch24Slr.process_code_block, Ch24Slr.listing_of. cbv zeta. rewrite H.
  assert (E : Ch24Slr.clean (Ch24Slr.code_content (Ch24Slr.read_meta code_lines))
              = slr_kept_lines code_lines).
  { unfold Ch24Slr.clean, slr_kept_lines, Ch24Slr.read_meta.
    now rewrite fold_meta_step_code_content. }
  rewrite E. destruct (slr_kept_lines code_lines) as [|l ls]; [reflexivity|].
  unfold Ch24Slr.listing_part. now rewrite andb_false_r.
Qed.

Lemma slr_listing_keeps_nonblank_lines_witness :
  Ch24Slr.process_code_block (fun s => s) (fun s => s) slr_small_chunk
  = Ch24Slr.Returns
      ("<listing xml:id=" ++ dq ++ "listing-tbl-x" ++ dq ++ ">" ++ nl
       ++ "  <caption><c>R</c> code</caption>" ++ nl
       ++ "  <program language=" ++ dq ++ "r" ++ dq ++ ">" ++ nl
       ++ "    <input>" ++ nl
       ++ "x &lt;- 1" ++ nl
       ++ "  y &lt;- 1 &lt; 2" ++ nl
       ++ "    </input>" ++ nl ++ "  </program>" ++ nl ++ "</listing>" ++ nl ++ nl).
Proof.
  exact (slr_listing_keeps_nonblank_lines (fun s => s) (fun s => s) slr_small_chunk
           eq_refl eq_refl).
Defined.

(** ** escape_xml without the collapsing passes *)

Section PlainEscape.

Lemma plain_escape_xml_esc (t : string) : Ch19.escape_xml t = esc t.
Proof.
  unfold Ch19.escape_xml, replace.
  now rewrite !replace_from_char, three_replacements.
Qed.

Lemma esc_app (a b : string) : esc (a ++ b) = esc a ++ esc b.
Proof.
  induction a as [|c a IH]; [reflexivity|].
  cbn [append esc]. now rewrite IH, sapp_assoc.
Qed.

Lemma esc_char_cases (c : ascii) :
  (c = "&"%char /\ esc_char c = "&amp;")
  \/ (c = "<"%char /\ esc_char c = "&lt;")
  \/ (c = ">"%char /\ esc_char c = "&gt;")
  \/ (is_plain c = true /\ esc_char c = String c "").
Proof.
  unfold esc_char, is_plain.
  destruct (Ascii.eqb "&" c) eqn:Ea; [apply Ascii.eqb_eq in Ea; auto|].
  destruct (Ascii.eqb "<" c) eqn:El; [apply Ascii.eqb_eq in El; auto|].
  destruct (Ascii.eqb ">" c) eqn:Eg; [apply Ascii.eqb_eq in Eg; auto 6|].
  auto 6.
Qed.

Lemma esc_inj (a : string) : forall b, esc a = esc b -> a = b.
Proof.
  induction a as [|c a IH]; intros [|d b] H.
  - reflexivity.
  - exfalso. cbn [esc] in H.
    destruct (esc_char_cases d) as [[_ E]|[[_ E]|[[_ E]|[_ E]]]];
      rewrite E in H; discriminate.
  - exfalso. cbn [esc] in H.
    destruct (esc_char_cases c) as [[_ E]|[[_ E]|[[_ E]|[_ E]]]];
      rewrite E in H; discriminate.
  - cbn [esc] in H.
    destruct (esc_char_cases c) as [[Hc E]|[[Hc E]|[[Hc E]|[Hc E]]]];
    destruct (esc_char_cases d) as [[Hd F]|[[Hd F]|[[Hd F]|[Hd F]]]];
      rewrite E, F in H; cbn [append] in H;
      try (subst c); try (subst d);
      try discriminate;
      try (injection H as H; f_equal; now apply IH).
    all: try (injection H as H1 H; subst; discriminate).
    injection H as -> H. f_equal. now apply IH.
Qed.

Lemma Ent_well_escaped (P : string -> Prop) (s : string) :
  Ent P s -> well_escaped s = true.
Proof.
  induction 1 as [|c r Hc Hr IH|r _ Hr IH|r Hr IH|r Hr IH].
  - reflexivity.
  - cbn [well_escaped]. apply plain_neq in Hc as (Qa & Ql & Qg).
    now rewrite Qa, Ql, Qg, IH.
  - cbn. exact IH.
  - cbn. exact IH.
  - cbn. exact IH.
Qed.

End PlainEscape.

(** X7.  [escape_xml] of convert_ch19.py (the same three replacements as in
    convert_ch24_enhanced.py, convert_ch24_inf_model_slr.py and
    convert_ch17_complete.py) loses nothing: two texts with the same escaped
    form are equal. *)
Theorem plain_escape_xml_is_injective (a b : string) :
  Ch19.escape_xml a = Ch19.escape_xml b -> a = b.
Proof. rewrite !plain_escape_xml_esc. apply esc_inj. Qed.

Lemma plain_escape_xml_is_injective_witness : "a < b & c" = "a < b & c".
Proof. exact (plain_escape_xml_is_injective "a < b & c" "a < b & c" eq_refl). Defined.

(** X8.  [escape_xml] of convert_ch19.py acts character by character: escaping
    a text piece by piece and joining the results gives the escaped whole. *)
Theorem plain_escape_xml_distributes (a b : string) :
  Ch19.escape_xml (a ++ b) = Ch19.escape_xml a ++ Ch19.escape_xml b.
Proof. rewrite !plain_escape_xml_esc. apply esc_app. Qed.

(** X9.  Whatever the text, [escape_xml] of convert_ch19.py and [escape_xml] of
    convert_ch17_comprehensive.py return character data: no angle bracket is
    left and every ampersand starts one of the entities amp, lt, gt. *)
Theorem escape_xml_output_is_character_data (t : string) :
  well_escaped (Ch19.escape_xml t) = true
  /\ well_escaped (Ch17Comprehensive.escape_xml t) = true.
Proof.
  split.
  - rewrite plain_escape_xml_esc. eapply Ent_well_escaped, Ent_esc.
  - eapply Ent_well_escaped, Ent_escape_xml.
Qed.

(** ** Spans protected by placeholders *)

Section ScanFacts.
Import PyRe.

Lemma free_of_app (cs a b : string) :
  free_of cs (a ++ b) = free_of cs a && free_of cs b.
Proof.
  induction a as [|c a IH]; [reflexivity|].
  cbn [append free_of]. now rewrite IH, andb_assoc.
Qed.

Lemma free_of_one (cs s : string) (a : ascii) :
  mem_char cs a = true -> free_of cs s = true -> free_of (String a "") s = true.
Proof.
  intros Ha. induction s as [|c s IH]; [reflexivity|].
  cbn [free_of mem_char]. intros H. apply andb_true_iff in H as [Hc Hs].
  rewrite (IH Hs), andb_true_r, orb_false_r.
  destruct (Ascii.eqb a c) eqn:E; [|reflexivity].
  apply Ascii.eqb_eq in E; subst c. now rewrite Ha in Hc.
Qed.

Lemma free_of_head (a c : ascii) (s : string) :
  free_of (String a "") (String c s) = true ->
  Ascii.eqb a c = false /\ free_of (String a "") s = true.
Proof.
  cbn [free_of mem_char]. rewrite orb_false_r. intros H.
  apply andb_true_iff in H as [Hc Hs]. apply negb_true_iff in Hc. now split.
Qed.

(** A literal one of whose characters is missing from [s] occurs nowhere. *)
Lemma startswith_absent (a : ascii) (p : string) :
  mem_char p a = true ->
  forall s, free_of (String a "") s = true -> startswith s p = false.
Proof.
  induction p as [|x p IH]; [discriminate|].
  intros Hm [|b s] Hs; [reflexivity|].
  apply free_of_head in Hs as [Hb Hs]. cbn [startswith].
  cbn [mem_char] in Hm. apply orb_true_iff in Hm as [Hx|Hp].
  - apply Ascii.eqb_eq in Hx; subst x. now rewrite Hb.
  - rewrite (IH Hp s Hs). apply andb_false_r.
Qed.

Lemma scan_absent (a : ascii) (p : string) (pat : list atom) (s : string) :
  mem_char p a = true -> free_of (String a "") s = true ->
  scan (Lit p :: pat) s = unmatched s.
Proof.
  intros Hm. unfold scan. induction s as [|c s IH]; intros Hs; [reflexivity|].
  cbn [scan_from match_atoms unmatched].
  rewrite (startswith_absent a p Hm _ Hs).
  apply free_of_head in Hs as [_ Hs]. now rewrite IH.
Qed.

Lemma render_unmatched (f : nat -> string -> string) (k : nat) (s : string) :
  render_idx f k (unmatched s) = s.
Proof. induction s as [|c s IH]; cbn; congruence. Qed.

Lemma groups_unmatched (s : string) : groups (unmatched s) = [].
Proof. induction s as [|c s IH]; cbn; congruence. Qed.

Lemma sub_absent (a : ascii) (p : string) (pat : list atom) (f : string -> string) (s : string) :
  mem_char p a = true -> free_of (String a "") s = true ->
  sub (Lit p :: pat) f s = s.
Proof.
  intros Hm Hs. unfold sub. rewrite (scan_absent a) by assumption.
  apply render_unmatched.
Qed.

Lemma span_free (a : ascii) (m rest : string) :
  free_of (String a "") m = true ->
  span (not_char a) (m ++ String a rest) = (m, String a rest).
Proof.
  induction m as [|c m IH]; intros H.
  - cbn. unfold not_char. now rewrite Ascii.eqb_refl.
  - apply free_of_head in H as [Hc Hm].
    cbn [append span]. unfold not_char at 1. rewrite Hc. cbn [negb].
    now rewrite (IH Hm).
Qed.

Lemma scan_from_skip (pat : list atom) (x y : string) :
  scan_from pat (String.length x) (x ++ y) = scan_from pat 0 y.
Proof. induction x as [|c x IH]; [reflexivity|exact IH]. Qed.

Lemma drop_app (x y : string) : drop (String.length x) (x ++ y) = y.
Proof. induction x as [|c x IH]; [now destruct y|exact IH]. Qed.

Lemma scan_unmatched_app (pat : list atom) (a : ascii) (op : string) (pre s : string) :
  free_of (String a "") pre = true ->
  scan_from (Lit (String a op) :: pat) 0 (pre ++ s)
  = List.app (unmatched pre) (scan_from (Lit (String a op) :: pat) 0 s).
Proof.
  induction pre as [|c pre IH]; intros H; [reflexivity|].
  apply free_of_head in H as [Hc Hp].
  cbn [append scan_from match_atoms startswith unmatched List.app].
  rewrite Hc. cbn [andb]. now rewrite (IH Hp).
Qed.

(** One delimited span between texts that hold no delimiter. *)
Lemma scan_span (a : ascii) (op pre m post : string) :
  free_of (String a "") pre = true -> free_of (String a "") post = true ->
  truthy m = true -> free_of (String a "") m = true ->
  scan [Lit (String a op); Run (not_char a); Lit (String a op)]
       (pre ++ String a op ++ m ++ String a op ++ post)
  = List.app (unmatched pre) (Hit m :: unmatched post).
Proof.
  intros Hpre Hpost Ht Hm. unfold scan.
  rewrite scan_unmatched_app by exact Hpre. f_equal.
  assert (E : match_atoms [Lit (String a op); Run (not_char a); Lit (String a op)]
                (String a op ++ m ++ String a op ++ post)
              = Some (m, S (String.length (op ++ m ++ String a op)))).
  { cbn [match_atoms]. rewrite startswith_app, (drop_app (String a op)).
    cbn [append]. rewrite span_free by exact Hm.
    destruct m as [|c m]; [discriminate|].
    change (String a (op ++ post)) with (String a op ++ post).
    rewrite startswith_app.
    f_equal. f_equal. rewrite !length_app. cbn [String.length]. lia. }
  change (String a op ++ m ++ String a op ++ post)
    with (String a (op ++ m ++ String a op ++ post)) in *.
  cbn [scan_from]. rewrite E. f_equal.
  replace (op ++ m ++ String a op ++ post) with ((op ++ m ++ String a op) ++ post)
    by now rewrite !sapp_assoc.
  rewrite scan_from_skip.
  change (scan_from ?p 0 post) with (scan p post).
  now apply (scan_absent a); [cbn; rewrite Ascii.eqb_refl|].
Qed.

Lemma render_span (f : nat -> string -> string) (k : nat) (pre m post : string) :
  render_idx f k (List.app (unmatched pre) (Hit m :: unmatched post))
  = pre ++ f k m ++ post.
Proof.
  induction pre as [|c pre IH]; cbn [unmatched List.app render_idx append].
  - now rewrite render_unmatched.
  - now rewrite IH.
Qed.

Lemma groups_span (pre m post : string) :
  groups (List.app (unmatched pre) (Hit m :: unmatched post)) = [m].
Proof.
  induction pre as [|c pre IH]; cbn [unmatched List.app groups].
  - now rewrite groups_unmatched.
  - exact IH.
Qed.

Lemma replace_from_absent (a : ascii) (old new s : string) :
  free_of (String a "") s = true -> replace_from (String a old) new 0 s = s.
Proof.
  induction s as [|c s IH]; intros H; [reflexivity|].
  apply free_of_head in H as [Hc Hs].
  cbn [replace_from startswith]. rewrite Hc. cbn [andb]. now rewrite IH.
Qed.

Lemma replace_from_skip (old new x y : string) :
  replace_from old new (String.length x) (x ++ y) = replace_from old new 0 y.
Proof. induction x as [|c x IH]; [now destruct y|exact IH]. Qed.

(** The only occurrence of a text whose first character is found nowhere
    else. *)
Lemma replace_once (a : ascii) (old new pre post : string) :
  free_of (String a "") pre = true -> free_of (String a "") post = true ->
  replace (pre ++ String a old ++ post) (String a old) new = pre ++ new ++ post.
Proof.
  intros Hpre Hpost. unfold replace.
  change (String a old ++ post) with (String a (old ++ post)).
  induction pre as [|c pre IH].
  - cbn [append replace_from].
    change (String a (old ++ post)) with (String a old ++ post).
    rewrite startswith_app.
    replace (String.length (String a old) - 1) with (String.length old)
      by (cbn [String.length]; lia).
    now rewrite replace_from_skip, replace_from_absent.
  - apply free_of_head in Hpre as [Hc Hp].
    cbn [append replace_from startswith]. rewrite Hc. cbn [andb].
    now rewrite (IH Hp).
Qed.

Lemma truthy_app_r (x y : string) : truthy y = true -> truthy (x ++ y) = true.
Proof. destruct x; [trivial|reflexivity]. Qed.

End ScanFacts.

Section TwoPropsSpans.
Import PyRe Ch17TwoProps.

Lemma save_span (a : ascii) (tag pre m post : string) :
  free_of (String a "") pre = true -> free_of (String a "") post = true ->
  truthy m = true -> free_of (String a "") m = true ->
  save [Lit (String a ""); Run (not_char a); Lit (String a "")] tag
       (pre ++ String a "" ++ m ++ String a "" ++ post)
  = (pre ++ placeholder tag 0 ++ post, [m]).
Proof.
  intros. unfold save. rewrite scan_span by assumption.
  now rewrite render_span, groups_span.
Qed.

Lemma save_absent (a : ascii) (p : string) (pat : list atom) (tag s : string) :
  mem_char p a = true -> free_of (String a "") s = true ->
  save (Lit p :: pat) tag s = (s, []).
Proof.
  intros. unfold save. rewrite (scan_absent a) by assumption.
  now rewrite render_unmatched, groups_unmatched.
Qed.

End TwoPropsSpans.

(** X10.  In [convert_inline_formatting] of convert_ch17_two_props.py a math
    span and a code span come out verbatim inside their element, whatever
    markup characters they hold: between texts without dollar, backquote,
    star or angle bracket, [$m$] becomes [<m>m</m>] for every non-empty [m]
    without dollar, and a code span without dollar and backquote becomes
    [<c>m</c>]. *)
Theorem two_props_spans_are_kept_verbatim (pre m post : string) :
  free_of "$`*<" pre = true -> free_of "$`*<" post = true ->
  truthy m = true ->
  (free_of "$" m = true ->
   Ch17TwoProps.convert_inline_formatting (pre ++ "$" ++ m ++ "$" ++ post)
   = pre ++ "<m>" ++ m ++ "</m>" ++ post)
  /\ (free_of "$`" m = true ->
      Ch17TwoProps.convert_inline_formatting (pre ++ "`" ++ m ++ "`" ++ post)
      = pre ++ "<c>" ++ m ++ "</c>" ++ post).
Proof.
  intros Hpre Hpost Ht.
  assert (F : forall a, mem_char "$`*<" a = true ->
                free_of (String a "") pre = true /\ free_of (String a "") post = true).
  { intros a Ha. split; now apply (free_of_one "$`*<"). }
  destruct (F "$"%char eq_refl) as [P1 Q1].
  destruct (F "`"%char eq_refl) as [P2 Q2].
  destruct (F "*"%char eq_refl) as [P3 Q3].
  destruct (F "<"%char eq_refl) as [P4 Q4].
  split; intros Hm; unfold Ch17TwoProps.convert_inline_formatting.
  - rewrite truthy_app_r by reflexivity. cbn [negb].
    rewrite (save_span "$"%char) by assumption.
    rewrite (save_absent "`"%char)
      by (try reflexivity; rewrite !free_of_app, P2, Q2; reflexivity).
    rewrite (sub_absent "*"%char "**")
      by (try reflexivity; rewrite !free_of_app, P3, Q3; reflexivity).
    rewrite (sub_absent "*"%char "*")
      by (try reflexivity; rewrite !free_of_app, P3, Q3; reflexivity).
    cbn [Ch17TwoProps.restore].
    change (Ch17TwoProps.placeholder "MATH_INLINE" 0)
      with (String "<" "<<MATH_INLINE_0>>>").
    rewrite replace_once by assumption.
    now rewrite !sapp_assoc.
  - rewrite truthy_app_r by reflexivity. cbn [negb].
    assert (Hm1 : free_of "$" m = true) by now apply (free_of_one "$`").
    assert (Hm2 : free_of "`" m = true) by now apply (free_of_one "$`").
    rewrite (save_absent "$"%char)
      by (try reflexivity; rewrite !free_of_app, P1, Q1, Hm1; reflexivity).
    rewrite (save_span "`"%char) by assumption.
    rewrite (sub_absent "*"%char "**")
      by (try reflexivity; rewrite !free_of_app, P3, Q3; reflexivity).
    rewrite (sub_absent "*"%char "*")
      by (try reflexivity; rewrite !free_of_app, P3, Q3; reflexivity).
    cbn [Ch17TwoProps.restore].
    change (Ch17TwoProps.placeholder "CODE" 0) with (String "<" "<<CODE_0>>>").
    rewrite replace_once by assumption.
    now rewrite !sapp_assoc.
Qed.

Lemma two_props_spans_are_kept_verbatim_witness :
  Ch17TwoProps.convert_inline_formatting "Let $a*b*c$ be." = "Let <m>a*b*c</m> be."
  /\ Ch17TwoProps.convert_inline_formatting "Let `a*b*c` be." = "Let <c>a*b*c</c> be.".
Proof.
  destruct (two_props_spans_are_kept_verbatim "Let " "a*b*c" " be." eq_refl eq_refl eq_refl)
    as [H1 H2].
  split; [exact (H1 eq_refl)|exact (H2 eq_refl)].
Defined.

Section ComprehensiveSpans.
Import PyRe Ch17Comprehensive.

Lemma contains_absent (a : ascii) (p s : string) :
  mem_char p a = true -> free_of (String a "") s = true -> contains s p = false.
Proof.
  intros Hm. induction s as [|c s IH]; intros Hs.
  - cbn [contains]. now rewrite (startswith_absent a p Hm "" eq_refl).
  - cbn [contains]. rewrite (startswith_absent a p Hm _ Hs).
    apply free_of_head in Hs as [_ Hs]. now rewrite IH.
Qed.

Lemma contains_after_free (a : ascii) (q pre s : string) :
  free_of (String a "") pre = true ->
  contains (pre ++ String a s) (String a q) = contains (String a s) (String a q).
Proof.
  induction pre as [|c pre IH]; intros H; [reflexivity|].
  apply free_of_head in H as [Hc Hp].
  cbn [append]. cbn [contains]. cbn [startswith]. rewrite Hc. cbn [andb orb].
  rewrite (IH Hp). reflexivity.
Qed.

(** A single delimiter on each side of a text without delimiters never makes
    a doubled one. *)
Lemma no_doubled_delimiter (a : ascii) (pre m post : string) :
  free_of (String a "") pre = true -> free_of (String a "") post = true ->
  truthy m = true -> free_of (String a "") m = true ->
  contains (pre ++ String a "" ++ m ++ String a "" ++ post) (String a (String a "")) = false.
Proof.
  intros Hpre Hpost Ht Hm.
  cbn [append]. rewrite contains_after_free by exact Hpre.
  destruct m as [|c m]; [discriminate|].
  pose proof Hm as Hm'. apply free_of_head in Hm' as [Hc _].
  cbn [contains]. cbn [startswith append]. rewrite Ascii.eqb_refl, Hc. cbn [andb orb].
  change (String c (m ++ String a post)) with (String c m ++ String a post).
  rewrite contains_after_free by exact Hm.
  cbn [contains]. cbn [startswith]. rewrite Ascii.eqb_refl. cbn [andb].
  rewrite (contains_absent a) by (try exact Hpost; cbn; now rewrite Ascii.eqb_refl).
  destruct post as [|d post]; [reflexivity|].
  apply free_of_head in Hpost as [Hd _]. now rewrite Hd.
Qed.

Lemma scan_no_occurrence (p : string) (pat : list atom) (s : string) :
  contains s p = false -> scan (Lit p :: pat) s = unmatched s.
Proof.
  unfold scan. induction s as [|c s IH]; intros H; [reflexivity|].
  cbn [contains] in H. apply orb_false_iff in H as [H1 H2].
  cbn [scan_from match_atoms unmatched]. rewrite H1. now rewrite IH.
Qed.

Lemma rstrip_by_free (a : ascii) (m : string) :
  free_of (String a "") m = true -> rstrip_by (Ascii.eqb a) m = m.
Proof.
  induction m as [|c m IH]; intros H; [reflexivity|].
  apply free_of_head in H as [Hc Hm].
  cbn [rstrip_by]. rewrite (IH Hm), Hc. now destruct m.
Qed.

Lemma rstrip_by_delim (a : ascii) (s : string) :
  rstrip_by (Ascii.eqb a) (s ++ String a "") = rstrip_by (Ascii.eqb a) s.
Proof.
  induction s as [|c s IH].
  - cbn. now rewrite Ascii.eqb_refl.
  - cbn [append rstrip_by]. now rewrite IH.
Qed.

Lemma strip_delimiters (a : ascii) (m : string) :
  truthy m = true -> free_of (String a "") m = true ->
  strip_by (Ascii.eqb a) (String a "" ++ m ++ String a "") = m
  /\ strip_by (Ascii.eqb a) (String a (String a "") ++ m ++ String a (String a "")) = m.
Proof.
  intros Ht Hm. unfold strip_by.
  destruct m as [|c m]; [discriminate|].
  pose proof Hm as Hm'. apply free_of_head in Hm' as [Hc _].
  split.
  - cbn [append lstrip_by]. rewrite Ascii.eqb_refl, Hc.
    change (String c (m ++ String a "")) with (String c m ++ String a "").
    now rewrite rstrip_by_delim, rstrip_by_free.
  - cbn [append lstrip_by]. rewrite Ascii.eqb_refl, Hc.
    change (String c (m ++ String a (String a "")))
      with (String c m ++ String a (String a "")).
    replace (String c m ++ String a (String a ""))
      with ((String c m ++ String a "") ++ String a "")
      by now rewrite sapp_assoc.
    now rewrite !rstrip_by_delim, rstrip_by_free.
Qed.

Lemma save_math_span (op pre m post : string) (k : nat) :
  free_of "$" pre = true -> free_of "$" post = true ->
  truthy m = true -> free_of "$" m = true ->
  save_math (String "$" op) k (pre ++ String "$" op ++ m ++ String "$" op ++ post)
  = (pre ++ math_placeholder k ++ post, [String "$" op ++ m ++ String "$" op]).
Proof.
  intros. unfold save_math. rewrite scan_span by assumption.
  now rewrite render_span, groups_span.
Qed.

Lemma save_math_none (delim : string) (k : nat) (s : string) :
  contains s delim = false -> save_math delim k s = (s, []).
Proof.
  intros H. unfold save_math. rewrite scan_no_occurrence by exact H.
  now rewrite render_unmatched, groups_unmatched.
Qed.

Lemma contains_prefix_here (p r : string) : contains (p ++ r) p = true.
Proof.
  destruct p as [|c p]; [now destruct r|].
  cbn [append contains].
  change (String c (p ++ r)) with (String c p ++ r). now rewrite startswith_app.
Qed.

End ComprehensiveSpans.

Ltac plain_pass a lit :=
  rewrite (sub_absent a lit)
    by (try reflexivity;
        rewrite ?free_of_app;
        repeat match goal with H : free_of _ _ = true |- _ => rewrite H end;
        reflexivity).

(** X11.  In [process_inline_formatting] of convert_ch17_comprehensive.py math
    is restored verbatim after every other rewriting: between texts without
    markup characters and underscores, [$m$] becomes [<m>m</m>] and [$$m$$]
    becomes [<me>] around the stripped [m] when [m] is ASCII, for every
    non-empty [m] without dollar, cross references and stars inside [m]
    included. *)
Theorem comprehensive_math_is_kept_verbatim (pre m post : string) :
  free_of "$@[*`_" pre = true -> free_of "$@[*`_" post = true ->
  truthy m = true -> free_of "$" m = true ->
  Ch17Comprehensive.process_inline_formatting (pre ++ "$" ++ m ++ "$" ++ post)
  = pre ++ "<m>" ++ m ++ "</m>" ++ post
  /\ (is_ascii m = true ->
      Ch17Comprehensive.process_inline_formatting (pre ++ "$$" ++ m ++ "$$" ++ post)
      = pre ++ "<me>" ++ strip m ++ "</me>" ++ post).
Proof.
  intros Hpre Hpost Ht Hm.
  assert (F : forall a, mem_char "$@[*`_" a = true ->
                free_of (String a "") pre = true /\ free_of (String a "") post = true).
  { intros a Ha. split; now apply (free_of_one "$@[*`_"). }
  destruct (F "$"%char eq_refl) as [P1 Q1].
  destruct (F "@"%char eq_refl) as [P2 Q2].
  destruct (F "["%char eq_refl) as [P3 Q3].
  destruct (F "*"%char eq_refl) as [P4 Q4].
  destruct (F "`"%char eq_refl) as [P5 Q5].
  destruct (F "_"%char eq_refl) as [P6 Q6].
  clear F Hpre Hpost.
  destruct (strip_delimiters "$" m Ht Hm) as [S1 S2].
  split; unfold Ch17Comprehensive.process_inline_formatting.
  - rewrite truthy_app_r by reflexivity. cbn [negb].
    rewrite save_math_none
      by now apply (no_doubled_delimiter "$").
    cbn [List.length].
    rewrite (save_math_span "") by assumption.
    cbn [List.app].
    change (Ch17Comprehensive.math_placeholder 0) with (String "_" "_MATH_0__").
    plain_pass "@"%char "@sec-". plain_pass "@"%char "@fig-".
    plain_pass "@"%char "@tbl-". plain_pass "@"%char "@eq-".
    plain_pass "@"%char "@exm-". plain_pass "@"%char "@exr-".
    plain_pass "["%char "[Chapter -@sec-". plain_pass "["%char "[@".
    plain_pass "*"%char "**". plain_pass "*"%char "*". plain_pass "`"%char "`".
    cbn [Ch17Comprehensive.restore_math].
    change (contains ("$" ++ m ++ "$") "$$")
      with (contains ("" ++ "$" ++ m ++ "$" ++ "") "$$").
    rewrite (no_doubled_delimiter "$") by (assumption || reflexivity).
    change (Ch17Comprehensive.math_placeholder 0) with (String "_" "_MATH_0__").
    rewrite S1, replace_once by assumption.
    now rewrite !sapp_assoc.
  - intros _. rewrite truthy_app_r by reflexivity. cbn [negb].
    rewrite (save_math_span "$") by assumption.
    cbn [List.length].
    change (Ch17Comprehensive.math_placeholder 0) with (String "_" "_MATH_0__").
    rewrite save_math_none
      by (apply (contains_absent "$"); [reflexivity|];
          rewrite !free_of_app, P1, Q1; reflexivity).
    cbn [List.app].
    plain_pass "@"%char "@sec-". plain_pass "@"%char "@fig-".
    plain_pass "@"%char "@tbl-". plain_pass "@"%char "@eq-".
    plain_pass "@"%char "@exm-". plain_pass "@"%char "@exr-".
    plain_pass "["%char "[Chapter -@sec-". plain_pass "["%char "[@".
    plain_pass "*"%char "**". plain_pass "*"%char "*". plain_pass "`"%char "`".
    cbn [Ch17Comprehensive.restore_math].
    rewrite contains_prefix_here.
    change (Ch17Comprehensive.math_placeholder 0) with (String "_" "_MATH_0__").
    rewrite S2, replace_once by assumption.
    now rewrite !sapp_assoc.
Qed.

Lemma comprehensive_math_is_kept_verbatim_witness :
  Ch17Comprehensive.process_inline_formatting "see $x_1 @fig-a *b*$ now"
  = "see <m>x_1 @fig-a *b*</m> now"
  /\ Ch17Comprehensive.process_inline_formatting "see $$x_1 @fig-a *b*$$ now"
     = "see <me>x_1 @fig-a *b*</me> now".
Proof.
  exact (let H := comprehensive_math_is_kept_verbatim "see " "x_1 @fig-a *b*" " now"
                     eq_refl eq_refl eq_refl eq_refl in
         conj (proj1 H) (proj2 H eq_refl)).
Defined.

Ltac absent_char H a :=
  match type of H with
  | free_of ?cs ?s = true => exact (free_of_one cs s a eq_refl H)
  end.

Ltac free_chars H :=
  repeat match goal with
         | |- context [PyRe.sub (PyRe.Lit ?p :: _) _ _] =>
             first
               [ rewrite (sub_absent "@"%char p) by (first [reflexivity | absent_char H "@"%char])
               | rewrite (sub_absent "["%char p) by (first [reflexivity | absent_char H "["%char])
               | rewrite (sub_absent "\"%char p) by (first [reflexivity | absent_char H "\"%char])
               | rewrite (sub_absent "$"%char p) by (first [reflexivity | absent_char H "$"%char])
               | rewrite (sub_absent "*"%char p) by (first [reflexivity | absent_char H "*"%char])
               | rewrite (sub_absent "`"%char p) by (first [reflexivity | absent_char H "`"%char]) ]
         end.

Lemma store_absent (a : ascii) (p : string) (pat : list PyRe.atom) (tag s : string) :
  mem_char p a = true -> free_of (String a "") s = true ->
  Ch17Complete.store (PyRe.Lit p :: pat) tag s = (s, []).
Proof.
  intros. unfold Ch17Complete.store. rewrite (scan_absent a) by assumption.
  now rewrite render_unmatched, groups_unmatched.
Qed.

(** X12.  A text without dollar, backquote, star, at sign, opening bracket and
    backslash passes unchanged through the inline converters of
    convert_ch19.py, convert_ch17_two_props.py, convert_ch17_complete.py and
    convert_ch17_comprehensive.py. *)
Theorem plain_text_passes_through (t : string) :
  free_of "$`*@[\" t = true ->
  Ch19.process_line t = t
  /\ Ch17TwoProps.convert_inline_formatting (Ch17TwoProps.convert_cross_refs t) = t
  /\ Ch17Complete.convert_inline t = t
  /\ Ch17Comprehensive.process_inline_formatting t = t.
Proof.
  intros H.
  assert (H1 : free_of "$" t = true) by absent_char H "$"%char.
  assert (H2 : free_of "`" t = true) by absent_char H "`"%char.
  repeat split.
  - unfold Ch19.process_line, Ch19.convert_cross_refs, Ch19.convert_index,
      Ch19.convert_display_math, Ch19.convert_inline_math, Ch19.convert_bold_italic.
    free_chars H. reflexivity.
  - unfold Ch17TwoProps.convert_cross_refs.
    destruct (negb (truthy t)) eqn:E; [now destruct t|].
    free_chars H. unfold Ch17TwoProps.convert_inline_formatting. rewrite E.
    rewrite (save_absent "$"%char), (save_absent "`"%char) by (reflexivity || assumption).
    free_chars H. reflexivity.
  - unfold Ch17Complete.convert_inline.
    destruct (negb (truthy t)) eqn:E; [reflexivity|].
    rewrite (store_absent "$"%char), (store_absent "`"%char) by (reflexivity || assumption).
    cbn [Ch17Complete.restore].
    free_chars H. reflexivity.
  - unfold Ch17Comprehensive.process_inline_formatting.
    destruct (negb (truthy t)) eqn:E; [reflexivity|].
    rewrite save_math_none by (apply (contains_absent "$"); [reflexivity|assumption]).
    rewrite save_math_none by (apply (contains_absent "$"); [reflexivity|assumption]).
    cbn [List.app Ch17Comprehensive.restore_math].
    free_chars H. reflexivity.
Qed.

Lemma plain_text_passes_through_witness :
  Ch19.process_line "Plain prose, 2 < 3." = "Plain prose, 2 < 3."
  /\ Ch17TwoProps.convert_inline_formatting
       (Ch17TwoProps.convert_cross_refs "Plain prose, 2 < 3.") = "Plain prose, 2 < 3."
  /\ Ch17Complete.convert_inline "Plain prose, 2 < 3." = "Plain prose, 2 < 3."
  /\ Ch17Comprehensive.process_inline_formatting "Plain prose, 2 < 3."
     = "Plain prose, 2 < 3.".
Proof. exact (plain_text_passes_through "Plain prose, 2 < 3." eq_refl). Defined.

(** ** The class of convert_ch17_complete.py *)

Section CompleteClassFacts.
Import QmdToPreTeXtConverter.

Lemma skipn_line_at (lines : list string) (i : nat) :
  in_range lines i = true ->
  skipn i lines = line_at lines i :: skipn (S i) lines.
Proof.
  unfold in_range, line_at. revert i.
  induction lines as [|l lines IH]; intros i H.
  - apply Nat.ltb_lt in H. cbn in H. lia.
  - destruct i as [|i]; [reflexivity|].
    cbn [skipn nth]. apply IH. apply Nat.ltb_lt in H. apply Nat.ltb_lt. cbn in H. lia.
Qed.

Lemma lines_while_here (p : string -> bool) (lines : list string) (i : nat) :
  in_range lines i = true ->
  lines_while p lines i
  = if p (line_at lines i) then line_at lines i :: lines_while p lines (S i) else [].
Proof.
  intros H. unfold lines_while. now rewrite (skipn_line_at lines i H).
Qed.

(** A text that starts with a character that is not a blank keeps it when
    stripped. *)
Lemma strip_keeps_head (c : ascii) (s : string) :
  is_space c = false -> exists r, strip (String c s) = String c r.
Proof.
  intros H. unfold strip, strip_by. cbn [lstrip_by]. rewrite H.
  cbn [rstrip_by]. destruct (rstrip_by is_space s); rewrite ?H; eauto.
Qed.

Lemma fence_line (l : string) :
  is_fence l = true ->
  startswith l "### " = false /\ startswith l "## Exercises" = false
  /\ startswith l "#" = false /\ truthy (strip l) = true /\ para_line l = false.
Proof.
  unfold is_fence, para_line. intros H.
  apply orb_true_iff in H as [H|H]; apply startswith_split in H as [r ->].
  - destruct (strip_keeps_head "`" ("``" ++ r) eq_refl) as [x Hx].
    cbn [append] in *. rewrite Hx. cbn. rewrite ?andb_false_r. auto.
  - destruct (strip_keeps_head ":" ("::" ++ r) eq_refl) as [x Hx].
    cbn [append] in *. rewrite Hx. cbn. rewrite ?andb_false_r. auto.
Qed.

Lemma review_step_fence (lines : list string) (i : nat) (c : converter) :
  in_range lines i = true -> is_fence (line_at lines i) = true ->
  review_step lines i c = Returns i c.
Proof.
  intros Hr Hf. destruct (fence_line _ Hf) as (H1 & _ & H3 & H4 & H5).
  unfold review_step. rewrite H1, H4, H3. cbn [negb andb].
  unfold handle_paragraph. rewrite (lines_while_here _ _ _ Hr), H5.
  cbn. now rewrite Nat.add_0_r.
Qed.

Lemma review_loop_fence (turns : nat) (lines : list string) (i : nat) (c : converter) :
  in_range lines i = true -> is_fence (line_at lines i) = true ->
  review_loop turns lines i c = OutOfTurns.
Proof.
  intros Hr Hf. destruct (fence_line _ Hf) as (_ & H2 & _).
  induction turns as [|turns IH]; cbn [review_loop]; rewrite Hr, H2; cbn [negb andb].
  - reflexivity.
  - unfold bind. now rewrite review_step_fence.
Qed.

End CompleteClassFacts.

(** X13.  The loop of [handle_chapter_review] in convert_ch17_complete.py does
    not get past a line that starts with a code fence or a block marker:
    [handle_paragraph] is called, reads nothing and returns the same index
    with the converter unchanged, so the turn repeats; whatever number of
    turns is allowed, the loop has not returned. *)
Theorem complete_review_never_passes_a_fence
    (turns : nat) (lines : list string) (i : nat) (c : QmdToPreTeXtConverter.converter) :
  QmdToPreTeXtConverter.in_range lines i = true ->
  is_fence (line_at lines i) = true ->
  QmdToPreTeXtConverter.review_step lines i c = QmdToPreTeXtConverter.Returns i c
  /\ QmdToPreTeXtConverter.review_loop turns lines i c = QmdToPreTeXtConverter.OutOfTurns.
Proof.
  intros Hr Hf. split.
  - now apply review_step_fence.
  - now apply review_loop_fence.
Qed.

Lemma complete_review_never_passes_a_fence_witness :
  QmdToPreTeXtConverter.review_step ["## Chapter review {#sec-r}"; "```{r}"; "```"] 1
    QmdToPreTeXtConverter.init
  = QmdToPreTeXtConverter.Returns 1 QmdToPreTeXtConverter.init
  /\ QmdToPreTeXtConverter.review_loop 1000 ["## Chapter review {#sec-r}"; "```{r}"; "```"] 1
       QmdToPreTeXtConverter.init
     = QmdToPreTeXtConverter.OutOfTurns.
Proof.
  exact (complete_review_never_passes_a_fence 1000
           ["## Chapter review {#sec-r}"; "```{r}"; "```"] 1
           QmdToPreTeXtConverter.init eq_refl eq_refl).
Defined.

Create HintDb total discriminated.

Section CompleteProgress.
Import QmdToPreTeXtConverter.

Lemma bind_returns {A B : Type} (m : M A) (f : A -> M B) (c c2 : converter) (y : B) :
  bind m f c = Returns y c2 ->
  exists x c1, m c = Returns x c1 /\ f x c1 = Returns y c2.
Proof.
  unfold bind. destruct (m c) as [x c1| |]; try discriminate. eauto.
Qed.

Lemma ret_returns {A : Type} (x y : A) (c c' : converter) :
  ret x c = Returns y c' -> y = x.
Proof. unfold ret. now intros [= -> _]. Qed.

Ltac returns H :=
  repeat match type of H with
         | bind _ _ _ = Returns _ _ =>
             let x := fresh "x" in
             let c1 := fresh "c" in
             let E := fresh "E" in
             apply bind_returns in H as (x & c1 & E & H)
         | (let (_, _) := ?p in _) _ = Returns _ _ => destruct p eqn:?
         end;
  try (apply ret_returns in H).

(** Computations that use up no turn. *)
Definition total {A : Type} (m : M A) : Prop := forall c, m c <> OutOfTurns.

Lemma total_ret {A : Type} (x : A) : total (ret x).
Proof. intros c. discriminate. Qed.

Lemma total_bind {A B : Type} (m : M A) (f : A -> M B) :
  total m -> (forall x, total (f x)) -> total (bind m f).
Proof.
  intros Hm Hf c. unfold bind. specialize (Hm c).
  destruct (m c) as [x c1| |]; [apply Hf|discriminate|congruence].
Qed.

Lemma total_output_append (l : string) : total (output_append l).
Proof. intros c. discriminate. Qed.

Lemma total_top : total top.
Proof. intros c. unfold top. destruct (indent_stack c); discriminate. Qed.

Lemma total_push (n : nat) : total (push n).
Proof. intros c. discriminate. Qed.

Lemma total_pop : total pop.
Proof. intros c. unfold pop. destruct (indent_stack c); discriminate. Qed.

Lemma total_get_in_section : total get_in_section.
Proof. intros c. discriminate. Qed.

Lemma total_get_in_subsection : total get_in_subsection.
Proof. intros c. discriminate. Qed.

Lemma total_set_in_section (b : bool) : total (set_in_section b).
Proof. intros c. discriminate. Qed.

Lemma total_set_in_subsection (b : bool) : total (set_in_subsection b).
Proof. intros c. discriminate. Qed.

Lemma total_when (b : bool) (m : M unit) : total m -> total (when b m).
Proof. intros H. destruct b; [exact H|apply total_ret]. Qed.

Lemma total_for_each {A : Type} (f : A -> M unit) (l : list A) :
  (forall x, total (f x)) -> total (for_each f l).
Proof.
  intros H. induction l as [|x l IH]; cbn [for_each].
  - apply total_ret.
  - apply total_bind; [apply H|intros _; exact IH].
Qed.

#[local] Hint Resolve total_ret total_output_append total_top total_push total_pop
  total_get_in_section total_get_in_subsection total_set_in_section
  total_set_in_subsection : total.

Ltac total_tac :=
  repeat first
    [ apply total_bind; [|intros ?]
    | apply total_when
    | apply total_for_each; intros ?
    | solve [auto with total]
    | match goal with
      | |- total (match ?x with _ => _ end) => destruct x
      | |- total (let (_, _) := ?p in _) => destruct p
      end ].

Lemma total_add_line (l : string) (n : nat) : total (add_line l n).
Proof. unfold add_line. total_tac. Qed.
#[local] Hint Resolve total_add_line : total.

Lemma total_add_paragraph (t x : string) : total (add_paragraph t x).
Proof. unfold add_paragraph. total_tac. Qed.
#[local] Hint Resolve total_add_paragraph : total.

Lemma total_close_open_sections : total close_open_sections.
Proof. unfold close_open_sections. total_tac. Qed.
#[local] Hint Resolve total_close_open_sections : total.

Lemma total_open_section (l : string) : total (open_section l).
Proof. unfold open_section. total_tac. Qed.
#[local] Hint Resolve total_open_section : total.

Lemma total_add_exercise (t s x : string) : total (add_exercise t s x).
Proof. unfold add_exercise. total_tac. Qed.
#[local] Hint Resolve total_add_exercise : total.

Lemma total_handle_chapter_intro lines i : total (handle_chapter_intro lines i).
Proof. unfold handle_chapter_intro. total_tac. Qed.

Lemma total_handle_section lines i : total (handle_section lines i).
Proof. unfold handle_section. total_tac. Qed.

Lemma total_handle_subsection lines i : total (handle_subsection lines i).
Proof. unfold handle_subsection. total_tac. Qed.

Lemma total_handle_code_block lines i : total (handle_code_block lines i).
Proof. unfold handle_code_block. total_tac. Qed.

Lemma total_handle_guided_practice lines i : total (handle_guided_practice lines i).
Proof. unfold handle_guided_practice. total_tac. Qed.

Lemma total_handle_worked_example lines i : total (handle_worked_example lines i).
Proof. unfold handle_worked_example. total_tac. Qed.

Lemma total_handle_data_box lines i : total (handle_data_box lines i).
Proof. unfold handle_data_box. total_tac. Qed.

Lemma total_handle_important_box lines i : total (handle_important_box lines i).
Proof. unfold handle_important_box. total_tac. Qed.

Lemma total_handle_paragraph lines i : total (handle_paragraph lines i).
Proof. unfold handle_paragraph. total_tac. Qed.

#[local] Hint Resolve total_handle_chapter_intro total_handle_section total_handle_subsection
  total_handle_code_block total_handle_guided_practice total_handle_worked_example
  total_handle_data_box total_handle_important_box total_handle_paragraph : total.

(** Outside the chapter review a turn of the main loop uses up no turn of
    its own. *)
Lemma total_main_step (turns : nat) (lines : list string) (i : nat) :
  is_review_heading (line_at lines i) = false ->
  total (main_step turns lines i).
Proof.
  unfold is_review_heading. intros H. unfold main_step. rewrite H.
  repeat match goal with
         | |- total (if ?b then _ else _) => destruct b
         end; total_tac.
Qed.

(** The index a handler returns. *)
Lemma review_step_index lines i c j c' :
  review_step lines i c = Returns j c' -> i <= j.
Proof.
  unfold review_step, handle_subsection, handle_paragraph. intros H.
  repeat match type of H with
         | (if ?b then _ else _) _ = _ => destruct b
         end; returns H; lia.
Qed.

Lemma review_loop_index turns lines : forall i c j c',
  review_loop turns lines i c = Returns j c' -> i <= j.
Proof.
  induction turns as [|turns IH]; intros i c j c' H; cbn [review_loop] in H;
    destruct (in_range lines i && negb (startswith (line_at lines i) "## Exercises")).
  - discriminate.
  - apply ret_returns in H. lia.
  - apply bind_returns in H as (k & c1 & E & H).
    apply review_step_index in E. apply IH in H. lia.
  - apply ret_returns in H. lia.
Qed.

Lemma handle_paragraph_index lines i c j c' :
  in_range lines i = true -> para_line (line_at lines i) = true ->
  handle_paragraph lines i c = Returns j c' -> i < j.
Proof.
  intros Hr Hp H. unfold handle_paragraph in H.
  rewrite (lines_while_here _ _ _ Hr), Hp in H. returns H.
  cbn [List.length] in H. lia.
Qed.

Lemma main_step_progress turns lines i c j c' :
  in_range lines i = true ->
  main_step turns lines i c = Returns (Some j) c' -> i < j.
Proof.
  intros Hr H. unfold main_step in H.
  repeat match type of H with
         | (if ?b then _ else _) _ = _ => destruct b eqn:?
         end;
    try (apply ret_returns in H; first [discriminate H | injection H as H; lia]).
  all: apply bind_returns in H as (k & c1 & E & H);
       apply ret_returns in H; injection H as ->.
  - unfold handle_chapter_intro in E. returns E. lia.
  - unfold handle_chapter_review in E. returns E.
    apply review_loop_index in E. lia.
  - unfold handle_section in E. returns E. lia.
  - unfold handle_subsection in E. returns E. lia.
  - unfold handle_code_block in E. returns E. lia.
  - unfold handle_guided_practice in E. returns E. lia.
  - unfold handle_worked_example in E. returns E. lia.
  - unfold handle_data_box, box_lines in E. returns E. lia.
  - unfold handle_important_box, box_lines in E. returns E. lia.
  - eapply handle_paragraph_index; eauto.
Qed.

Lemma main_loop_ends (lines : list string) :
  (forall l, In l lines -> is_review_heading l = false) ->
  forall turns i c,
    List.length lines - i <= turns -> main_loop turns lines i c <> OutOfTurns.
Proof.
  intros Hl. induction turns as [|turns IH]; intros i c Ht; cbn [main_loop];
    destruct (in_range lines i) eqn:Hr; try discriminate.
  - apply Nat.ltb_lt in Hr. lia.
  - assert (Hi : is_review_heading (line_at lines i) = false).
    { apply Hl. apply nth_In. now apply Nat.ltb_lt. }
    pose proof (total_main_step turns lines i Hi c) as Hs.
    unfold bind. destruct (main_step turns lines i c) as [[j|] c1| |] eqn:E;
      try discriminate; try congruence.
    apply IH. apply main_step_progress in E; [|exact Hr].
    apply Nat.ltb_lt in Hr. lia.
Qed.

End CompleteProgress.

(** X14.  [process_main_content] of convert_ch17_complete.py ends on every
    input without a chapter review heading: each turn of its loop that
    returns moves to a later line, so one turn per line is enough and the
    run returns or raises, it never goes on for ever. *)
Theorem complete_main_loop_ends_without_review
    (content : string) (c : QmdToPreTeXtConverter.converter) :
  forallb (fun l => negb (is_review_heading l)) (split content nl) = true ->
  QmdToPreTeXtConverter.process_main_content (List.length (split content nl)) content c
  <> QmdToPreTeXtConverter.OutOfTurns.
Proof.
  intros H. unfold QmdToPreTeXtConverter.process_main_content.
  apply main_loop_ends; [|lia].
  intros l Hl. rewrite forallb_forall in H. apply negb_true_iff. now apply H.
Qed.

Lemma complete_main_loop_ends_without_review_witness :
  QmdToPreTeXtConverter.process_main_content 3
    ("## A {#sec-a}" ++ nl ++ "Some text." ++ nl ++ "```{r}")
    QmdToPreTeXtConverter.init
  <> QmdToPreTeXtConverter.OutOfTurns.
Proof.
  exact (complete_main_loop_ends_without_review
           ("## A {#sec-a}" ++ nl ++ "Some text." ++ nl ++ "```{r}")
           QmdToPreTeXtConverter.init eq_refl).
Defined.

Section CompleteHeadings.
Import QmdToPreTeXtConverter.

Lemma bare_heading_step (turns : nat) (lines : list string) (i : nat) (c : converter) :
  bare_heading (line_at lines i) = true ->
  in_section c = true -> in_subsection c = false ->
  main_step turns lines i c
  = match indent_stack c with
    | _ :: m :: s =>
        Returns (Some (i + 1))
          (mkConverter (List.app (List.app (output c) [spaces (m + 0) ++ "</section>"]) [""])
                       (m :: s) true false)
    | _ => IndexError
    end.
Proof.
  unfold bare_heading. intros H Hs Hb.
  repeat (apply andb_true_iff in H as [H ?]).
  repeat match goal with
         | H : negb _ = true |- _ => apply negb_true_iff in H
         end.
  destruct (section_match (line_at lines i)) eqn:Hm; [discriminate|].
  pose proof H as H'. apply startswith_split in H' as [r Hr].
  unfold main_step.
  assert (E1 : startswith (line_at lines i) "```{r}" = false) by now rewrite Hr.
  assert (E2 : startswith (line_at lines i) "#|" = false) by now rewrite Hr.
  assert (E3 : startswith (strip (line_at lines i)) "\vspace" = false
               /\ startswith (strip (line_at lines i)) "\clearpage" = false).
  { rewrite Hr. destruct (strip_keeps_head "#" ("# " ++ r) eq_refl) as [x Hx].
    cbn [append] in *. now rewrite Hx. }
  destruct E3 as [E3 E4].
  repeat match goal with
         | E : _ = false |- _ => rewrite E
         | E : _ = true |- _ => rewrite E
         end.
  cbn [orb andb negb]. rewrite andb_false_r.
  unfold handle_section, close_open_sections, open_section.
  rewrite Hm.
  unfold bind, get_in_subsection, get_in_section, when, pop, add_line, top,
    output_append, ret, bind.
  rewrite Hb, Hs.
  destruct (indent_stack c) as [|x [|m s]]; cbn; try reflexivity.
  now rewrite Hs, Hb.
Qed.

Lemma bare_headings_loop (lines : list string) :
  Forall (fun l => bare_heading l = true) lines ->
  forall k turns i c,
    List.length lines - i = k -> k <= turns ->
    in_section c = true -> in_subsection c = false ->
    indent_stack c <> [] ->
    (List.length (indent_stack c) <= k -> main_loop turns lines i c = IndexError)
    /\ (k < List.length (indent_stack c) ->
        exists out,
          main_loop turns lines i c
          = Returns tt (mkConverter out (skipn k (indent_stack c)) true false)).
Proof.
  intros Hl. induction k as [|k IH]; intros turns i c Hk Ht Hs Hb Hne.
  - split; intros Hd.
    + destruct (indent_stack c); [congruence|cbn in Hd; lia].
    + exists (output c).
      assert (Hr : in_range lines i = false) by (apply Nat.ltb_ge; lia).
      destruct turns; cbn [main_loop]; rewrite Hr; unfold ret; cbn [skipn];
        destruct c; cbn in *; now subst.
  - destruct turns as [|turns]; [lia|].
    assert (Hr : in_range lines i = true) by (apply Nat.ltb_lt; lia).
    assert (Hi : bare_heading (line_at lines i) = true).
    { rewrite Forall_forall in Hl. apply Hl. apply nth_In.
      now apply Nat.ltb_lt. }
    cbn [main_loop]. rewrite Hr. unfold bind.
    rewrite (bare_heading_step turns lines i c Hi Hs Hb).
    destruct (indent_stack c) as [|x [|m s]] eqn:Hst; [congruence| |].
    + split; intros Hd; [reflexivity|cbn in Hd; lia].
    + specialize (IH turns (i + 1)
                    (mkConverter (List.app (List.app (output c) [spaces (m + 0) ++ "</section>"]) [""])
                                 (m :: s) true false)).
      destruct IH as [IH1 IH2]; try reflexivity; try lia; try discriminate.
      cbn [indent_stack List.length skipn] in *. cbv beta iota.
      split; intros Hd.
      * apply IH1. lia.
      * apply IH2. lia.
Qed.

End CompleteHeadings.

(** X15.  In convert_ch17_complete.py a section heading without [{#id}] opens
    no section, yet [handle_section] closes the open one, removes a level
    of [indent_stack] and leaves [in_section] set.  So a run of such
    headings met while a section is open removes one level each: with fewer
    headings than levels the loop returns with the stack that much shorter,
    and with as many headings as levels it raises IndexError. *)
Theorem complete_headings_without_id_use_up_the_stack
    (lines : list string) (c : QmdToPreTeXtConverter.converter) :
  Forall (fun l => bare_heading l = true) lines ->
  QmdToPreTeXtConverter.in_section c = true ->
  QmdToPreTeXtConverter.in_subsection c = false ->
  QmdToPreTeXtConverter.indent_stack c <> [] ->
  (List.length (QmdToPreTeXtConverter.indent_stack c) <= List.length lines ->
   QmdToPreTeXtConverter.main_loop (List.length lines) lines 0 c
   = QmdToPreTeXtConverter.IndexError)
  /\ (List.length lines < List.length (QmdToPreTeXtConverter.indent_stack c) ->
      exists out,
        QmdToPreTeXtConverter.main_loop (List.length lines) lines 0 c
        = QmdToPreTeXtConverter.Returns tt
            (QmdToPreTeXtConverter.mkConverter out
               (skipn (List.length lines) (QmdToPreTeXtConverter.indent_stack c)) true false)).
Proof.
  intros Hl Hs Hb Hne.
  apply (bare_headings_loop lines Hl (List.length lines)); auto; lia.
Qed.

Lemma complete_headings_without_id_use_up_the_stack_witness :
  QmdToPreTeXtConverter.main_loop 3 ["## A"; "## B"; "## C"] 0
    (QmdToPreTeXtConverter.mkConverter [] [2; 1; 0] true false)
  = QmdToPreTeXtConverter.IndexError.
Proof.
  refine (proj1 (complete_headings_without_id_use_up_the_stack
                   ["## A"; "## B"; "## C"]
                   (QmdToPreTeXtConverter.mkConverter [] [2; 1; 0] true false)
                   _ eq_refl eq_refl _) _).
  - repeat constructor.
  - discriminate.
  - cbn. lia.
Defined.

Section CompleteListing.
Import QmdToPreTeXtConverter.

Lemma skipn_past (A : Type) (pre : list A) (x : A) (rest : list A) :
  skipn (S (List.length pre)) (List.app pre (x :: rest)) = rest.
Proof. induction pre as [|a pre IH]; [reflexivity|exact IH]. Qed.

Lemma skipn_exact (A : Type) (pre rest : list A) :
  skipn (List.length pre) (List.app pre rest) = rest.
Proof. induction pre as [|a pre IH]; [reflexivity|exact IH]. Qed.

Lemma take_while_stop (A : Type) (p : A -> bool) (xs : list A) (y : A) (rest : list A) :
  forallb p xs = true -> p y = false ->
  take_while p (List.app xs (y :: rest)) = xs.
Proof.
  intros Hx Hy. induction xs as [|x xs IH]; cbn [List.app take_while].
  - now rewrite Hy.
  - cbn [forallb] in Hx. apply andb_true_iff in Hx as [-> Hx]. now rewrite IH.
Qed.

Lemma add_line_at (l : string) (c : converter) (n : nat) (s : list nat) :
  indent_stack c = n :: s ->
  add_line l 0 c
  = Returns tt (mkConverter (List.app (output c) [spaces n ++ l])
                  (indent_stack c) (in_section c) (in_subsection c)).
Proof.
  intros Hc. unfold add_line, bind, top, output_append. rewrite Hc.
  cbn [indent_stack]. now rewrite Hc, Nat.add_0_r.
Qed.

(** Lines added one after the other at the same level. *)
Lemma for_each_add_line (f : string -> string) (ls : list string) :
  forall (c : converter) (n : nat) (s : list nat),
    indent_stack c = n :: s ->
    for_each (fun l => add_line (f l) 0) ls c
    = Returns tt
        (mkConverter (List.app (output c) (map (fun l => spaces n ++ f l) ls))
                     (indent_stack c) (in_section c) (in_subsection c)).
Proof.
  induction ls as [|l ls IH]; intros c n s Hc; cbn [for_each map].
  - unfold ret. rewrite List.app_nil_r. now destruct c.
  - unfold bind. rewrite (add_line_at _ c n s Hc).
    rewrite (IH _ n s) by exact Hc.
    cbn [output indent_stack in_section in_subsection].
    now rewrite <- List.app_assoc.
Qed.

End CompleteListing.

(** X16.  [handle_code_block] of convert_ch17_complete.py: for a chunk made of
    option and blank lines, then code in ASCII that starts with a line that
    is neither, then the closing fence, the listing holds every line of the
    code, blank ones included, escaped and in order, each at the current
    level and six blanks in; the index returned is the one after the
    fence. *)
Theorem complete_listing_keeps_every_line
    (pre meta rest post : list string) (opening first fence : string)
    (c : QmdToPreTeXtConverter.converter) (n : nat) (s : list nat) :
  forallb is_chunk_option meta = true ->
  forallb is_ascii (first :: rest) = true ->
  is_chunk_option first = false ->
  forallb (fun l => negb (is_closing_fence l)) (first :: rest) = true ->
  is_closing_fence fence = true ->
  QmdToPreTeXtConverter.indent_stack c = n :: s ->
  QmdToPreTeXtConverter.handle_code_block
    (List.app pre (opening :: List.app meta (List.app (first :: rest) (fence :: post))))
    (List.length pre) c
  = QmdToPreTeXtConverter.Returns
      (List.length pre + 1 + List.length meta + List.length (first :: rest) + 1)
      (QmdToPreTeXtConverter.mkConverter
         (List.app (QmdToPreTeXtConverter.output c)
            (List.app
               [ QmdToPreTeXtConverter.spaces n ++ "<listing>";
                 QmdToPreTeXtConverter.spaces n ++ "  <program language=" ++ dq ++ "r" ++ dq ++ ">";
                 QmdToPreTeXtConverter.spaces n ++ "    <code>" ]
            (List.app
               (map (fun l => QmdToPreTeXtConverter.spaces n ++ "      "
                                ++ QmdToPreTeXtConverter.escape_xml l) (first :: rest))
               [ QmdToPreTeXtConverter.spaces n ++ "    </code>";
                 QmdToPreTeXtConverter.spaces n ++ "  </program>";
                 QmdToPreTeXtConverter.spaces n ++ "</listing>" ])))
         (QmdToPreTeXtConverter.indent_stack c)
         (QmdToPreTeXtConverter.in_section c) (QmdToPreTeXtConverter.in_subsection c)).
Proof.
  intros Hmeta _ Hfirst Hbody Hfence Hc.
  unfold QmdToPreTeXtConverter.handle_code_block, QmdToPreTeXtConverter.lines_while.
  rewrite skipn_past.
  change (List.app (first :: rest) (fence :: post))
    with (first :: List.app rest (fence :: post)).
  rewrite (take_while_stop _ (fun l => startswith l "#|" || negb (truthy (strip l)))
             meta first) by assumption.
  replace (S (List.length pre) + List.length meta)
    with (List.length (List.app pre (opening :: meta)))
    by (rewrite List.length_app; cbn [List.length]; lia).
  replace (List.app pre (opening :: List.app meta (first :: List.app rest (fence :: post))))
    with (List.app (List.app pre (opening :: meta)) (List.app (first :: rest) (fence :: post)))
    by (rewrite <- List.app_assoc; reflexivity).
  rewrite skipn_exact.
  rewrite (take_while_stop _ (fun l => negb (String.eqb (strip l) "```"))
             (first :: rest) fence)
    by (try exact Hbody; unfold is_closing_fence in Hfence; now rewrite Hfence).
  cbn [negb Nat.eqb List.length QmdToPreTeXtConverter.when].
  unfold QmdToPreTeXtConverter.bind.
  repeat (rewrite (add_line_at _ _ n s) by exact Hc;
          cbn [QmdToPreTeXtConverter.output QmdToPreTeXtConverter.indent_stack
               QmdToPreTeXtConverter.in_section QmdToPreTeXtConverter.in_subsection]).
  rewrite (for_each_add_line (fun l => "      " ++ QmdToPreTeXtConverter.escape_xml l) _ _ n s)
    by exact Hc.
  cbn [QmdToPreTeXtConverter.output QmdToPreTeXtConverter.indent_stack
       QmdToPreTeXtConverter.in_section QmdToPreTeXtConverter.in_subsection].
  repeat (rewrite (add_line_at _ _ n s) by exact Hc;
          cbn [QmdToPreTeXtConverter.output QmdToPreTeXtConverter.indent_stack
               QmdToPreTeXtConverter.in_section QmdToPreTeXtConverter.in_subsection]).
  unfold QmdToPreTeXtConverter.ret.
  f_equal.
  - rewrite List.length_app. cbn [List.length]. lia.
  - f_equal. rewrite <- !List.app_assoc. reflexivity.
Qed.

Lemma complete_listing_keeps_every_line_witness :
  QmdToPreTeXtConverter.handle_code_block
    ["text"; "```{r}"; "#| echo: true"; ""; "x <- 1"; ""; "  y <- x < 2  "; "```"; "more"] 1
    (QmdToPreTeXtConverter.mkConverter [] [1; 0] false false)
  = QmdToPreTeXtConverter.Returns 8
      (QmdToPreTeXtConverter.mkConverter
         [ "  <listing>";
           "    <program language=" ++ dq ++ "r" ++ dq ++ ">";
           "      <code>";
           "        x &lt;- 1";
           "        ";
           "          y &lt;- x &lt; 2  ";
           "      </code>";
           "    </program>";
           "  </listing>" ]
         [1; 0] false false).
Proof.
  exact (complete_listing_keeps_every_line
           ["text"] ["#| echo: true"; ""] [""; "  y <- x < 2  "] ["more"]
           "```{r}" "x <- 1" "```"
           (QmdToPreTeXtConverter.mkConverter [] [1; 0] false false) 1 [0]
           eq_refl eq_refl eq_refl eq_refl eq_refl eq_refl).
Defined.

(** ** Blocks with a nested solution in convert_ch17_complete.py *)

Section StripFacts.

Lemma join_cons (sep x : string) (xs : list string) :
  join sep (x :: xs) = x ++ match xs with [] => "" | _ :: _ => sep ++ join sep xs end.
Proof. destruct xs; cbn [join]; [now rewrite sapp_nil_r|reflexivity]. Qed.

Lemma join_around (xs : list string) (y : string) (ys : list string) :
  join nl (List.app xs (y :: ys)) = text_before xs ++ y ++ text_after ys.
Proof.
  induction xs as [|x xs IH].
  - cbn [List.app text_before append]. rewrite join_cons. now destruct ys.
  - cbn [List.app text_before]. rewrite join_cons.
    destruct (List.app xs (y :: ys)) eqn:E; [now destruct xs|].
    rewrite IH. now rewrite !sapp_assoc.
Qed.

Lemma text_before_join (ls : list string) :
  text_before ls = match ls with [] => "" | _ :: _ => join nl ls ++ nl end.
Proof.
  induction ls as [|l ls IH]; [reflexivity|].
  cbn [text_before]. rewrite IH, join_cons. destruct ls.
  - now rewrite !sapp_nil_r.
  - now rewrite !sapp_assoc.
Qed.

Lemma rstrip_by_more (p : ascii -> bool) (a : ascii) (s : string) :
  p a = true -> rstrip_by p (s ++ String a "") = rstrip_by p s.
Proof.
  intros Ha. induction s as [|c s IH].
  - cbn. now rewrite Ha.
  - cbn [append rstrip_by]. now rewrite IH.
Qed.

Lemma rstrip_by_last (p : ascii -> bool) (a : ascii) (s : string) :
  p a = false -> rstrip_by p (s ++ String a "") = s ++ String a "".
Proof.
  intros Ha. induction s as [|c s IH].
  - cbn. now rewrite Ha.
  - cbn [append rstrip_by]. rewrite IH. now destruct s.
Qed.

Lemma lstrip_by_more (p : ascii -> bool) (a : ascii) (s : string) :
  p a = true ->
  lstrip_by p (s ++ String a "")
  = match lstrip_by p s with "" => "" | r => r ++ String a "" end.
Proof.
  intros Ha. induction s as [|c s IH].
  - cbn. now rewrite Ha.
  - cbn [append lstrip_by]. destruct (p c); [exact IH|reflexivity].
Qed.

Lemma strip_by_more (p : ascii -> bool) (a : ascii) (s : string) :
  p a = true -> strip_by p (s ++ String a "") = strip_by p s.
Proof.
  intros Ha. unfold strip_by. rewrite lstrip_by_more by exact Ha.
  destruct (lstrip_by p s) as [|c r] eqn:E; [reflexivity|].
  now rewrite rstrip_by_more.
Qed.

(** What is stripped away lies outside what is kept. *)
Lemma lstrip_by_suffix (p : ascii -> bool) (s : string) :
  exists a, s = a ++ lstrip_by p s.
Proof.
  induction s as [|c s [a IH]]; [now exists ""|].
  cbn [lstrip_by]. destruct (p c); [|now exists ""].
  exists (String c a). cbn [append]. now rewrite <- IH.
Qed.

Lemma rstrip_by_prefix (p : ascii -> bool) (s : string) :
  exists b, s = rstrip_by p s ++ b.
Proof.
  induction s as [|c s [b IH]]; [now exists ""|].
  cbn [rstrip_by]. destruct (rstrip_by p s) as [|d r] eqn:E.
  - destruct (p c); [now exists (String c s)|].
    exists s. reflexivity.
  - exists b. cbn [append] in *. now f_equal.
Qed.

Lemma startswith_app_l (s t p : string) :
  startswith s p = true -> startswith (s ++ t) p = true.
Proof.
  revert s; induction p as [|a p IH]; intros s H; [reflexivity|].
  destruct s as [|b s]; [discriminate|]. cbn [append startswith] in *.
  apply andb_true_iff in H as [-> H]. cbn. now apply IH.
Qed.

Lemma contains_app_l (s t p : string) :
  contains s p = true -> contains (s ++ t) p = true.
Proof.
  induction s as [|c s IH]; cbn [contains]; intros H.
  - apply orb_true_iff in H as [H|H]; [|discriminate].
    destruct p; [|discriminate]. now destruct t.
  - apply orb_true_iff in H as [H|H].
    + apply contains_here. now apply startswith_app_l.
    + cbn [append contains]. rewrite (IH H). apply orb_true_r.
Qed.

Lemma contains_strip (s p : string) :
  contains (strip s) p = true -> contains s p = true.
Proof.
  unfold strip, strip_by. intros H.
  destruct (lstrip_by_suffix is_space s) as [a Ha].
  destruct (rstrip_by_prefix is_space (lstrip_by is_space s)) as [b Hb].
  rewrite Ha. apply contains_app_r. rewrite Hb. now apply contains_app_l.
Qed.

Lemma contains_refl (p : string) : contains p p = true.
Proof.
  apply contains_here. rewrite <- (sapp_nil_r p) at 1. apply startswith_app.
Qed.

Lemma rstrip_by_idem (p : ascii -> bool) (s : string) :
  rstrip_by p (rstrip_by p s) = rstrip_by p s.
Proof.
  induction s as [|c s IH]; [reflexivity|].
  cbn [rstrip_by]. destruct (rstrip_by p s) as [|d r] eqn:E.
  - destruct (p c) eqn:Hc; [reflexivity|]. cbn. now rewrite Hc.
  - change (rstrip_by p (String c (String d r)))
      with (match rstrip_by p (String d r) with
            | "" => if p c then "" else String c ""
            | String x y => String c (String x y)
            end).
    now rewrite IH.
Qed.

Lemma lstrip_by_done (p : ascii -> bool) (s : string) :
  lstrip_by p (lstrip_by p s) = lstrip_by p s.
Proof.
  induction s as [|c s IH]; [reflexivity|].
  cbn [lstrip_by]. destruct (p c) eqn:Hc; [exact IH|]. cbn. now rewrite Hc.
Qed.

Lemma lstrip_rstrip (p : ascii -> bool) (s : string) :
  lstrip_by p s = s -> lstrip_by p (rstrip_by p s) = rstrip_by p s.
Proof.
  destruct s as [|c s]; [reflexivity|].
  cbn [lstrip_by]. destruct (p c) eqn:Hc.
  - intros H. exfalso.
    destruct (lstrip_by_suffix p s) as [a Ha].
    assert (L : String.length s = String.length a + String.length (lstrip_by p s))
      by (rewrite Ha at 1; apply length_app).
    rewrite H in L. cbn in L. lia.
  - intros _. cbn [rstrip_by]. destruct (rstrip_by p s); rewrite ?Hc; cbn; now rewrite Hc.
Qed.

Lemma strip_idem (s : string) : strip (strip s) = strip s.
Proof.
  unfold strip, strip_by.
  rewrite lstrip_rstrip by apply lstrip_by_done.
  apply rstrip_by_idem.
Qed.

End StripFacts.

Section CompleteGuidedPractice.
Import PyRe QmdToPreTeXtConverter.

Lemma no_marker_no_callout (s : string) :
  contains s ":::" = false -> contains s "::: {.callout-note" = false.
Proof.
  intros H. destruct (contains s "::: {.callout-note") eqn:E; [|reflexivity].
  change "::: {.callout-note" with (":::" ++ " {.callout-note") in E.
  apply contains_prefix in E. congruence.
Qed.

Lemma scan_skip_line (l rest : string) :
  contains l ":::" = false ->
  scan_from callout_re 0 (l ++ nl ++ rest)
  = List.app (unmatched (l ++ nl)) (scan_from callout_re 0 rest).
Proof.
  induction l as [|c l IH]; intros H.
  - reflexivity.
  - cbn [contains] in H. apply orb_false_iff in H as [H1 H2].
    cbn [append scan_from unmatched List.app]. unfold callout_re at 1.
    cbn [match_atoms].
    destruct (startswith (String c (l ++ nl ++ rest)) "::: {.callout-note") eqn:E.
    + exfalso.
      apply (startswith_before_nl "::: {.callout-note" (String c l) rest eq_refl) in E.
      change "::: {.callout-note" with (":::" ++ " {.callout-note") in E.
      apply startswith_prefix in E. congruence.
    + f_equal. apply IH. exact H2.
Qed.

Lemma scan_text_before (ls : list string) (rest : string) :
  forallb marker_free_line ls = true ->
  scan_from callout_re 0 (text_before ls ++ rest)
  = List.app (unmatched (text_before ls)) (scan_from callout_re 0 rest).
Proof.
  induction ls as [|l ls IH]; intros H; [reflexivity|].
  cbn [forallb] in H. apply andb_true_iff in H as [Hl Hls].
  apply negb_true_iff in Hl.
  cbn [text_before]. rewrite !sapp_assoc.
  rewrite scan_skip_line by exact Hl. rewrite (IH Hls).
  rewrite List.app_assoc. f_equal.
  clear. induction l as [|c l IHl]; [reflexivity|].
  cbn [append unmatched List.app]. f_equal. exact IHl.
Qed.

Lemma unmatched_app (a b : string) :
  unmatched (a ++ b) = List.app (unmatched a) (unmatched b).
Proof. induction a as [|c a IH]; cbn; congruence. Qed.

Lemma re_split_unmatched (s cur : string) (ps : list piece) :
  re_split cur (List.app (unmatched s) ps) = re_split (cur ++ s) ps.
Proof.
  revert cur; induction s as [|c s IH]; intros cur; cbn [unmatched List.app re_split].
  - now rewrite sapp_nil_r.
  - rewrite IH. now rewrite sapp_assoc.
Qed.

(** A match that covers a non-empty prefix of the text. *)
Lemma scan_from_hit (pat : list atom) (c : ascii) (m rest g : string) :
  match_atoms pat (String c m ++ rest) = Some (g, S (String.length m)) ->
  scan_from pat 0 (String c m ++ rest) = Hit g :: scan_from pat 0 rest.
Proof.
  intros E. cbn [append] in *. cbn [scan_from]. rewrite E.
  now rewrite scan_from_skip.
Qed.

Lemma match_callout (attrs rest : string) :
  free_of "}" attrs = true ->
  match_atoms callout_re ("::: {.callout-note" ++ (attrs ++ "}") ++ rest)
  = Some ("", String.length "::: {.callout-note" + (String.length attrs + (1 + 0))).
Proof.
  intros H. unfold callout_re. cbn [match_atoms].
  rewrite startswith_app.
  rewrite (drop_app "::: {.callout-note").
  rewrite sapp_assoc.
  change ("}" ++ rest) with (String "}" rest).
  rewrite span_free by exact H.
  cbn [startswith]. rewrite Ascii.eqb_refl. cbn [andb].
  reflexivity.
Qed.

(** The opening line of the solution scope is one match of the pattern. *)
Lemma scan_callout (attrs rest : string) :
  free_of "}" attrs = true ->
  scan_from callout_re 0 (("::: {.callout-note" ++ attrs ++ "}") ++ rest)
  = Hit "" :: scan_from callout_re 0 rest.
Proof.
  intros H.
  apply (scan_from_hit callout_re ":" (":: {.callout-note" ++ attrs ++ "}") rest "").
  change (String ":" (":: {.callout-note" ++ attrs ++ "}") ++ rest)
    with ("::: {.callout-note" ++ (attrs ++ "}") ++ rest).
  rewrite match_callout by exact H.
  f_equal. f_equal. rewrite !length_app. cbn [String.length]. lia.
Qed.

Lemma scan_after_callout (ls : list string) :
  forallb marker_free_line ls = true ->
  scan_from callout_re 0 (text_after ls) = unmatched (text_after ls).
Proof.
  intros H. apply scan_no_occurrence. apply no_marker_no_callout.
  destruct (contains (text_after ls) ":::") eqn:E; [|reflexivity].
  exfalso. destruct ls as [|l ls]; [discriminate|].
  change (text_after (l :: ls)) with (join nl ("" :: l :: ls)) in E.
  apply contains_join_nl in E; [|reflexivity|reflexivity].
  apply Exists_exists in E as (x & Hin & Hx).
  destruct Hin as [<-|Hin]; [discriminate|].
  rewrite forallb_forall in H. specialize (H x Hin).
  unfold marker_free_line in H. now rewrite Hx in H.
Qed.

(** The two parts of the text of a block around the opening of its solution
    scope. *)
Lemma callout_parts (stmt rest : list string) (attrs : string) :
  forallb marker_free_line stmt = true ->
  forallb marker_free_line rest = true ->
  free_of "}" attrs = true ->
  re_split "" (scan callout_re
                 (join nl (List.app stmt (("::: {.callout-note" ++ attrs ++ "}") :: rest))))
  = [text_before stmt; text_after rest].
Proof.
  intros Hs Hr Ha. unfold scan. rewrite join_around.
  rewrite scan_text_before by exact Hs.
  rewrite scan_callout by exact Ha.
  rewrite scan_after_callout by exact Hr.
  rewrite re_split_unmatched. cbn [re_split append].
  rewrite <- (List.app_nil_r (unmatched (text_after rest))).
  now rewrite re_split_unmatched.
Qed.

Lemma strip_text_before (ls : list string) :
  strip (text_before ls) = strip (join nl ls).
Proof.
  rewrite text_before_join. destruct ls as [|l ls]; [reflexivity|].
  apply strip_by_more. reflexivity.
Qed.

Lemma strip_text_after (ls : list string) :
  strip (text_after ls) = strip (join nl ls).
Proof. destruct ls; reflexivity. Qed.

Lemma endswith_contains (s p : string) :
  endswith s p = true -> contains s p = true.
Proof.
  induction s as [|c s IH]; cbn [endswith]; intros H.
  - apply orb_true_iff in H as [H|H]; [|discriminate].
    apply String.eqb_eq in H; subst p. reflexivity.
  - apply orb_true_iff in H as [H|H].
    + apply String.eqb_eq in H; subst p. apply contains_refl.
    + cbn [contains]. rewrite (IH H). apply orb_true_r.
Qed.

Lemma join_marker_free (ls : list string) :
  forallb marker_free_line ls = true -> contains (join nl ls) ":::" = false.
Proof.
  intros H. destruct (contains (join nl ls) ":::") eqn:E; [|reflexivity].
  apply contains_join_nl in E; [|reflexivity|reflexivity].
  apply Exists_exists in E as (x & Hin & Hx).
  rewrite forallb_forall in H. specialize (H x Hin).
  unfold marker_free_line in H. now rewrite Hx in H.
Qed.

(** Statement and solution of a block whose solution scope opens with a
    callout and a solution heading. *)
Lemma guided_parts_nested (stmt sol : list string) (attrs : string) :
  forallb marker_free_line stmt = true ->
  forallb marker_free_line sol = true ->
  free_of "}" attrs = true ->
  guided_parts (join nl (List.app stmt
                  (("::: {.callout-note" ++ attrs ++ "}") :: "## Solution" :: sol)))
  = (strip (join nl stmt), strip (join nl sol)).
Proof.
  intros Hs Hl Ha. unfold guided_parts.
  fold callout_re.
  rewrite (callout_parts stmt ("## Solution" :: sol) attrs Hs) by assumption.
  rewrite join_around.
  assert (C : contains (text_before stmt ++
                        ("::: {.callout-note" ++ attrs ++ "}") ++
                        text_after ("## Solution" :: sol)) "::: {.callout-note" = true).
  { apply contains_app_r, contains_here. rewrite !sapp_assoc. apply startswith_app. }
  rewrite C. cbn [part nth List.length Nat.ltb Nat.leb].
  rewrite strip_text_before. f_equal.
  assert (T : text_after ("## Solution" :: sol)
              = nl ++ "## Solution" ++ text_after sol).
  { unfold text_after at 1. rewrite join_cons. now destruct sol. }
  rewrite T.
  assert (C2 : contains (nl ++ "## Solution" ++ text_after sol) "## Solution" = true).
  { apply contains_app_r, contains_here, startswith_app. }
  rewrite C2.
  change (split1 (nl ++ "## Solution" ++ text_after sol) "## Solution")
    with [nl; text_after sol].
  cbn [part nth]. rewrite strip_text_after.
  unfold drop_final_marker.
  destruct (endswith (strip (join nl sol)) ":::") eqn:E.
  - exfalso. apply endswith_contains, contains_strip in E.
    now rewrite join_marker_free in E.
  - apply strip_idem.
Qed.

Lemma marker_free_not_close (l : string) :
  marker_free_line l = true -> String.eqb (strip l) ":::" = false.
Proof.
  unfold marker_free_line. intros H. apply negb_true_iff in H.
  destruct (String.eqb (strip l) ":::") eqn:E; [|reflexivity].
  apply String.eqb_eq in E.
  assert (C : contains (strip l) ":::" = true) by now rewrite E.
  apply contains_strip in C. congruence.
Qed.

Lemma last_nonempty (A : Type) (x : A) (xs : list A) (d d' : A) :
  last (x :: xs) d = last (x :: xs) d'.
Proof.
  revert x; induction xs as [|y xs IH]; intros x; [reflexivity|].
  change (last (y :: xs) d = last (y :: xs) d'). apply IH.
Qed.

Lemma guided_block_pass (ls rest : list string) :
  forallb marker_free_line ls = true ->
  forall prev,
    guided_block prev (List.app ls rest)
    = List.app ls (guided_block (last ls prev) rest).
Proof.
  induction ls as [|l ls IH]; intros H prev; [reflexivity|].
  cbn [forallb] in H. apply andb_true_iff in H as [Hl Hls].
  cbn [List.app guided_block]. rewrite (marker_free_not_close l Hl). cbn [andb].
  rewrite (IH Hls). do 3 f_equal.
  destruct ls as [|l' ls]; [reflexivity|].
  change (last (l :: l' :: ls) prev) with (last (l' :: ls) prev).
  apply last_nonempty.
Qed.

Lemma guided_block_stop (ls rest : list string) (prev : string) :
  forallb marker_free_line ls = true -> marker_free_line prev = true ->
  guided_block prev (List.app ls (":::" :: rest)) = ls.
Proof.
  intros H Hp. rewrite guided_block_pass by exact H.
  assert (L : marker_free_line (last ls prev) = true).
  { clear rest. revert prev Hp. induction ls as [|l ls IH]; intros prev Hp; [exact Hp|].
    cbn [forallb] in H. apply andb_true_iff in H as [Hl Hls].
    destruct ls as [|l' ls]; [exact Hl|]. now apply (IH Hls). }
  cbn [guided_block]. unfold marker_free_line in L.
  change (String.eqb (strip ":::") ":::") with true. rewrite L. cbn [andb].
  apply List.app_nil_r.
Qed.

Lemma callout_not_close (attrs : string) :
  String.eqb (strip ("::: {.callout-note" ++ attrs ++ "}")) ":::" = false.
Proof.
  unfold strip, strip_by.
  change (lstrip_by is_space ("::: {.callout-note" ++ attrs ++ "}"))
    with ("::: {.callout-note" ++ attrs ++ "}").
  replace ("::: {.callout-note" ++ attrs ++ "}")
    with (("::: {.callout-note" ++ attrs) ++ "}") by now rewrite sapp_assoc.
  rewrite rstrip_by_last by reflexivity. reflexivity.
Qed.

Lemma guided_block_nested (opening attrs : string) (stmt sol rest : list string) :
  forallb marker_free_line stmt = true ->
  forallb marker_free_line sol = true ->
  guided_block opening
    (List.app stmt (("::: {.callout-note" ++ attrs ++ "}") :: "## Solution"
                    :: List.app sol (":::" :: rest)))
  = List.app stmt (("::: {.callout-note" ++ attrs ++ "}") :: "## Solution" :: sol).
Proof.
  intros Hs Hl. rewrite guided_block_pass by exact Hs. f_equal.
  cbn [guided_block]. rewrite callout_not_close. cbn [andb]. f_equal.
  change (String.eqb (strip "## Solution") ":::") with false. cbn [andb]. f_equal.
  now apply guided_block_stop.
Qed.

End CompleteGuidedPractice.

(** X17.  [handle_guided_practice] of convert_ch17_complete.py on a block whose
    solution is a nested callout: statement lines, the opening of the
    callout, the solution heading, solution lines, the close of the callout
    and the close of the block, where the statement and solution lines are
    ASCII and none holds the block marker.  The exercise emitted has the
    stripped text of the statement lines as statement and the stripped text
    of the solution lines as solution, and the index returned is the one of
    the close of the block. *)
Theorem complete_guided_practice_splits_nested_solution
    (pre stmt sol post : list string) (opening attrs : string)
    (c : QmdToPreTeXtConverter.converter) :
  forallb is_ascii stmt = true ->
  forallb is_ascii sol = true ->
  forallb marker_free_line stmt = true ->
  forallb marker_free_line sol = true ->
  free_of "}" attrs = true ->
  QmdToPreTeXtConverter.handle_guided_practice
    (List.app pre
       (opening :: List.app stmt
          (("::: {.callout-note" ++ attrs ++ "}") :: "## Solution"
           :: List.app sol (":::" :: ":::" :: post))))
    (List.length pre) c
  = QmdToPreTeXtConverter.bind
      (QmdToPreTeXtConverter.add_exercise "exercise"
         (strip (join nl stmt)) (strip (join nl sol)))
      (fun _ => QmdToPreTeXtConverter.ret
                  (List.length pre + 1 + List.length stmt + 2 + List.length sol + 1)) c.
Proof.
  intros _ _ Hs Hl Ha. unfold QmdToPreTeXtConverter.handle_guided_practice.
  rewrite skipn_past.
  rewrite guided_block_nested by assumption.
  rewrite guided_parts_nested by assumption.
  unfold QmdToPreTeXtConverter.bind.
  destruct (QmdToPreTeXtConverter.add_exercise _ _ _ c); try reflexivity.
  unfold QmdToPreTeXtConverter.ret. f_equal.
  rewrite List.length_app. cbn [List.length]. lia.
Qed.

Lemma complete_guided_practice_splits_nested_solution_witness :
  QmdToPreTeXtConverter.handle_guided_practice
    [ "::: {.guidedpractice}"; "What is 1 + 1?"; "";
      "::: {.callout-note collapse=true}"; "## Solution"; "It is 2."; ":::"; ":::" ]
    0 QmdToPreTeXtConverter.init
  = QmdToPreTeXtConverter.bind
      (QmdToPreTeXtConverter.add_exercise "exercise" "What is 1 + 1?" "It is 2.")
      (fun _ => QmdToPreTeXtConverter.ret 7) QmdToPreTeXtConverter.init.
Proof.
  exact (complete_guided_practice_splits_nested_solution
           [] ["What is 1 + 1?"; ""] ["It is 2."] []
           "::: {.guidedpractice}" " collapse=true"
           QmdToPreTeXtConverter.init eq_refl eq_refl eq_refl eq_refl eq_refl).
Defined.

(** ** Subsections in convert_ch17_two_props.py *)

Section TwoPropsLevels.
Import Ch17TwoProps.

Lemma step_level (lines : list string) (st : state) :
  indent_level st <= 2 -> indent_level (step lines st) <= 2.
Proof.
  intros H. unfold step.
  rewrite andb_negb_r.
  repeat match goal with
         | |- context [if ?b then _ else _] => destruct b
         end;
    unfold chapter_intro, section_heading, open_code, in_code, in_guide, in_data,
      paragraph;
    repeat match goal with
           | |- context [if ?b then _ else _] => destruct b
           | |- context [match ?x with (_, _) => _ end] => destruct x
           | |- context [match ?x with Some _ => _ | None => _ end] => destruct x
           | |- context [match ?x with [] => _ | _ :: _ => _ end] => destruct x
           end; cbn; lia.
Qed.

Lemma loop_level (fuel : nat) (lines : list string) :
  forall st, indent_level st <= 2 -> indent_level (loop fuel lines st) <= 2.
Proof.
  induction fuel as [|fuel IH]; intros st H; cbn [loop]; [exact H|].
  destruct (in_range lines (i st)); [|exact H].
  apply IH. now apply step_level.
Qed.

Lemma subsection_heading_dropped (lines : list string) (st : state) :
  startswith (line_at lines (i st)) "### " = true ->
  contains (line_at lines (i st)) ":::" = false ->
  in_code_block st = false -> in_guide_practice st = false -> in_data_box st = false ->
  step lines st = next st.
Proof.
  intros Hs Hc H1 H2 H3.
  pose proof Hs as Hs'. apply startswith_split in Hs' as [r Hr].
  assert (N : forall q, contains (line_at lines (i st)) (":::" ++ q) = false).
  { intros q. destruct (contains (line_at lines (i st)) (":::" ++ q)) eqn:E; [|reflexivity].
    apply contains_prefix in E. congruence. }
  unfold step. rewrite andb_negb_r, H1, H2, H3.
  change "::: {.chapterintro" with (":::" ++ " {.chapterintro").
  change "::: {.guidedpractice" with (":::" ++ " {.guidedpractice").
  change "::: {.data" with (":::" ++ " {.data").
  rewrite !N.
  assert (E1 : startswith (line_at lines (i st)) "## " = false) by now rewrite Hr.
  assert (E2 : startswith (line_at lines (i st)) "#" = true) by now rewrite Hr.
  assert (E3 : startswith (strip (line_at lines (i st))) "```{r}" = false
               /\ startswith (strip (line_at lines (i st))) "\vspace" = false
               /\ startswith (strip (line_at lines (i st))) "\clearpage" = false).
  { rewrite Hr. destruct (strip_keeps_head "#" ("## " ++ r) eq_refl) as [x Hx].
    cbn [append] in *. now rewrite Hx. }
  destruct E3 as (E3 & E4 & E5).
  rewrite E1, E2, E3, E4, E5. cbn [andb negb orb].
  rewrite andb_false_r.
  now destruct (_ && _).
Qed.

End TwoPropsLevels.

(** X18.  convert_ch17_two_props.py never opens a subsection: the test of
    line 158 asks for a line that starts with three hashes and a blank and
    does not, so for every input [indent_level] stays at most 2, and a
    subsection heading met outside a block is passed over without any
    output. *)
Theorem two_props_never_opens_a_subsection (lines : list string) :
  (forall fuel,
     Ch17TwoProps.indent_level (Ch17TwoProps.loop fuel lines Ch17TwoProps.init) <= 2)
  /\ (forall st,
        startswith (line_at lines (Ch17TwoProps.i st)) "### " = true ->
        contains (line_at lines (Ch17TwoProps.i st)) ":::" = false ->
        Ch17TwoProps.in_code_block st = false ->
        Ch17TwoProps.in_guide_practice st = false ->
        Ch17TwoProps.in_data_box st = false ->
        Ch17TwoProps.step lines st = Ch17TwoProps.next st).
Proof.
  split.
  - intros fuel. apply loop_level. cbn. lia.
  - intros st. apply subsection_heading_dropped.
Qed.

Lemma two_props_never_opens_a_subsection_witness :
  Ch17TwoProps.step ["### Details {#sub-details}"] Ch17TwoProps.init
  = Ch17TwoProps.next Ch17TwoProps.init.
Proof.
  exact (proj2 (two_props_never_opens_a_subsection ["### Details {#sub-details}"])
           Ch17TwoProps.init eq_refl eq_refl eq_refl eq_refl eq_refl).
Defined.

(** ** Headings with an identifier *)

Section HeadingParse.
Import PyRe Ch17TwoProps.

Lemma span_all (p : ascii -> bool) (id : string) (d : ascii) (rest : string) :
  all_chars p id = true -> p d = false ->
  span p (id ++ String d rest) = (id, String d rest).
Proof.
  intros H Hd. induction id as [|c id IH].
  - cbn. now rewrite Hd.
  - cbn [all_chars] in H. apply andb_true_iff in H as [Hc H].
    cbn [append span]. now rewrite Hc, (IH H).
Qed.

(** After the title: the blank and the identifier in braces. *)
Lemma heading_tail_matches (id rest : string) :
  is_id id = true ->
  match_atoms heading_tail ((" {#" ++ id ++ "}") ++ rest)
  = Some (id, String.length (" {#" ++ id ++ "}")).
Proof.
  unfold is_id. intros H. apply andb_true_iff in H as [Ht Ha].
  rewrite sapp_assoc. cbn [append]. rewrite sapp_assoc. cbn [append].
  unfold heading_tail. cbn [match_atoms span].
  change (is_space " ") with true. change (is_space "{") with false. cbv iota.
  cbn [startswith]. rewrite !Ascii.eqb_refl. cbn [andb String.length drop].
  rewrite span_all by (exact Ha || reflexivity).
  destruct id as [|c id]; [discriminate|].
  cbn [startswith]. rewrite Ascii.eqb_refl. cbn [andb].
  f_equal. f_equal. rewrite length_app. cbn [String.length]. lia.
Qed.

(** Inside the title the rest of the pattern does not match: after the
    blanks comes a character of the title, and it is not a brace. *)
Lemma heading_tail_fails (u rest : string) :
  solid_end u = true -> free_of "{" u = true ->
  match_atoms heading_tail (u ++ rest) = None.
Proof.
  intros Hs Hf.
  assert (S : exists r d v, span is_space (u ++ rest) = (r, String d v)
                            /\ Ascii.eqb "{" d = false).
  { induction u as [|c u IH]; [discriminate|].
    apply free_of_head in Hf as [Hc Hf].
    cbn [append span]. destruct (is_space c) eqn:E.
    - destruct u as [|c' u]; [cbn in Hs; rewrite E in Hs; discriminate|].
      destruct (IH Hs Hf) as (r & d & v & Hsp & Hd).
      rewrite Hsp. now exists (String c r), d, v.
    - now exists "", c, (u ++ rest). }
  destruct S as (r & d & v & Hsp & Hd).
  unfold heading_tail. cbn [match_atoms]. rewrite Hsp.
  cbn [startswith]. now rewrite Hd.
Qed.

Lemma solid_end_tail (c d : ascii) (u : string) :
  solid_end (String c (String d u)) = solid_end (String d u).
Proof. reflexivity. Qed.

(** The lazy title stops at the whole title. *)
Lemma lazy_title_whole (tail id : string) (n : nat) :
  match_atoms heading_tail tail = Some (id, n) ->
  forall u acc,
    truthy u = true -> solid_end u = true -> free_of "{" u = true -> nl_free u = true ->
    lazy_title acc (u ++ tail) = Some (acc ++ u, id).
Proof.
  intros Hid. induction u as [|c u IH]; intros acc Ht Hs Hf Hn; [discriminate|].
  cbn [nl_free] in Hn. apply andb_true_iff in Hn as [Hc Hn].
  apply negb_true_iff in Hc.
  pose proof Hf as Hf'. apply free_of_head in Hf' as [_ Hf'].
  cbn [append lazy_title]. rewrite Hc.
  destruct u as [|d u].
  - cbn [append]. now rewrite Hid.
  - rewrite heading_tail_fails by assumption.
    rewrite (IH (acc ++ String c "")) by (assumption || reflexivity).
    now rewrite sapp_assoc.
Qed.

Lemma at_end_inside (u rest : string) :
  truthy u = true -> nl_free u = true ->
  QmdToPreTeXtConverter.at_end (u ++ rest) = false.
Proof.
  destruct u as [|c u]; [discriminate|]. intros _ H.
  cbn [nl_free] in H. apply andb_true_iff in H as [Hc _]. apply negb_true_iff in Hc.
  unfold QmdToPreTeXtConverter.at_end. cbn [append String.eqb].
  unfold nl. cbn [String.eqb]. rewrite Hc. reflexivity.
Qed.

(** The lazy title of the anchored pattern stops at the whole title, with
    what the optional group gives there. *)
Lemma lazy_title_end_whole (tail : string) (res : option string) :
  (forall t,
     match match_atoms heading_tail tail with
     | Some (g, n) =>
         if QmdToPreTeXtConverter.at_end (drop n tail) then Some (t, Some g)
         else if QmdToPreTeXtConverter.at_end tail then Some (t, None)
         else QmdToPreTeXtConverter.lazy_title_end t tail
     | None =>
         if QmdToPreTeXtConverter.at_end tail then Some (t, None)
         else QmdToPreTeXtConverter.lazy_title_end t tail
     end = Some (t, res)) ->
  forall u acc,
    truthy u = true -> solid_end u = true -> free_of "{" u = true -> nl_free u = true ->
    QmdToPreTeXtConverter.lazy_title_end acc (u ++ tail) = Some (acc ++ u, res).
Proof.
  intros Hfin. induction u as [|c u IH]; intros acc Ht Hs Hf Hn; [discriminate|].
  pose proof Hn as Hn'.
  cbn [nl_free] in Hn. apply andb_true_iff in Hn as [Hc Hn].
  apply negb_true_iff in Hc.
  pose proof Hf as Hf'. apply free_of_head in Hf' as [_ Hf'].
  cbn [append QmdToPreTeXtConverter.lazy_title_end]. rewrite Hc.
  destruct u as [|d u].
  - cbn [append]. apply Hfin.
  - rewrite heading_tail_fails by assumption.
    rewrite at_end_inside by (reflexivity || assumption).
    rewrite (IH (acc ++ String c "")) by (assumption || reflexivity).
    now rewrite sapp_assoc.
Qed.

End HeadingParse.

(** X19.  A heading written as hashes, a blank, a title, a blank and [{#id}]
    is read back as that title and that identifier, by the section pattern
    of convert_ch17_two_props.py and convert_ch17_complete.py and by the
    subsection pattern of convert_ch17_complete.py, which also reads a
    heading without identifier as its title alone; the title is ASCII,
    neither starts nor ends with a blank and holds no brace and no line
    feed. *)
Theorem headings_are_parsed_back (title id : string) :
  is_ascii title = true -> is_title title = true -> is_id id = true ->
  Ch17TwoProps.section_match ("## " ++ title ++ " {#" ++ id ++ "}") = Some (title, id)
  /\ QmdToPreTeXtConverter.subsection_match ("### " ++ title ++ " {#" ++ id ++ "}")
     = Some (title, Some id)
  /\ QmdToPreTeXtConverter.subsection_match ("### " ++ title) = Some (title, None).
Proof.
  intros _ Ht Hid. destruct title as [|c t]; [discriminate|].
  unfold is_title in Ht.
  repeat (apply andb_true_iff in Ht as [Ht ?]).
  apply negb_true_iff in Ht.
  assert (M : PyRe.match_atoms Ch17TwoProps.heading_tail (" {#" ++ id ++ "}")
              = Some (id, String.length (" {#" ++ id ++ "}"))).
  { rewrite <- (sapp_nil_r (" {#" ++ id ++ "}")) at 1.
    now apply heading_tail_matches. }
  repeat split.
  - unfold Ch17TwoProps.section_match.
    cbn [append startswith]. rewrite !Ascii.eqb_refl. cbn [andb drop PyRe.span].
    change (is_space " ") with true. cbv iota. rewrite Ht.
    cbn [fst String.length Ch17TwoProps.backtrack_ws drop].
    change (String c (t ++ String " " (String "{" (String "#" (id ++ "}")))))
      with (String c t ++ " {#" ++ id ++ "}").
    rewrite (lazy_title_whole (" {#" ++ id ++ "}") id (String.length (" {#" ++ id ++ "}")));
      try assumption; reflexivity.
  - unfold QmdToPreTeXtConverter.subsection_match.
    cbn [append startswith]. rewrite !Ascii.eqb_refl. cbn [andb drop PyRe.span].
    change (is_space " ") with true. cbv iota. rewrite Ht.
    cbn [fst String.length Ch17TwoProps.backtrack_ws drop].
    change (String c (t ++ String " " (String "{" (String "#" (id ++ "}")))))
      with (String c t ++ " {#" ++ id ++ "}").
    rewrite (lazy_title_end_whole (" {#" ++ id ++ "}") (Some id));
      try assumption; try reflexivity.
    intros t0. rewrite M.
    rewrite <- (sapp_nil_r (" {#" ++ id ++ "}")) at 2.
    now rewrite drop_app.
  - unfold QmdToPreTeXtConverter.subsection_match.
    cbn [append startswith]. rewrite !Ascii.eqb_refl. cbn [andb drop PyRe.span].
    change (is_space " ") with true. cbv iota. rewrite Ht.
    cbn [fst String.length Ch17TwoProps.backtrack_ws drop].
    rewrite <- (sapp_nil_r (String c t)) at 1.
    rewrite (lazy_title_end_whole "" None); try assumption; reflexivity.
Qed.

Lemma headings_are_parsed_back_witness :
  Ch17TwoProps.section_match "## Two-way tables {#sec-two-way}"
  = Some ("Two-way tables", "sec-two-way")
  /\ QmdToPreTeXtConverter.subsection_match "### Two-way tables {#sec-two-way}"
     = Some ("Two-way tables", Some "sec-two-way")
  /\ QmdToPreTeXtConverter.subsection_match "### Two-way tables"
     = Some ("Two-way tables", None).
Proof.
  exact (headings_are_parsed_back "Two-way tables" "sec-two-way" eq_refl eq_refl eq_refl).
Defined.

(** ** The shape of the identifiers of worked examples *)

Section SlugShape.

Lemma hyphenate_chars (b : bool) (s : string) :
  all_chars slug_or_hyphen (hyphenate is_alnum b (lower s)) = true.
Proof.
  revert b; induction s as [|c s IH]; intros b; [reflexivity|].
  cbn [lower hyphenate].
  destruct (is_alnum (lower_char c)) eqn:E.
  - cbn [all_chars]. rewrite IH, andb_true_r.
    unfold slug_or_hyphen, Ch17Full.slug_char. unfold is_alnum in E.
    rewrite lower_char_not_upper, orb_false_r in E. now rewrite E.
  - destruct b; [apply IH|]. cbn [all_chars]. now rewrite IH.
Qed.

Lemma startswith_cons (a b : ascii) (s p : string) :
  startswith (String a s) (String b p) = Ascii.eqb b a && startswith s p.
Proof. reflexivity. Qed.

Lemma contains_cons (c : ascii) (s p : string) :
  contains (String c s) p = startswith (String c s) p || contains s p.
Proof. reflexivity. Qed.

(** After a hyphen was written no second one follows. *)
Lemma hyphenate_single (s : string) :
  contains (hyphenate is_alnum false (lower s)) "--" = false
  /\ contains (hyphenate is_alnum true (lower s)) "--" = false
  /\ startswith (hyphenate is_alnum true (lower s)) "-" = false.
Proof.
  induction s as [|c s (IH1 & IH2 & IH3)]; [repeat split; reflexivity|].
  cbn [lower hyphenate].
  assert (A : is_alnum (lower_char c) = true -> Ascii.eqb "-" (lower_char c) = false).
  { destruct c as [[] [] [] [] [] [] [] []]; vm_compute; intros H;
      first [reflexivity | discriminate H]. }
  destruct (is_alnum (lower_char c)) eqn:E.
  - specialize (A eq_refl).
    repeat split; rewrite ?contains_cons, !startswith_cons, A, ?IH1; reflexivity.
  - repeat split; try assumption.
    now rewrite contains_cons, startswith_cons, Ascii.eqb_refl, IH3, IH2.
Qed.

Lemma all_chars_app (p : ascii -> bool) (a b : string) :
  all_chars p (a ++ b) = all_chars p a && all_chars p b.
Proof.
  induction a as [|c a IH]; [reflexivity|].
  cbn [append all_chars]. now rewrite IH, andb_assoc.
Qed.

Lemma strip_by_chars (p q : ascii -> bool) (s : string) :
  all_chars q s = true -> all_chars q (strip_by p s) = true.
Proof.
  intros H. unfold strip_by.
  destruct (lstrip_by_suffix p s) as [a Ha].
  destruct (rstrip_by_prefix p (lstrip_by p s)) as [b Hb].
  rewrite Ha, all_chars_app in H. apply andb_true_iff in H as [_ H].
  rewrite Hb, all_chars_app in H. now apply andb_true_iff in H as [H _].
Qed.

Lemma strip_by_contains (p : ascii -> bool) (s m : string) :
  contains s m = false -> contains (strip_by p s) m = false.
Proof.
  intros H. destruct (contains (strip_by p s) m) eqn:E; [|reflexivity].
  unfold strip_by in E.
  destruct (lstrip_by_suffix p s) as [a Ha].
  destruct (rstrip_by_prefix p (lstrip_by p s)) as [b Hb].
  apply (contains_app_l _ b) in E. rewrite <- Hb in E.
  apply (contains_app_r a) in E. rewrite <- Ha in E. congruence.
Qed.

Lemma strip_by_idem (p : ascii -> bool) (s : string) :
  strip_by p (strip_by p s) = strip_by p s.
Proof.
  unfold strip_by.
  rewrite lstrip_rstrip by apply lstrip_by_done.
  apply rstrip_by_idem.
Qed.

End SlugShape.

(** X21.  Whatever the title, the identifier that convert_ch17_full.py derives
    for a worked example is made of lower-case letters, digits and hyphens
    only, holds no two hyphens in a row, and neither starts nor ends with a
    hyphen. *)
Theorem example_id_is_a_clean_slug (ex_title : string) :
  all_chars slug_or_hyphen (Ch17Full.example_id ex_title) = true
  /\ contains (Ch17Full.example_id ex_title) "--" = false
  /\ strip_by (Ascii.eqb "-") (Ch17Full.example_id ex_title) = Ch17Full.example_id ex_title.
Proof.
  rewrite example_id_is_spec_slug. destruct (truthy ex_title); [|repeat split; reflexivity].
  unfold spec_slug. repeat split.
  - apply strip_by_chars, hyphenate_chars.
  - apply strip_by_contains, hyphenate_single.
  - apply strip_by_idem.
Qed.

(** ** The exercises of convert_ch18_exercises.py *)

Section Ch18Items.
Import PyRe Ch18ExerciseConverter.

Lemma lower_not_space (l : ascii) : is_lower l = true -> is_space l = false.
Proof. destruct l as [[] [] [] [] [] [] [] []]; vm_compute; congruence. Qed.

Lemma scan_item_free (pre rest : string) :
  free_of nl pre = true ->
  scan_from item_re 0 (pre ++ rest) = List.app (unmatched pre) (scan_from item_re 0 rest).
Proof. intros H. unfold item_re, nl. now apply scan_unmatched_app. Qed.

Lemma scan_items (items : list (ascii * string)) :
  forallb is_item items = true ->
  scan_from item_re 0 (items_text items) = item_pieces items.
Proof.
  induction items as [|[l t] items IH]; intros H; [reflexivity|].
  cbn [forallb] in H. apply andb_true_iff in H as [Hi H].
  unfold is_item in Hi. cbn [fst snd] in Hi.
  apply andb_true_iff in Hi as [Hi Hd]. apply andb_true_iff in Hi as [Hl Hf].
  destruct t as [|d t]; [discriminate|]. apply negb_true_iff in Hd.
  cbn [items_text item_pieces].
  assert (E : match_atoms item_re (nl ++ String l ". " ++ String d t ++ items_text items)
              = Some (" ", 4)).
  { unfold item_re. cbn [append nl match_atoms startswith drop String.length span].
    rewrite Ascii.eqb_refl, (lower_not_space l Hl), Hl. cbn [andb].
    rewrite Ascii.eqb_refl. cbn [andb].
    cbn [span]. change (is_space " ") with true. cbv iota. rewrite Hd. reflexivity. }
  change (nl ++ String l ". " ++ String d t ++ items_text items)
    with (String (ascii_of_nat 10)
            (String l (String "." (String " " (String d t ++ items_text items))))) in *.
  cbn [scan_from]. rewrite E. f_equal. cbn [scan_from].
  rewrite scan_item_free by exact Hf. now rewrite (IH H).
Qed.

Lemma re_split_items (items : list (ascii * string)) (cur : string) :
  QmdToPreTeXtConverter.re_split cur (item_pieces items) = cur :: map snd items.
Proof.
  revert cur; induction items as [|[l t] items IH]; intros cur; [reflexivity|].
  cbn [item_pieces QmdToPreTeXtConverter.re_split map snd]. f_equal.
  now rewrite re_split_unmatched, IH.
Qed.

Lemma lower_not_nl (a : ascii) : is_lower a = true -> Ascii.eqb (ascii_of_nat 10) a = false.
Proof. destruct a as [[] [] [] [] [] [] [] []]; vm_compute; congruence. Qed.

Lemma item_texts_paragraph (a : ascii) (q : string) (items : list (ascii * string)) :
  free_of nl q = true -> forallb is_item items = true ->
  is_lower a = true ->
  item_texts (list_paragraph a q items) = map snd items.
Proof.
  intros Hq Hi Ha. unfold item_texts, list_paragraph, scan.
  replace (String a ". " ++ q ++ items_text items)
    with ((String a ". " ++ q) ++ items_text items) by now rewrite sapp_assoc.
  rewrite scan_item_free.
  - rewrite scan_items by exact Hi.
    now rewrite re_split_unmatched, re_split_items.
  - rewrite free_of_app, Hq. cbn [free_of mem_char nl].
    now rewrite (lower_not_nl a Ha).
Qed.

Lemma is_subquestion_paragraph (a : ascii) (q : string) (items : list (ascii * string)) :
  is_lower a = true -> is_subquestion (list_paragraph a q items) = true.
Proof.
  intros Ha. unfold is_subquestion, list_paragraph.
  cbn [append match_atoms span startswith drop String.length].
  rewrite (lower_not_space a Ha), Ha. cbn [andb].
  rewrite Ascii.eqb_refl. cbn [andb].
  cbn [span]. change (is_space " ") with true. cbv iota.
  destruct (span is_space (q ++ items_text items)). reflexivity.
Qed.

End Ch18Items.

(** X22.  In convert_ch18_exercises.py a paragraph of sub-questions loses its
    first one: when the paragraph is ASCII and, stripped, starts with a
    lower-case letter, a full stop and a blank, and the other sub-questions
    follow on lines of their own, the list is opened if it was not, and one
    item is written for each sub-question but the first. *)
Theorem ch18_first_subquestion_is_dropped
    (part : string) (a : ascii) (q : string) (items : list (ascii * string))
    (in_list : bool) (c : Ch18ExerciseConverter.converter) :
  is_ascii part = true ->
  strip part = list_paragraph a q items ->
  is_lower a = true -> free_of nl q = true -> forallb is_item items = true ->
  Ch18ExerciseConverter.convert_part (in_list, c) part
  = (true,
     fold_left
       (fun c t =>
          Ch18ExerciseConverter.add_line
            ("<li>" ++ Ch18ExerciseConverter.convert_inline (strip t) ++ "</li>") 0%Z c)
       (map snd items)
       (Ch18ExerciseConverter.open_list in_list c)).
Proof.
  intros _ Hp Ha Hq Hi. unfold Ch18ExerciseConverter.convert_part. rewrite Hp.
  rewrite is_subquestion_paragraph by exact Ha.
  rewrite item_texts_paragraph by assumption.
  assert (E : String.eqb (list_paragraph a q items) "[Table data shown]" = false).
  { unfold list_paragraph. cbn [append String.eqb].
    destruct a as [[] [] [] [] [] [] [] []]; vm_compute in Ha |- *; congruence. }
  rewrite E. reflexivity.
Qed.

Lemma ch18_first_subquestion_is_dropped_witness :
  Ch18ExerciseConverter.convert_part (false, Ch18ExerciseConverter.init)
    ("a. Is it large?" ++ nl ++ "b. Is it small?" ++ nl ++ "c. Why?")
  = (true,
     Ch18ExerciseConverter.mkConverter
       [ "<p><ol marker=" ++ dq ++ "a." ++ dq ++ ">";
         "  <li>Is it small?</li>";
         "  <li>Why?</li>" ] 1%Z).
Proof.
  exact (ch18_first_subquestion_is_dropped
           ("a. Is it large?" ++ nl ++ "b. Is it small?" ++ nl ++ "c. Why?")
           "a" "Is it large?" [("b"%char, "Is it small?"); ("c"%char, "Why?")]
           false Ch18ExerciseConverter.init eq_refl eq_refl eq_refl eq_refl eq_refl).
Defined.

Section Ch18File.
Import PyRe Ch18ExerciseConverter.

Lemma exercise_match_needs_nl (c : ascii) (s : string) :
  Ascii.eqb (ascii_of_nat 10) c = false -> exercise_match (String c s) = None.
Proof.
  intros H. unfold exercise_match. cbn [match_atoms nl startswith]. now rewrite H.
Qed.

Lemma scan_by_first_line (line rest : string) :
  free_of nl line = true ->
  scan_by exercise_match 0 (line ++ rest)
  = List.app (unmatched line) (scan_by exercise_match 0 rest).
Proof.
  induction line as [|c line IH]; intros H; [reflexivity|].
  apply free_of_head in H as [Hc H].
  cbn [append scan_by unmatched List.app].
  rewrite (exercise_match_needs_nl c _ Hc). f_equal. now apply IH.
Qed.

Lemma exercises_of_unmatched (line : string) (ps : list piece) :
  snd (exercises_of (List.app (unmatched line) ps)) = snd (exercises_of ps).
Proof.
  induction line as [|c line IH]; [reflexivity|].
  cbn [unmatched List.app exercises_of].
  destruct (exercises_of (List.app (unmatched line) ps)) as [t exs]. exact IH.
Qed.

End Ch18File.

(** X23.  process_file of convert_ch18_exercises.py never reads the first
    line of the file: an exercise is found only after a line feed, so the
    text before the first line feed changes nothing in the output. *)
Theorem ch18_first_line_is_ignored (line rest : string) :
  free_of nl line = true ->
  Ch18ExerciseConverter.process_file (line ++ rest)
  = Ch18ExerciseConverter.process_file rest.
Proof.
  intros H. unfold Ch18ExerciseConverter.process_file.
  now rewrite scan_by_first_line, exercises_of_unmatched.
Qed.

Lemma ch18_first_line_is_ignored_witness :
  Ch18ExerciseConverter.process_file
    ("1. **First.** What?" ++ nl ++ "2. **Second.** Why?")
  = Ch18ExerciseConverter.process_file (nl ++ "2. **Second.** Why?").
Proof.
  exact (ch18_first_line_is_ignored "1. **First.** What?" (nl ++ "2. **Second.** Why?")
           eq_refl).
Defined.

Section Ch18Inline.
Import PyRe.

Lemma sub_span (a : ascii) (op : string) (f : string -> string) (pre m post : string) :
  free_of (String a "") pre = true -> free_of (String a "") post = true ->
  truthy m = true -> free_of (String a "") m = true ->
  sub [Lit (String a op); Run (not_char a); Lit (String a op)] f
      (pre ++ String a op ++ m ++ String a op ++ post)
  = pre ++ f m ++ post.
Proof.
  intros. unfold sub. rewrite scan_span by assumption. apply render_span.
Qed.

Lemma sub_no_occurrence (p : string) (pat : list atom) (f : string -> string) (s : string) :
  contains s p = false -> sub (Lit p :: pat) f s = s.
Proof.
  intros H. unfold sub. rewrite scan_no_occurrence by exact H.
  apply render_unmatched.
Qed.

End Ch18Inline.

(** X24.  convert_inline of convert_ch18_exercises.py does not protect
    mathematics: a formula between dollar signs that holds a text between
    two stars comes out with that text in an em element inside the m
    element. *)
Theorem ch18_math_is_not_protected (x y z : string) :
  free_of "$*`[" x = true -> free_of "$*`[" y = true -> free_of "$*`[" z = true ->
  truthy y = true ->
  Ch18ExerciseConverter.convert_inline ("$" ++ x ++ "*" ++ y ++ "*" ++ z ++ "$")
  = "<m>" ++ x ++ "<em>" ++ y ++ "</em>" ++ z ++ "</m>".
Proof.
  intros Hx Hy Hz Ht.
  assert (F : forall a s, mem_char "$*`[" a = true -> free_of "$*`[" s = true ->
                          free_of (String a "") s = true).
  { intros a s Ha Hs. now apply (free_of_one "$*`["). }
  pose proof (F "$"%char x eq_refl Hx) as X1. pose proof (F "*"%char x eq_refl Hx) as X2.
  pose proof (F "`"%char x eq_refl Hx) as X3. pose proof (F "["%char x eq_refl Hx) as X4.
  pose proof (F "$"%char y eq_refl Hy) as Y1. pose proof (F "*"%char y eq_refl Hy) as Y2.
  pose proof (F "`"%char y eq_refl Hy) as Y3. pose proof (F "["%char y eq_refl Hy) as Y4.
  pose proof (F "$"%char z eq_refl Hz) as Z1. pose proof (F "*"%char z eq_refl Hz) as Z2.
  pose proof (F "`"%char z eq_refl Hz) as Z3. pose proof (F "["%char z eq_refl Hz) as Z4.
  clear F.
  unfold Ch18ExerciseConverter.convert_inline. cbn [append truthy negb].
  (* the math span *)
  assert (M : free_of "$" (x ++ "*" ++ y ++ "*" ++ z) = true)
    by (rewrite !free_of_app, X1, Y1, Z1; reflexivity).
  assert (T : truthy (x ++ "*" ++ y ++ "*" ++ z) = true) by (destruct x; reflexivity).
  pose proof (sub_span "$" "" (fun g => "<m>" ++ g ++ "</m>") "" _ ""
                eq_refl eq_refl T M) as P1.
  rewrite sapp_nil_r in P1. cbn [append] in P1. rewrite !sapp_assoc in P1.
  cbn [append] in P1. rewrite !sapp_assoc in P1. cbn [append] in P1.
  rewrite P1. clear P1 M T.
  (* no bold span *)
  pose proof (no_doubled_delimiter "*" ("<m>" ++ x) y (z ++ "</m>")) as D.
  rewrite !free_of_app, X2, Z2 in D. specialize (D eq_refl eq_refl Ht Y2).
  pose proof (sub_no_occurrence "**" [PyRe.Run (PyRe.not_char "*"); PyRe.Lit "**"]
                (fun g => "<alert>" ++ g ++ "</alert>") _ D) as P2.
  (* the italic span *)
  pose proof (sub_span "*" "" (fun g => "<em>" ++ g ++ "</em>") ("<m>" ++ x) y (z ++ "</m>"))
    as P3.
  rewrite !free_of_app, X2, Z2 in P3. specialize (P3 eq_refl eq_refl Ht Y2).
  cbn [append] in P2, P3. rewrite ?sapp_assoc in P2. rewrite ?sapp_assoc in P3. cbn [append] in P2, P3.
  rewrite P2, P3. clear P2 P3 D.
  (* no code span, no citation *)
  rewrite (sub_absent "`"%char "`")
    by (try reflexivity;
        repeat first [rewrite free_of_app | progress cbn [free_of mem_char]];
        rewrite X3, Y3, Z3; reflexivity).
  rewrite (sub_absent "["%char "[@")
    by (try reflexivity;
        repeat first [rewrite free_of_app | progress cbn [free_of mem_char]];
        rewrite X4, Y4, Z4; reflexivity).
  reflexivity.
Qed.

Lemma ch18_math_is_not_protected_witness :
  Ch18ExerciseConverter.convert_inline "$a*b*c$" = "<m>a<em>b</em>c</m>".
Proof.
  exact (ch18_math_is_not_protected "a" "b" "c" eq_refl eq_refl eq_refl eq_refl).
Defined.

Section Ch18Frame.
Import Ch18ExerciseConverter.

Lemma extends_refl c : extends c c.
Proof. exists []. now rewrite app_nil_r. Qed.

Lemma extends_trans c1 c2 c3 : extends c1 c2 -> extends c2 c3 -> extends c1 c3.
Proof.
  intros [m1 H1] [m2 H2]. exists (List.app m1 m2). now rewrite H2, H1, app_assoc.
Qed.

Lemma extends_add_line line c : extends c (add_line line 0 c).
Proof. now eexists. Qed.

Lemma extends_set_level n c : extends c (set_indent_level n c).
Proof. exists []. cbn [set_indent_level output]. now rewrite app_nil_r. Qed.

Lemma items_fold (f : string -> string) (ts : list string) (c : converter) :
  let c' := fold_left (fun c t => add_line (f t) 0 c) ts c in
  indent_level c' = indent_level c /\ extends c c'.
Proof.
  revert c; induction ts as [|t ts IH]; intros c; cbn [fold_left].
  - split; [reflexivity | apply extends_refl].
  - destruct (IH (add_line (f t) 0 c)) as [E X]. split; [exact E|].
    eapply extends_trans; [apply extends_add_line | exact X].
Qed.

Lemma convert_part_frame (in_list : bool) (c : converter) (part : string) :
  let st := convert_part (in_list, c) part in
  (indent_level (snd st) - list_depth (fst st) = indent_level c - list_depth in_list)%Z
  /\ extends c (snd st).
Proof.
  unfold convert_part.
  destruct (negb (truthy (strip part)) || String.eqb (strip part) "[Table data shown]").
  { split; [reflexivity | apply extends_refl]. }
  destruct (is_subquestion (strip part)).
  - cbn [fst snd].
    destruct (items_fold (fun item => "<li>" ++ convert_inline (strip item) ++ "</li>")
                (item_texts (strip part)) (open_list in_list c)) as [E X].
    cbv zeta in E, X. rewrite E. split.
    + destruct in_list; cbn [open_list list_depth set_indent_level add_line indent_level]; lia.
    + eapply extends_trans; [|exact X].
      destruct in_list; cbn [open_list]; [apply extends_refl|].
      eapply extends_trans; [apply extends_add_line | apply extends_set_level].
  - cbn [fst snd].
    assert (C : (indent_level (close_list in_list c) = indent_level c - list_depth in_list)%Z
                /\ extends c (close_list in_list c)).
    { destruct in_list; cbn [close_list list_depth set_indent_level add_line indent_level].
      - split; [lia|]. now eexists.
      - split; [lia | apply extends_refl]. }
    destruct C as [E X].
    destruct (truthy _); cbn [list_depth add_line indent_level]; split;
      try lia; try exact X.
    eapply extends_trans; [exact X | apply extends_add_line].
Qed.

Lemma convert_parts_frame (parts : list string) (in_list : bool) (c : converter) :
  let st := fold_left convert_part parts (in_list, c) in
  (indent_level (snd st) - list_depth (fst st) = indent_level c - list_depth in_list)%Z
  /\ extends c (snd st).
Proof.
  revert in_list c; induction parts as [|p parts IH]; intros in_list c; cbn [fold_left].
  - split; [reflexivity | apply extends_refl].
  - pose proof (convert_part_frame in_list c p) as [E X]. cbv zeta in E, X.
    destruct (convert_part (in_list, c) p) as [b c1]. cbn [fst snd] in E, X.
    destruct (IH b c1) as [E' X']. split; [lia|].
    eapply extends_trans; eassumption.
Qed.

Lemma statement_frame (parts : list string) (c : converter) :
  let st := fold_left convert_part parts (false, c) in
  let c' := close_list (fst st) (snd st) in
  indent_level c' = indent_level c /\ extends c c'.
Proof.
  cbv zeta. pose proof (convert_parts_frame parts false c) as [E X]. cbv zeta in E, X.
  destruct (fold_left convert_part parts (false, c)) as [b c1]. cbn [fst snd] in *.
  destruct b; cbn [close_list list_depth set_indent_level add_line indent_level] in *.
  - split; [lia|]. eapply extends_trans; [exact X | now eexists].
  - split; [lia | exact X].
Qed.

End Ch18Frame.

(** X25.  convert_exercise of convert_ch18_exercises.py frames what it
    writes: after the lines already there come an empty line and the opening
    tag at the caller's depth, the title and the opening of the statement one
    level deeper, the lines of the body, and the two closing tags at the
    depths of their opening tags; the indentation level is afterwards what it
    was before, whatever lists the body opened. *)
Theorem ch18_exercise_is_framed (title content : string)
    (c : Ch18ExerciseConverter.converter) :
  let n := Ch18ExerciseConverter.indent_level c in
  let c' := Ch18ExerciseConverter.convert_exercise title content c in
  Ch18ExerciseConverter.indent_level c' = n /\
  exists body,
    Ch18ExerciseConverter.output c'
    = List.app (Ch18ExerciseConverter.output c)
        (List.app
           [ indented n ""; indented n "<exercise>";
             indented (n + 1) ("<title>" ++ title ++ "</title>");
             indented (n + 1) "<statement>" ]
           (List.app body
              [ indented (n + 1) "</statement>"; indented n "</exercise>" ])).
Proof.
  cbv zeta. unfold Ch18ExerciseConverter.convert_exercise.
  match goal with
  | |- context [fold_left Ch18ExerciseConverter.convert_part ?ps (false, ?c0)] =>
      pose proof (statement_frame ps c0) as [E [more X]];
      destruct (fold_left Ch18ExerciseConverter.convert_part ps (false, c0)) as [b c1]
  end.
  cbn [fst snd] in E, X.
  set (c2 := Ch18ExerciseConverter.close_list b c1) in *. clearbody c2.
  cbn [Ch18ExerciseConverter.set_indent_level Ch18ExerciseConverter.add_line
       Ch18ExerciseConverter.output Ch18ExerciseConverter.indent_level
       Ch18ExerciseConverter.indent] in *.
  unfold Ch18ExerciseConverter.indent in *.
  cbn [Ch18ExerciseConverter.set_indent_level Ch18ExerciseConverter.add_line
       Ch18ExerciseConverter.output Ch18ExerciseConverter.indent_level] in *.
  split; [lia|]. exists more.
  rewrite X, E, ?Z.add_0_r. unfold indented.
  replace (Ch18ExerciseConverter.indent_level c + 1 + 1 - 1)%Z
    with (Ch18ExerciseConverter.indent_level c + 1)%Z by lia.
  replace (Ch18ExerciseConverter.indent_level c + 1 - 1)%Z
    with (Ch18ExerciseConverter.indent_level c) by lia.
  rewrite <- !app_assoc. cbn [List.app]. reflexivity.
Qed.

(** ** The tags of convert_qmd_to_ptx in convert_ch17_comprehensive.py *)

Section ComprehensiveLoop.
Import ConvertQmdToPtx.

Lemma adds_plain_refl st : adds_plain st st.
Proof. repeat split. exists []. now rewrite app_nil_r. Qed.

Lemma adds_plain_trans st1 st2 st3 :
  adds_plain st1 st2 -> adds_plain st2 st3 -> adds_plain st1 st3.
Proof.
  intros [[a1 [O1 P1]] [G1 [W1 [D1 I1]]]] [[a2 [O2 P2]] [G2 [W2 [D2 I2]]]].
  repeat split; try congruence.
  exists (List.app a1 a2). rewrite O2, O1, app_assoc, forallb_app, P1, P2. now split.
Qed.

Lemma adds_plain_emit ls st : forallb plain_line ls = true -> adds_plain st (emit ls st).
Proof. intros H. repeat split. now exists ls. Qed.

Lemma plain_code_lines (ls : list string) :
  forallb plain_line (map (fun code_line => "        " ++ Ch17Comprehensive.escape_xml code_line) ls)
  = true.
Proof. induction ls as [|l ls IH]; [reflexivity|]. cbn [map forallb]. now rewrite IH. Qed.

Lemma listing_plain st : adds_plain st (listing st).
Proof.
  unfold listing. destruct (code_block_lines st) eqn:E; [apply adds_plain_refl|].
  repeat split. eexists. split; [cbn [emit output]; rewrite <- !app_assoc; reflexivity|].
  rewrite !forallb_app, plain_code_lines. reflexivity.
Qed.

Lemma section_plain line st : adds_plain st (section line st).
Proof.
  unfold section.
  eapply adds_plain_trans with
    (st2 := if (0 <? current_section_level st)%nat then emit ["  </section>"; ""] st else st).
  - destruct (0 <? current_section_level st)%nat;
      [now apply adds_plain_emit | apply adds_plain_refl].
  - match goal with |- context [let '(_, _) := ?p in _] => destruct p as [id title] end.
    repeat split. eexists. split; [reflexivity|]. reflexivity.
Qed.

Lemma paragraph_plain line st : adds_plain st (paragraph line st).
Proof.
  unfold paragraph. destruct (truthy _); [|apply adds_plain_refl].
  apply adds_plain_emit.
  destruct (current_section_level st =? 2)%nat;
    destruct (in_guidedpractice st || in_workedexample st || in_data_box st || in_important st);
    reflexivity.
Qed.

Lemma close_introduction_plain ls st : adds_plain st (close_introduction ls st).
Proof.
  unfold close_introduction.
  eapply adds_plain_trans; [|now apply adds_plain_emit].
  destruct (truthy _); [now apply adds_plain_emit | apply adds_plain_refl].
Qed.

Lemma no_box_same st st' :
  in_guidedpractice st' = in_guidedpractice st ->
  in_workedexample st' = in_workedexample st ->
  in_data_box st' = in_data_box st ->
  in_important st' = in_important st ->
  no_box st' = no_box st.
Proof. unfold no_box. now intros -> -> -> ->. Qed.

Lemma adds_plain_no_box st st' : adds_plain st st' -> no_box st' = no_box st.
Proof. intros [_ [G [W [D I]]]]. now apply no_box_same. Qed.

Lemma plain_no_sub (ls : list string) :
  forallb plain_line ls = true -> forallb no_sub_tag ls = true.
Proof.
  induction ls as [|l ls IH]; [reflexivity|]. cbn [forallb]. intros H.
  apply andb_true_iff in H as [Hl H]. rewrite (IH H), andb_true_r.
  unfold plain_line in Hl. now apply andb_true_iff in Hl as [Hl _].
Qed.

Lemma adds_plain_no_sub st st' : adds_plain st st' -> adds_no_sub st st'.
Proof. intros [[a [O P]] _]. exists a. split; [exact O | now apply plain_no_sub]. Qed.

Lemma adds_no_sub_refl st : adds_no_sub st st.
Proof. exists []. now rewrite app_nil_r. Qed.

Lemma adds_no_sub_same st st' : output st' = output st -> adds_no_sub st st'.
Proof. intros H. exists []. now rewrite app_nil_r. Qed.

Lemma adds_no_sub_trans st1 st2 st3 :
  adds_no_sub st1 st2 -> adds_no_sub st2 st3 -> adds_no_sub st1 st3.
Proof.
  intros [a1 [O1 P1]] [a2 [O2 P2]]. exists (List.app a1 a2).
  rewrite O2, O1, app_assoc, forallb_app, P1, P2. now split.
Qed.

Lemma adds_no_sub_emit ls st : forallb no_sub_tag ls = true -> adds_no_sub st (emit ls st).
Proof. intros H. now exists ls. Qed.

Lemma count_app (p : string -> bool) (a b : list string) :
  count p (List.app a b) = count p a + count p b.
Proof. unfold count. now rewrite filter_app, List.length_app. Qed.

Lemma count_none (p : string -> bool) (ls : list string) :
  forallb (fun l => negb (p l)) ls = true -> count p ls = 0.
Proof.
  unfold count. induction ls as [|l ls IH]; [reflexivity|]. cbn [forallb filter].
  intros H. apply andb_true_iff in H as [Hl H]. apply negb_true_iff in Hl.
  rewrite Hl. now apply IH.
Qed.

Lemma no_sub_counts (ls : list string) :
  forallb no_sub_tag ls = true ->
  count opens_subsection ls = 0 /\ count closes_subsection ls = 0.
Proof.
  intros H. split; apply count_none; (induction ls as [|l ls IH]; [reflexivity|]);
    cbn [forallb] in *; apply andb_true_iff in H as [Hl H]; rewrite (IH H), andb_true_r;
    unfold no_sub_tag in Hl; apply andb_true_iff in Hl as [H1 H2]; assumption.
Qed.

Lemma adds_no_sub_counts st st' :
  adds_no_sub st st' ->
  count opens_subsection (output st') = count opens_subsection (output st)
  /\ count closes_subsection (output st') = count closes_subsection (output st).
Proof.
  intros [a [O P]]. rewrite O, !count_app. destruct (no_sub_counts a P) as [-> ->]. lia.
Qed.

Lemma accounted_same st st' k :
  adds_no_sub st st' -> current_section_level st' = current_section_level st ->
  accounted st k -> accounted st' k.
Proof.
  unfold accounted. intros A L H. destruct (adds_no_sub_counts st st' A) as [-> ->].
  now rewrite L.
Qed.

Lemma section_level line st : current_section_level (section line st) = 1.
Proof.
  unfold section.
  match goal with |- context [let '(_, _) := ?p in _] => destruct p as [id title] end.
  reflexivity.
Qed.

Lemma subsection_accounted line st k :
  accounted st k -> accounted (subsection line st) k.
Proof.
  unfold accounted, subsection.
  match goal with |- context [let '(_, _) := ?p in _] => destruct p as [id title] end.
  cbn [set_current_section_level current_section_level output emit Nat.eqb].
  rewrite !count_app.
  destruct (current_section_level st =? 2)%nat; cbn [emit output];
    rewrite ?count_app; intros ->; unfold count; cbn; lia.
Qed.

Lemma close_statement_no_sub tag st :
  closes_subsection ("    </" ++ tag ++ ">") = false ->
  adds_no_sub st (close_statement tag st)
  /\ current_section_level (close_statement tag st) = current_section_level st.
Proof.
  intros H. unfold close_statement. destruct (in_solution st).
  - split; [|reflexivity]. eexists. split; [cbn [emit output set_in_solution];
      rewrite <- app_assoc; reflexivity|].
    cbn [forallb List.app]. unfold no_sub_tag at 2. rewrite H. reflexivity.
  - split; [|reflexivity]. eexists. split; [cbn [emit output]; rewrite <- app_assoc; reflexivity|].
    cbn [forallb List.app]. unfold no_sub_tag at 2. rewrite H. reflexivity.
Qed.

Lemma close_box_no_sub st :
  adds_no_sub st (close_box st)
  /\ current_section_level (close_box st) = current_section_level st.
Proof.
  unfold close_box.
  destruct (in_guidedpractice st);
    [destruct (close_statement_no_sub "exercise" st eq_refl) as [A L]; split;
       [destruct A as [a [O P]]; now exists a | exact L]|].
  destruct (in_workedexample st);
    [destruct (close_statement_no_sub "example" st eq_refl) as [A L]; split;
       [destruct A as [a [O P]]; now exists a | exact L]|].
  destruct (in_data_box st); [split; [eexists; split; reflexivity | reflexivity]|].
  destruct (in_important st); [split; [eexists; split; reflexivity | reflexivity]|].
  split; [apply adds_no_sub_refl | reflexivity].
Qed.

Lemma open_solution_plain st : adds_plain st (open_solution st).
Proof.
  unfold open_solution.
  destruct (in_guidedpractice st || in_workedexample st); [|apply adds_plain_refl].
  destruct (negb (in_solution st)); [|apply adds_plain_refl].
  repeat split. now eexists.
Qed.

Lemma workedexample_no_sub line st :
  adds_no_sub st (workedexample line st)
  /\ current_section_level (workedexample line st) = current_section_level st.
Proof.
  unfold workedexample. split; [|reflexivity]. eexists. split; [reflexivity|].
  reflexivity.
Qed.

Lemma paragraph_level line st :
  current_section_level (paragraph line st) = current_section_level st.
Proof. unfold paragraph. now destruct (truthy _). Qed.

Lemma listing_level st : current_section_level (listing st) = current_section_level st.
Proof. unfold listing. now destruct (code_block_lines st). Qed.

Lemma open_solution_level st :
  current_section_level (open_solution st) = current_section_level st.
Proof.
  unfold open_solution.
  destruct (in_guidedpractice st || in_workedexample st); [|reflexivity].
  now destruct (negb (in_solution st)).
Qed.

Lemma step_accounted st line k :
  accounted st k ->
  accounted (step st line)
    (k + if meets_section st line && (current_section_level st =? 2)%nat then 1 else 0).
Proof.
  intros H. unfold meets_section, step.
  destruct (startswith (strip line) "```{r"); [cbn [negb andb]; now rewrite Nat.add_0_r|].
  destruct (in_code_block st) eqn:C; cbn [negb andb]; rewrite ?Nat.add_0_r.
  { destruct (String.eqb (strip line) "```"); [|exact H].
    apply accounted_same with (st := listing st);
      [now apply adds_no_sub_same | reflexivity|].
    apply accounted_same with (st := st);
      [apply adds_plain_no_sub, listing_plain | apply listing_level | exact H]. }
  destruct (startswith line "## "); cbn [andb].
  { unfold accounted in *. rewrite section_level. cbn [Nat.eqb].
    destruct (adds_no_sub_counts st (section line st)
                (adds_plain_no_sub _ _ (section_plain line st))) as [-> ->].
    rewrite H. destruct (current_section_level st =? 2)%nat; lia. }
  rewrite Nat.add_0_r.
  destruct (startswith line "### "); [now apply subsection_accounted|].
  destruct (_ || _).
  { apply accounted_same with (st := st);
      [eexists; split; reflexivity | reflexivity | exact H]. }
  destruct (_ || _).
  { destruct (workedexample_no_sub line st) as [A L].
    now apply accounted_same with (st := st). }
  destruct (_ || _).
  { apply accounted_same with (st := st);
      [eexists; split; reflexivity | reflexivity | exact H]. }
  destruct (_ || _).
  { apply accounted_same with (st := st);
      [eexists; split; reflexivity | reflexivity | exact H]. }
  destruct (_ || _).
  { destruct (close_box_no_sub st) as [A L]. now apply accounted_same with (st := st). }
  destruct (_ || _).
  { apply accounted_same with (st := st);
      [apply adds_plain_no_sub, open_solution_plain | apply open_solution_level | exact H]. }
  destruct (_ && _); [|exact H].
  apply accounted_same with (st := st);
    [apply adds_plain_no_sub, paragraph_plain | apply paragraph_level | exact H].
Qed.

Lemma loop_accounted (lines : list string) st k :
  accounted st k ->
  accounted (fold_left step lines st) (k + sections_in_subsection st lines).
Proof.
  revert st k; induction lines as [|l lines IH]; intros st k H; cbn [fold_left sections_in_subsection].
  - now rewrite Nat.add_0_r.
  - rewrite Nat.add_assoc. apply IH. now apply step_accounted.
Qed.

Lemma skip_header_plain (lines : list string) intro st :
  adds_plain st (fst (skip_header intro lines st))
  /\ current_section_level (fst (skip_header intro lines st)) = current_section_level st.
Proof.
  revert intro st; induction lines as [|l lines IH]; intros intro st; cbn [skip_header].
  - destruct intro; cbn [fst]; (split; [|try reflexivity]).
    + apply close_introduction_plain.
    + unfold close_introduction. now destruct (truthy _).
    + apply adds_plain_refl.
  - destruct intro as [il|].
    + destruct (contains l ":::").
      * destruct (IH None (close_introduction il st)) as [A L]. split.
        -- eapply adds_plain_trans; [apply close_introduction_plain | exact A].
        -- rewrite L. unfold close_introduction. now destruct (truthy _).
      * apply IH.
    + destruct (startswith (strip l) "## "); [split; [apply adds_plain_refl | reflexivity]|].
      destruct (contains l ":::{.chapterintro"); [|apply IH].
      destruct (IH (Some []) (emit ["  <introduction>"] st)) as [A L]. split; [|exact L].
      eapply adds_plain_trans; [|exact A]. now apply adds_plain_emit.
Qed.

End ComprehensiveLoop.

(** X26.  convert_qmd_to_ptx of convert_ch17_comprehensive.py does not close
    every subsection it opens.  In the list of output lines of any content,
    the lines that open a subsection are as many as the lines that close one
    plus the section headings that the main loop meets while a subsection is
    open: such a heading writes the end of the section only. *)
Theorem comprehensive_subsections_left_open (qmd_content : string) :
  let '(st, rest) :=
    ConvertQmdToPtx.skip_header None (split qmd_content nl) ConvertQmdToPtx.init in
  count opens_subsection (ConvertQmdToPtx.output_lines qmd_content)
  = count closes_subsection (ConvertQmdToPtx.output_lines qmd_content)
    + sections_in_subsection st rest.
Proof.
  unfold ConvertQmdToPtx.output_lines.
  pose proof (skip_header_plain (split qmd_content nl) None ConvertQmdToPtx.init) as [A L].
  destruct (ConvertQmdToPtx.skip_header None (split qmd_content nl) ConvertQmdToPtx.init)
    as [st rest]. cbn [fst] in A, L.
  assert (H0 : accounted st 0).
  { apply accounted_same with (st := ConvertQmdToPtx.init);
      [now apply adds_plain_no_sub | exact L | reflexivity]. }
  pose proof (loop_accounted rest st 0 H0) as H. cbn [Nat.add] in H.
  set (st' := fold_left ConvertQmdToPtx.step rest st) in *. clearbody st'.
  unfold accounted in H. unfold ConvertQmdToPtx.finish.
  destruct (ConvertQmdToPtx.current_section_level st' =? 2)%nat eqn:E.
  - apply Nat.eqb_eq in E.
    cbn [ConvertQmdToPtx.emit ConvertQmdToPtx.output ConvertQmdToPtx.current_section_level].
    rewrite E. cbn [Nat.leb ConvertQmdToPtx.emit ConvertQmdToPtx.output].
    rewrite !count_app, H.
    set (c := count closes_subsection (ConvertQmdToPtx.output st')). clearbody c.
    unfold count. cbn. lia.
  - cbn [ConvertQmdToPtx.emit ConvertQmdToPtx.output ConvertQmdToPtx.current_section_level].
    destruct (1 <=? ConvertQmdToPtx.current_section_level st')%nat;
      cbn [ConvertQmdToPtx.emit ConvertQmdToPtx.output];
      rewrite !count_app, H;
      set (c := count closes_subsection (ConvertQmdToPtx.output st')); clearbody c;
      unfold count; cbn; lia.
Qed.

Section ComprehensiveBoxes.
Import ConvertQmdToPtx.

Lemma plain_no_box_tag (ls : list string) :
  forallb plain_line ls = true -> no_box_tag ls = true.
Proof.
  unfold no_box_tag. induction ls as [|l ls IH]; [reflexivity|]. cbn [forallb]. intros H.
  apply andb_true_iff in H as [Hl H]. rewrite (IH H), andb_true_r.
  unfold plain_line in Hl. now apply andb_true_iff in Hl as [_ Hl].
Qed.

Lemma boxless_plain st st' : adds_plain st st' -> boxless st -> boxless st'.
Proof.
  intros A [B T]. split; [now rewrite (adds_plain_no_box st st' A)|].
  destruct A as [[a [O P]] _]. rewrite O. pose proof (plain_no_box_tag a P) as Q.
  unfold no_box_tag in *. now rewrite forallb_app, T, Q.
Qed.

Lemma boxless_same st st' :
  output st' = output st -> no_box st' = no_box st -> boxless st -> boxless st'.
Proof. intros O B [H1 H2]. split; congruence. Qed.

Lemma subsection_boxless line st : boxless st -> boxless (subsection line st).
Proof.
  intros [B T]. unfold subsection.
  match goal with |- context [let '(_, _) := ?p in _] => destruct p as [id title] end.
  split; [destruct (current_section_level st =? 2)%nat; exact B|].
  unfold no_box_tag in *.
  destruct (current_section_level st =? 2)%nat;
    cbn [set_current_section_level emit output]; rewrite !forallb_app, T; reflexivity.
Qed.

Lemma close_box_boxless st : no_box st = true -> close_box st = st.
Proof.
  unfold no_box, close_box. intros H. apply negb_true_iff in H.
  apply orb_false_iff in H as [H I]. apply orb_false_iff in H as [H D].
  apply orb_false_iff in H as [G W]. now rewrite G, W, D, I.
Qed.

Lemma step_boxless st line :
  is_box_opener line = false -> boxless st -> boxless (step st line).
Proof.
  unfold is_box_opener. intros N H.
  repeat match type of N with _ || _ = false => apply orb_false_iff in N as [N ?] end.
  unfold step.
  destruct (startswith (strip line) "```{r"); [now apply (boxless_same st)|].
  destruct (in_code_block st).
  { destruct (String.eqb (strip line) "```"); [|now apply (boxless_same st)].
    apply (boxless_same (listing st)); [reflexivity | reflexivity|].
    apply (boxless_plain st); [apply listing_plain | exact H]. }
  destruct (startswith line "## "); [apply (boxless_plain st); [apply section_plain | exact H]|].
  destruct (startswith line "### "); [now apply subsection_boxless|].
  repeat match goal with H : contains line _ = false |- _ => rewrite H; clear H end.
  cbn [orb].
  destruct (_ || _); [destruct H as [B T]; now rewrite close_box_boxless|].
  destruct (_ || _); [apply (boxless_plain st); [apply open_solution_plain | exact H]|].
  destruct (_ && _); [|exact H].
  apply (boxless_plain st); [apply paragraph_plain | exact H].
Qed.

Lemma loop_boxless (lines : list string) st :
  forallb (fun l => negb (is_box_opener l)) lines = true ->
  boxless st -> boxless (fold_left step lines st).
Proof.
  revert st; induction lines as [|l lines IH]; intros st N H; [exact H|].
  cbn [forallb] in N. apply andb_true_iff in N as [Nl N]. apply negb_true_iff in Nl.
  cbn [fold_left]. apply IH; [exact N|]. now apply step_boxless.
Qed.

Lemma skip_header_suffix (lines : list string) intro st :
  exists passed, lines = List.app passed (snd (skip_header intro lines st)).
Proof.
  revert intro st; induction lines as [|l lines IH]; intros intro st; cbn [skip_header].
  - exists []. now destruct intro.
  - destruct intro as [il|].
    + destruct (contains l ":::");
        [destruct (IH None (close_introduction il st)) as [p E]
        |destruct (IH (Some (List.app il [l])) st) as [p E]];
        exists (l :: p); cbn [List.app]; now rewrite <- E.
    + destruct (startswith (strip l) "## "); [now exists []|].
      destruct (contains l ":::{.chapterintro");
        [destruct (IH (Some []) (emit ["  <introduction>"] st)) as [p E]
        |destruct (IH None st) as [p E]];
        exists (l :: p); cbn [List.app]; now rewrite <- E.
Qed.

End ComprehensiveBoxes.

(** X27.  convert_qmd_to_ptx of convert_ch17_comprehensive.py knows a box by
    its fence written without a blank only.  When no line of the content
    holds one of the eight texts the main loop looks for (three colons
    directly followed by the class, with or without brace and dot), the
    output holds no opening and no closing tag of an exercise, an example, a
    note or an assemblage; the fence with a blank after the colons opens
    nothing. *)
Theorem comprehensive_boxes_need_unspaced_fence (qmd_content : string) :
  forallb (fun l => negb (is_box_opener l)) (split qmd_content nl) = true ->
  no_box_tag (ConvertQmdToPtx.output_lines qmd_content) = true.
Proof.
  intros N. unfold ConvertQmdToPtx.output_lines.
  pose proof (skip_header_plain (split qmd_content nl) None ConvertQmdToPtx.init) as [A _].
  destruct (skip_header_suffix (split qmd_content nl) None ConvertQmdToPtx.init) as [p E].
  destruct (ConvertQmdToPtx.skip_header None (split qmd_content nl) ConvertQmdToPtx.init)
    as [st rest]. cbn [fst snd] in A, E.
  rewrite E, forallb_app in N. apply andb_true_iff in N as [_ N].
  assert (H : boxless (fold_left ConvertQmdToPtx.step rest st)).
  { apply loop_boxless; [exact N|]. apply (boxless_plain ConvertQmdToPtx.init); [exact A|].
    split; reflexivity. }
  destruct H as [_ T]. set (st' := fold_left ConvertQmdToPtx.step rest st) in *.
  clearbody st'. unfold ConvertQmdToPtx.finish, no_box_tag in *.
  destruct (ConvertQmdToPtx.current_section_level st' =? 2)%nat;
    cbn [ConvertQmdToPtx.emit ConvertQmdToPtx.output ConvertQmdToPtx.current_section_level];
    destruct (1 <=? ConvertQmdToPtx.current_section_level st')%nat;
    cbn [ConvertQmdToPtx.emit ConvertQmdToPtx.output];
    rewrite !forallb_app, T; reflexivity.
Qed.

Lemma comprehensive_boxes_need_unspaced_fence_witness :
  no_box_tag
    (ConvertQmdToPtx.output_lines
       ("## Tests" ++ nl ++ "::: {.guidedpractice}" ++ nl ++ "Is it so?" ++ nl ++ ":::"))
  = true.
Proof.
  apply (comprehensive_boxes_need_unspaced_fence
           ("## Tests" ++ nl ++ "::: {.guidedpractice}" ++ nl ++ "Is it so?" ++ nl ++ ":::")).
  reflexivity.
Defined.

(** ** The exercises of convert_ch22_exercises.py *)

Section Ch22Lists.
Import QmdExerciseToPreTeXt.

Lemma fold_items (ts : list string) (output : list string) :
  fold_left
    (fun output subq =>
       let output := add_line "<li>" 4 output in
       let text := convert_inline (strip subq) in
       let output := add_line ("<p>" ++ text ++ "</p>") 5 output in
       add_line "</li>" 4 output) ts output
  = List.app output (flat_map item_lines ts).
Proof.
  revert output; induction ts as [|t ts IH]; intros output; cbn [fold_left flat_map].
  - now rewrite app_nil_r.
  - rewrite IH. unfold add_line, item_lines. cbn [QmdToPreTeXtConverter.spaces append].
    rewrite <- !app_assoc. reflexivity.
Qed.

End Ch22Lists.

(** X28.  process_exercise_content of convert_ch22_exercises.py loses the
    first sub-question of a list as convert_ch18_exercises.py does: for an
    ASCII paragraph that starts with a lower-case letter, a full stop and a
    blank, the other sub-questions on lines of their own, the turn of the
    loop opens the list if it was not open and writes the three lines of an
    item for each sub-question but the first. *)
Theorem ch22_first_subquestion_is_dropped
    (a : ascii) (q : string) (items : list (ascii * string))
    (ex_num : nat) (paragraphs : list string) (in_list : bool) (output : list string) :
  is_ascii (list_paragraph a q items) = true ->
  is_lower a = true -> free_of nl q = true -> forallb is_item items = true ->
  contains (list_paragraph a q items) "__FIGURE" = false ->
  QmdExerciseToPreTeXt.paragraph_step ex_num paragraphs (in_list, output)
    (list_paragraph a q items)
  = (true,
     List.app
       (if in_list then output
        else List.app output ["      <p><ol marker=" ++ dq ++ "a." ++ dq ++ ">"])
       (flat_map item_lines (map snd items))).
Proof.
  intros _ Ha Hq Hi Hf. unfold QmdExerciseToPreTeXt.paragraph_step.
  rewrite Hf, is_subquestion_paragraph by exact Ha.
  rewrite item_texts_paragraph by assumption.
  assert (E : String.eqb (list_paragraph a q items) "\vfill"
              || String.eqb (list_paragraph a q items) "\clearpage" = false).
  { unfold list_paragraph. cbn [append String.eqb].
    destruct a as [[] [] [] [] [] [] [] []]; vm_compute in Ha |- *; congruence. }
  rewrite E, fold_items. destruct in_list; reflexivity.
Qed.

Lemma ch22_first_subquestion_is_dropped_witness :
  QmdExerciseToPreTeXt.paragraph_step 1 [] (false, [])
    ("a. Is it large?" ++ nl ++ "b. Is it small?" ++ nl ++ "c. Why?")
  = (true,
     [ "      <p><ol marker=" ++ dq ++ "a." ++ dq ++ ">";
       "        <li>"; "          <p>Is it small?</p>"; "        </li>";
       "        <li>"; "          <p>Why?</p>"; "        </li>" ]).
Proof.
  exact (ch22_first_subquestion_is_dropped
           "a" "Is it large?" [("b"%char, "Is it small?"); ("c"%char, "Why?")]
           1 [] false [] eq_refl eq_refl eq_refl eq_refl eq_refl).
Defined.

Section Ch22Balance.
Import QmdExerciseToPreTeXt.

Lemma balanced_add (output : list string) (in_list in_list' : bool) (out : list string)
    (more : list string) :
  balanced output (in_list, out) ->
  count opens_list more + (if in_list then 1 else 0)
  = count closes_list more + (if in_list' then 1 else 0) ->
  balanced output (in_list', List.app out more).
Proof.
  intros [added [O C]] H. cbn [fst snd] in *. exists (List.app added more).
  cbn [fst snd]. split; [now rewrite O, app_assoc|]. rewrite !count_app. lia.
Qed.

Lemma paragraph_is_no_opening (text : string) :
  opens_list ("      <p>" ++ text ++ "</p>") = false.
Proof.
  unfold opens_list, dq. apply String.eqb_neq. cbn [append]. intros H.
  repeat match type of H with String ?c _ = String ?c _ => injection H as H end.
  repeat (destruct text as [|? text]; cbn [append] in H; [discriminate H | injection H as _ H]).
  destruct text; discriminate H.
Qed.

Lemma paragraph_counts (text : string) :
  count opens_list [QmdToPreTeXtConverter.spaces 3 ++ "<p>" ++ text ++ "</p>"] = 0
  /\ count closes_list [QmdToPreTeXtConverter.spaces 3 ++ "<p>" ++ text ++ "</p>"] = 0.
Proof.
  unfold count. cbn [filter].
  change (QmdToPreTeXtConverter.spaces 3 ++ "<p>" ++ text ++ "</p>")
    with ("      <p>" ++ text ++ "</p>").
  rewrite paragraph_is_no_opening. split; reflexivity.
Qed.

Lemma items_no_tags (ts : list string) :
  count opens_list (flat_map item_lines ts) = 0
  /\ count closes_list (flat_map item_lines ts) = 0.
Proof.
  induction ts as [|t ts [IH1 IH2]]; [split; reflexivity|].
  cbn [flat_map]. rewrite !count_app, IH1, IH2. split; reflexivity.
Qed.

Lemma figure_no_tags (ex_num fig_num : nat) (out : list string) :
  exists more,
    add_figure_reference ex_num fig_num 3 out = List.app out more
    /\ count opens_list more = 0 /\ count closes_list more = 0.
Proof.
  unfold add_figure_reference. destruct (figure_map ex_num) as [ref|].
  - eexists. split; [unfold add_line; rewrite <- !app_assoc; reflexivity|].
    split; reflexivity.
  - exists []. now rewrite app_nil_r.
Qed.

Lemma paragraph_step_balanced (output : list string) (ex_num : nat)
    (paragraphs : list string) (st : bool * list string) (para : string) :
  balanced output st -> balanced output (paragraph_step ex_num paragraphs st para).
Proof.
  destruct st as [in_list out]. intros H. unfold paragraph_step.
  destruct (_ || _); [exact H|].
  destruct (contains para "__FIGURE").
  { destruct (figure_no_tags ex_num
                (List.length (filter (fun p => contains p "__FIGURE")
                                (firstn (index para paragraphs) paragraphs)) + 1) out)
      as [more [-> [Co Cc]]].
    apply (balanced_add output in_list); [exact H | lia]. }
  destruct (Ch18ExerciseConverter.is_subquestion para).
  - rewrite fold_items. destruct (items_no_tags (Ch18ExerciseConverter.item_texts para))
      as [Io Ic].
    destruct in_list.
    + apply (balanced_add output true); [exact H | lia].
    + unfold add_line. rewrite <- app_assoc.
      apply (balanced_add output false); [exact H|].
      rewrite !count_app, Io, Ic. reflexivity.
  - pose proof (paragraph_counts (convert_inline (strip para))) as [Po Pc].
    destruct (truthy (convert_inline (strip para))); destruct in_list; unfold add_line;
      rewrite <- ?app_assoc; try exact H.
    + apply (balanced_add output true); [exact H|].
      rewrite !count_app, Po, Pc. reflexivity.
    + apply (balanced_add output false); [exact H|]. rewrite Po, Pc. reflexivity.
    + apply (balanced_add output true); [exact H | reflexivity].
Qed.

Lemma paragraphs_balanced (output : list string) (ex_num : nat)
    (paragraphs ps : list string) (st : bool * list string) :
  balanced output st -> balanced output (fold_left (paragraph_step ex_num paragraphs) ps st).
Proof.
  revert st; induction ps as [|p ps IH]; intros st H; [exact H|].
  cbn [fold_left]. apply IH. now apply paragraph_step_balanced.
Qed.

End Ch22Balance.

(** X29.  process_exercise_content of convert_ch22_exercises.py closes every
    list it opens: whatever the content and the number of the exercise, it
    only adds lines to the output, and among them the openings of a list are
    as many as the closings. *)
Theorem ch22_lists_are_closed (content : string) (ex_num : nat) (output : list string) :
  exists added,
    QmdExerciseToPreTeXt.process_exercise_content content ex_num output
    = List.app output added
    /\ count opens_list added = count closes_list added.
Proof.
  unfold QmdExerciseToPreTeXt.process_exercise_content.
  match goal with
  | |- context [fold_left (QmdExerciseToPreTeXt.paragraph_step _ ?ps) ?ps (false, output)] =>
      pose proof (paragraphs_balanced output ex_num ps ps (false, output)) as H
  end.
  match type of H with ?A -> _ => assert (H0 : A) end.
  { exists []. cbn [fst snd]. now rewrite app_nil_r. }
  specialize (H H0). clear H0.
  destruct (fold_left _ _ _) as [in_list out]. destruct H as [added [O C]].
  cbn [fst snd] in O, C. subst out. destruct in_list.
  - exists (List.app added ["      </ol></p>"]). unfold QmdExerciseToPreTeXt.add_line.
    rewrite <- app_assoc. split; [reflexivity|]. rewrite !count_app, C.
    change (count opens_list ["      </ol></p>"]) with 0.
    change (count closes_list ["      </ol></p>"]) with 1. lia.
  - exists added. split; [reflexivity | lia].
Qed.

Section Ch22Inline.
Import PyRe QmdExerciseToPreTeXt.

Lemma store_math_span (m : string) :
  truthy m = true -> free_of "$" m = true ->
  store [Lit "$"; Run (not_char "$"); Lit "$"] "MATH" (fun g => g) ("$" ++ m ++ "$")
  = ("__MATH0__", [m]).
Proof.
  intros Ht Hm. unfold store.
  pose proof (scan_span "$" "" "" m "" eq_refl eq_refl Ht Hm) as S.
  cbn [append] in S. rewrite ?sapp_nil_r in S. cbn [append]. rewrite S.
  rewrite render_span, groups_span. reflexivity.
Qed.

Lemma replace_all (a : ascii) (old new : string) :
  replace (String a old) (String a old) new = new.
Proof.
  pose proof (replace_once a old new "" "" eq_refl eq_refl) as H.
  cbn [append] in H. now rewrite !sapp_nil_r in H.
Qed.

Lemma free_of_pick (cs s : string) (a : ascii) :
  mem_char cs a = true -> free_of cs s = true -> free_of (String a "") s = true.
Proof. apply free_of_one. Qed.

End Ch22Inline.

(** X30.  convert_inline of convert_ch22_exercises.py keeps a formula away
    from the passes on the markup, but not from the pass on dashes, which
    runs after the formulas are put back: three hyphens inside a formula
    become an mdash element inside the m element. *)
Theorem ch22_dashes_are_rewritten_inside_math (x z : string) :
  free_of "$-_" x = true -> free_of "$-_" z = true ->
  QmdExerciseToPreTeXt.convert_inline ("$" ++ x ++ "---" ++ z ++ "$")
  = "<m>" ++ x ++ "<mdash/>" ++ z ++ "</m>".
Proof.
  intros Hx Hz.
  pose proof (free_of_pick "$-_" _ "$"%char eq_refl Hx) as X1.
  pose proof (free_of_pick "$-_" _ "-"%char eq_refl Hx) as X2.
  pose proof (free_of_pick "$-_" _ "_"%char eq_refl Hx) as X3.
  pose proof (free_of_pick "$-_" _ "$"%char eq_refl Hz) as Z1.
  pose proof (free_of_pick "$-_" _ "-"%char eq_refl Hz) as Z2.
  pose proof (free_of_pick "$-_" _ "_"%char eq_refl Hz) as Z3.
  assert (M : free_of "$" (x ++ "---" ++ z) = true)
    by (rewrite !free_of_app, X1, Z1; reflexivity).
  assert (T : truthy (x ++ "---" ++ z) = true) by (destruct x; reflexivity).
  unfold QmdExerciseToPreTeXt.convert_inline.
  change (negb (truthy ("$" ++ x ++ "---" ++ z ++ "$"))) with false. cbv iota.
  replace ("$" ++ x ++ "---" ++ z ++ "$") with ("$" ++ (x ++ "---" ++ z) ++ "$")
    by (now rewrite !sapp_assoc).
  rewrite (store_math_span _ T M).
  change (QmdExerciseToPreTeXt.store
            [PyRe.Lit "`"; PyRe.Run (PyRe.not_char "`"); PyRe.Lit "`"] "CODE"
            (fun g => g) "__MATH0__")
    with ("__MATH0__", @nil string).
  cbv iota beta.
  match goal with
  | |- context [QmdExerciseToPreTeXt.store ?p "CITE" ?f "__MATH0__"] =>
      change (QmdExerciseToPreTeXt.store p "CITE" f "__MATH0__")
        with ("__MATH0__", @nil string)
  end.
  cbv iota beta.
  repeat match goal with
         | |- context [PyRe.sub ?p ?f "__MATH0__"] =>
             change (PyRe.sub p f "__MATH0__") with "__MATH0__"
         end.
  cbn [QmdExerciseToPreTeXt.restore].
  change (QmdExerciseToPreTeXt.placeholder "MATH" 0) with "__MATH0__".
  rewrite replace_all.
  replace ("<m>" ++ (x ++ "---" ++ z) ++ "</m>")
    with (("<m>" ++ x) ++ "---" ++ (z ++ "</m>")) by (now rewrite !sapp_assoc).
  rewrite (replace_once "-" "--" "<mdash/>")
    by (rewrite ?free_of_app, ?X2, ?Z2; reflexivity).
  unfold replace. rewrite replace_from_absent; [now rewrite !sapp_assoc|].
  rewrite !free_of_app, X3, Z3. reflexivity.
Qed.

Lemma ch22_dashes_are_rewritten_inside_math_witness :
  QmdExerciseToPreTeXt.convert_inline "$a---b$" = "<m>a<mdash/>b</m>".
Proof.
  exact (ch22_dashes_are_rewritten_inside_math "a" "b" eq_refl eq_refl).
Defined.

(** ** Headings and chunks in the loop of convert_ch19.py *)

Section SplitFacts.

Lemma free_of_sub (cs s : string) (a : ascii) :
  mem_char cs a = true -> free_of cs s = true -> free_of (String a "") s = true.
Proof. apply free_of_one. Qed.

Lemma split_from_none (sep cur s : string) :
  truthy sep = true -> contains s sep = false ->
  split_from sep 0 cur s = [cur ++ s].
Proof.
  intros Ht. revert cur; induction s as [|c s IH]; intros cur H.
  - cbn. now rewrite sapp_nil_r.
  - cbn [contains] in H. apply orb_false_iff in H as [H1 H2].
    cbn [split_from]. rewrite H1, (IH _ H2), sapp_assoc. reflexivity.
Qed.

Lemma split_from_skip (sep cur x y : string) :
  split_from sep (String.length x) cur (x ++ y) = split_from sep 0 cur y.
Proof. induction x as [|c x IH]; [now destruct y|exact IH]. Qed.

(** The only occurrence of a separator whose first character is not found
    before it. *)
Lemma split_once (a : ascii) (sep pre post : string) :
  free_of (String a "") pre = true -> contains post (String a sep) = false ->
  split (pre ++ String a sep ++ post) (String a sep) = [pre; post].
Proof.
  intros Hpre Hpost. unfold split.
  assert (G : forall cur,
             split_from (String a sep) 0 cur (pre ++ String a sep ++ post)
             = [cur ++ pre; post]).
  { induction pre as [|c pre IH]; intros cur.
    - cbn [append]. cbn [split_from].
      assert (S : startswith (String a (sep ++ post)) (String a sep) = true).
      { change (String a (sep ++ post)) with (String a sep ++ post). apply startswith_app. }
      rewrite S, sapp_nil_r. f_equal.
      replace (String.length (String a sep) - 1) with (String.length sep)
        by (cbn [String.length]; lia).
      rewrite split_from_skip. now apply split_from_none.
    - apply free_of_head in Hpre as [Hc Hp]. cbn [append]. cbn [split_from startswith].
      rewrite Hc. cbn [andb]. rewrite (IH Hp), sapp_assoc. reflexivity. }
  apply G.
Qed.

Lemma replace_from_none (old new s : string) :
  contains s old = false -> replace_from old new 0 s = s.
Proof.
  induction s as [|c s IH]; intros H; [reflexivity|].
  cbn [contains] in H. apply orb_false_iff in H as [H1 H2].
  cbn [replace_from]. now rewrite H1, (IH H2).
Qed.

Lemma all_chars_free (p : ascii -> bool) (a : ascii) (s : string) :
  p a = false -> all_chars p s = true -> free_of (String a "") s = true.
Proof.
  intros Ha. induction s as [|c s IH]; [reflexivity|]. cbn [all_chars free_of mem_char].
  intros H. apply andb_true_iff in H as [Hc H]. rewrite (IH H), andb_true_r, orb_false_r.
  destruct (Ascii.eqb a c) eqn:E; [|reflexivity].
  apply Ascii.eqb_eq in E. subst c. congruence.
Qed.

Lemma startswith_app_nl (t p : string) :
  nl_free p = true -> startswith t p = false -> startswith (with_nl t) p = false.
Proof.
  intros Hp H. destruct (startswith (with_nl t) p) eqn:E; [|reflexivity].
  unfold with_nl, nl in E. apply startswith_before_nl in E; congruence.
Qed.

Lemma contains_app_nl_none (t p : string) :
  nl_free p = true -> truthy p = true -> contains t p = false ->
  contains (with_nl t) p = false.
Proof.
  intros Hp Ht H. destruct (contains (with_nl t) p) eqn:E; [|reflexivity].
  unfold with_nl, nl in E. apply contains_app_nl in E as [E|E]; try assumption.
  - congruence.
  - destruct p; discriminate.
Qed.

Lemma rstrip_with_nl (t : string) : rstrip (with_nl t) = rstrip t.
Proof. unfold rstrip, with_nl, nl. now apply rstrip_by_more. Qed.

Lemma strip_with_nl (t : string) : strip (with_nl t) = strip t.
Proof. unfold strip, with_nl, nl. now apply strip_by_more. Qed.

End SplitFacts.

Section Ch19Heading.
Import Ch19.

Variables title id : string.
Hypothesis Htitle : free_of "#{:_`" title = true.
Hypothesis Hid : free_of "#{}:_`" id = true.

Let T (a : ascii) (H : mem_char "#{:_`" a = true) : free_of (String a "") title = true :=
  free_of_one "#{:_`" title a H Htitle.
Let I (a : ascii) (H : mem_char "#{}:_`" a = true) : free_of (String a "") id = true :=
  free_of_one "#{}:_`" id a H Hid.

Lemma heading_free (a : ascii) :
  free_of (String a "") title = true -> free_of (String a "") id = true ->
  mem_char "## {#}" a = false ->
  free_of (String a "") (heading_line title id) = true.
Proof.
  intros Ha Hb Hc. unfold heading_line. rewrite !free_of_app, Ha, Hb.
  cbn [mem_char] in Hc. repeat (apply orb_false_iff in Hc as [? Hc]).
  cbn [free_of mem_char].
  repeat match goal with
         | H : Ascii.eqb ?x a = false |- _ =>
             rewrite Ascii.eqb_sym in H; rewrite ?H; clear H
         end.
  reflexivity.
Qed.

Lemma heading_rstrip : rstrip (with_nl (heading_line title id)) = heading_line title id.
Proof.
  rewrite rstrip_with_nl. unfold rstrip, heading_line.
  replace ("## " ++ title ++ " {#" ++ id ++ "}")
    with (("## " ++ title ++ " {#" ++ id) ++ "}") by now rewrite !sapp_assoc.
  now apply rstrip_by_last.
Qed.

Lemma heading_tail_no_marker : contains (title ++ " {#" ++ id ++ "}") "## " = false.
Proof.
  replace (title ++ " {#" ++ id ++ "}") with ((title ++ " {") ++ String "#" (id ++ "}"))
    by now rewrite !sapp_assoc.
  rewrite contains_after_free by (rewrite free_of_app, (T "#"%char eq_refl); reflexivity).
  assert (F : free_of "#" (id ++ "}") = true)
    by (rewrite free_of_app, (I "#"%char eq_refl); reflexivity).
  cbn [contains]. 
  change (startswith (String "#" (id ++ "}")) "## ") with (startswith (id ++ "}") "# ").
  rewrite (startswith_absent "#"%char "# " eq_refl _ F).
  now rewrite (contains_absent "#"%char "## " _ eq_refl F).
Qed.

Lemma heading_split :
  split (title ++ " {#" ++ id ++ "}") "{#" = [title ++ " "; id ++ "}"].
Proof.
  replace (title ++ " {#" ++ id ++ "}") with ((title ++ " ") ++ "{#" ++ (id ++ "}"))
    by now rewrite !sapp_assoc.
  apply split_once.
  - rewrite free_of_app, (T "{"%char eq_refl). reflexivity.
  - apply (contains_absent "{"%char); [reflexivity|].
    rewrite free_of_app, (I "{"%char eq_refl). reflexivity.
Qed.

Lemma heading_split_whole :
  split (heading_line title id) "{#" = ["## " ++ title ++ " "; id ++ "}"].
Proof.
  unfold heading_line.
  replace ("## " ++ title ++ " {#" ++ id ++ "}") with (("## " ++ title ++ " ") ++ "{#" ++ (id ++ "}"))
    by now rewrite !sapp_assoc.
  apply split_once.
  - rewrite !free_of_app, (T "{"%char eq_refl). reflexivity.
  - apply (contains_absent "{"%char); [reflexivity|].
    rewrite free_of_app, (I "{"%char eq_refl). reflexivity.
Qed.

Lemma heading_id_read : heading_id (heading_line title id) = id.
Proof.
  unfold heading_id.
  assert (C : contains (heading_line title id) "{#" = true).
  { unfold heading_line.
    replace ("## " ++ title ++ " {#" ++ id ++ "}")
      with (("## " ++ title ++ " ") ++ ("{#" ++ id ++ "}")) by now rewrite !sapp_assoc.
    apply contains_app_r, contains_here. reflexivity. }
  rewrite C, heading_split_whole. cbn [part nth].
  rewrite rstrip_by_delim. apply rstrip_by_free, (I "}"%char eq_refl).
Qed.

Lemma replace_leading_marker (rest : string) :
  contains rest "## " = false -> replace ("## " ++ rest) "## " "" = rest.
Proof.
  intros H. unfold replace. cbn [append replace_from startswith].
  rewrite !Ascii.eqb_refl. cbn [andb String.length Nat.sub append].
  now apply replace_from_none.
Qed.

Lemma heading_title_read : heading_title "## " (heading_line title id) = strip title.
Proof.
  unfold heading_title, heading_line.
  rewrite replace_leading_marker by apply heading_tail_no_marker.
  rewrite heading_split. cbn [part nth]. unfold strip. now apply strip_by_more.
Qed.

Lemma heading_step (lines : list string) (st : state) :
  line_at lines (i st) = with_nl (heading_line title id) ->
  step lines st = section_heading (heading_line title id) st.
Proof.
  intros Hl. unfold step. rewrite Hl, heading_rstrip.
  rewrite (contains_absent ":"%char "output:")
    by (try reflexivity; apply heading_free; (reflexivity || now apply T || now apply I)).
  rewrite (contains_absent "_"%char "editor_options")
    by (try reflexivity; apply heading_free; (reflexivity || now apply T || now apply I)).
  rewrite (contains_absent "_"%char "chunk_output_type")
    by (try reflexivity; apply heading_free; (reflexivity || now apply T || now apply I)).
  rewrite (contains_absent "`"%char "```{r}")
    by (try reflexivity; apply heading_free; (reflexivity || now apply T || now apply I)).
  change (startswith (heading_line title id) "---") with false.
  change (startswith (heading_line title id) "# Inference for a single mean") with false.
  change (startswith (heading_line title id) "## ") with true.
  change (startswith (heading_line title id) "### ") with false.
  cbn [orb andb negb]. now rewrite andb_false_r.
Qed.

End Ch19Heading.

(** C4, amended.  convert_ch19.py keeps no record of the identifiers it has
    written.  In every state of the loop, whatever was written before, the
    turn at a heading line [## title {#id}] writes the closers of the open
    levels, the section tag with the identifier of the line and the title
    stripped, and goes on with the next line: nothing is checked and nothing
    fails, so a second heading with an identifier already used is written
    with it again.  The title is ASCII, title and identifier hold none of the
    characters # { : _ and backquote, the identifier is not empty and holds
    no closing brace, and the heading is none of the four that the script
    treats apart. *)
Theorem ch19_repeated_id_is_written_again
    (lines : list string) (st : Ch19.state) (title id : string) :
  is_ascii title = true -> free_of "#{:_`" title = true ->
  truthy id = true -> free_of "#{}:_`" id = true ->
  is_generic_heading (heading_line title id) = true ->
  line_at lines (Ch19.i st) = with_nl (heading_line title id) ->
  Ch19.output (Ch19.step lines st)
  = List.app (Ch19.output st)
      (List.app (ch19_closers st)
         [ nl ++ "  <section xml:id=" ++ dq ++ id ++ dq ++ ">" ++ nl;
           "    <title>" ++ strip title ++ "</title>" ++ nl ])
  /\ Ch19.i (Ch19.step lines st) = S (Ch19.i st)
  /\ Ch19.stopped (Ch19.step lines st) = Ch19.stopped st.
Proof.
  intros _ Ht Hi Hid Hg Hl.
  pose proof (heading_step title id Ht Hid lines st Hl) as E.
  rewrite E. unfold is_generic_heading in Hg.
  apply andb_true_iff in Hg as [Hg H4]. apply andb_true_iff in Hg as [Hg H3].
  apply andb_true_iff in Hg as [H1 H2]. apply negb_true_iff in H1, H2, H3, H4.
  unfold Ch19.section_heading, ch19_closers. cbv zeta. rewrite H1, H2, H3, H4.
  rewrite (heading_id_read title id Ht Hid), (heading_title_read title id Ht Hid).
  unfold Ch19.open_tag. rewrite Hi.
  replace (nl ++ "  " ++ ("<" ++ "section" ++ " xml:id=" ++ dq ++ id ++ dq ++ ">") ++ nl)
    with (nl ++ "  <section xml:id=" ++ dq ++ id ++ dq ++ ">" ++ nl)
    by (cbn [append]; now rewrite !sapp_assoc).
  destruct (Ch19.in_intro st);
    destruct (Nat.eqb (Ch19.section_level st) 2) eqn:L2;
    cbn [Ch19.emit Ch19.set_in_intro Ch19.set_section_level Ch19.next Ch19.set_i
         Ch19.output Ch19.i Ch19.stopped Ch19.section_level Ch19.in_intro];
    rewrite ?L2;
    try destruct (Nat.eqb (Ch19.section_level st) 1);
    cbn [Ch19.emit Ch19.set_in_intro Ch19.set_section_level Ch19.next Ch19.set_i
         Ch19.output Ch19.i Ch19.stopped Ch19.section_level Ch19.in_intro];
    rewrite <- ?List.app_assoc; cbn [List.app]; rewrite ?List.app_nil_r;
    repeat split; reflexivity.
Qed.

Lemma ch19_repeated_id_is_written_again_witness :
  Ch19.output (Ch19.step ch19_duplicate_ids (Ch19.loop 2 ch19_duplicate_ids Ch19.init))
  = List.app (Ch19.output (Ch19.loop 2 ch19_duplicate_ids Ch19.init))
      [ "  </section>" ++ nl;
        nl ++ "  <section xml:id=" ++ dq ++ "sec-a" ++ dq ++ ">" ++ nl;
        "    <title>B</title>" ++ nl ]
  /\ Ch19.output (Ch19.loop 2 ch19_duplicate_ids Ch19.init)
     = List.app (Ch19.output Ch19.init)
         [ "  <introduction>" ++ nl;
           nl ++ "  <section xml:id=" ++ dq ++ "sec-a" ++ dq ++ ">" ++ nl;
           "    <title>A</title>" ++ nl;
           "    <p>text</p>" ++ nl ].
Proof.
  split.
  - exact (proj1 (ch19_repeated_id_is_written_again ch19_duplicate_ids
                    (Ch19.loop 2 ch19_duplicate_ids Ch19.init) "B" "sec-a"
                    eq_refl eq_refl eq_refl eq_refl eq_refl eq_refl)).
  - reflexivity.
Defined.

Section Ch19Chunk.
Import Ch19.

Lemma line_at_here (xs : list string) (y : string) (ys : list string) :
  line_at (List.app xs (y :: ys)) (List.length xs) = y.
Proof. unfold line_at. induction xs as [|x xs IH]; [reflexivity|exact IH]. Qed.

Lemma in_range_here (xs : list string) (y : string) (ys : list string) :
  in_range (List.app xs (y :: ys)) (List.length xs) = true.
Proof.
  unfold in_range. apply Nat.ltb_lt. rewrite List.length_app. cbn [List.length]. lia.
Qed.

Lemma take_while_all (A : Type) (p : A -> bool) (xs ys : list A) :
  forallb p xs = true -> take_while p (List.app xs ys) = List.app xs (take_while p ys).
Proof.
  intros H. induction xs as [|x xs IH]; [reflexivity|].
  cbn [forallb] in H. apply andb_true_iff in H as [Hx H].
  cbn [List.app take_while]. now rewrite Hx, IH.
Qed.

Variables (pre options texts post : list string) (st : state).
Hypothesis Hi : i st = List.length pre.
Hypothesis Hopts : forallb (fun o => startswith o "#|") options = true.
Hypothesis Htexts : forallb is_body_line texts = true.

Let lines := List.app pre (List.app (chunk options texts) post).

(** What follows the options: the body, the closing fence and the rest. *)
Let tail := List.app (map with_nl texts) (with_nl "```" :: post).

Lemma lines_from_options :
  lines = List.app (List.app pre [with_nl "```{r}"]) (List.app (map with_nl options) tail).
Proof.
  unfold lines, chunk, tail. rewrite <- !List.app_assoc. cbn [List.app].
  now rewrite <- !List.app_assoc.
Qed.

Lemma lines_from_body :
  lines = List.app (List.app pre (with_nl "```{r}" :: map with_nl options)) tail.
Proof.
  rewrite lines_from_options. rewrite <- !List.app_assoc. reflexivity.
Qed.

Lemma lines_from_fence :
  lines = List.app (List.app pre (with_nl "```{r}" :: List.app (map with_nl options)
                                                    (map with_nl texts)))
            (with_nl "```" :: post).
Proof.
  rewrite lines_from_body. unfold tail. rewrite <- !List.app_assoc. cbn [List.app].
  now rewrite <- !List.app_assoc.
Qed.

Lemma options_all : forallb (fun l => startswith l "#|") (map with_nl options) = true.
Proof.
  clear - Hopts. induction options as [|o os IH]; [reflexivity|].
  cbn [forallb map] in *. apply andb_true_iff in Hopts as [Ho Hos].
  rewrite (IH Hos), andb_true_r. unfold with_nl. now apply startswith_app_l.
Qed.

Lemma body_all :
  forallb (fun l => negb (startswith l "```")) (map with_nl texts) = true.
Proof.
  clear - Htexts. induction texts as [|t ts IH]; [reflexivity|].
  cbn [forallb map] in *. apply andb_true_iff in Htexts as [Ht Hts].
  rewrite (IH Hts), andb_true_r. unfold is_body_line in Ht.
  apply andb_true_iff in Ht as [Ht _]. apply negb_true_iff in Ht.
  now rewrite startswith_app_nl.
Qed.

Lemma tail_is_no_option : take_while (fun l => startswith l "#|") tail = [].
Proof.
  unfold tail. clear - Htexts. destruct texts as [|t ts]; [reflexivity|].
  cbn [forallb] in Htexts. apply andb_true_iff in Htexts as [Ht _].
  unfold is_body_line in Ht. apply andb_true_iff in Ht as [_ Ht]. apply negb_true_iff in Ht.
  cbn [map List.app take_while]. now rewrite startswith_app_nl.
Qed.

Lemma tail_head_is_no_option :
  in_range lines (S (List.length pre) + List.length options)
  && startswith (line_at lines (S (List.length pre) + List.length options)) "#|" = false.
Proof.
  replace (S (List.length pre) + List.length options)
    with (List.length (List.app pre (with_nl "```{r}" :: map with_nl options)))
    by (rewrite List.length_app; cbn [List.length]; rewrite List.length_map; lia).
  rewrite lines_from_body. unfold tail. clear - Htexts.
  destruct texts as [|t ts]; cbn [map List.app].
  - rewrite line_at_here. apply andb_false_r.
  - rewrite line_at_here. cbn [forallb] in Htexts. apply andb_true_iff in Htexts as [Ht _].
    unfold is_body_line in Ht. apply andb_true_iff in Ht as [_ Ht]. apply negb_true_iff in Ht.
    rewrite startswith_app_nl by (reflexivity || assumption). apply andb_false_r.
Qed.

Lemma scan_options :
  scan_to lines (fun l => startswith l "#|") (S (i st))
  = S (List.length pre) + List.length options.
Proof.
  unfold scan_to. rewrite Hi, lines_from_options.
  replace (S (List.length pre)) with (List.length (List.app pre [with_nl "```{r}"]))
    by (rewrite List.length_app; cbn [List.length]; lia).
  rewrite skipn_exact, take_while_all by apply options_all.
  rewrite tail_is_no_option, List.app_nil_r, List.length_map.
  rewrite List.length_app. cbn [List.length]. lia.
Qed.

Lemma body_of_chunk :
  chunk_body lines (S (List.length pre) + List.length options) = map with_nl texts.
Proof.
  unfold chunk_body. rewrite lines_from_body.
  replace (S (List.length pre) + List.length options)
    with (List.length (List.app pre (with_nl "```{r}" :: map with_nl options)))
    by (rewrite List.length_app; cbn [List.length]; rewrite List.length_map; lia).
  rewrite skipn_exact. unfold tail.
  now apply take_while_stop; [apply body_all|].
Qed.

Lemma fence_of_chunk :
  in_range lines (S (List.length pre) + List.length options + List.length texts)
  && startswith
       (line_at lines (S (List.length pre) + List.length options + List.length texts)) "```"
  = true.
Proof.
  replace (S (List.length pre) + List.length options + List.length texts)
    with (List.length (List.app pre (with_nl "```{r}" :: List.app (map with_nl options)
                                                          (map with_nl texts))))
    by (rewrite List.length_app; cbn [List.length];
        rewrite List.length_app, !List.length_map; lia).
  rewrite lines_from_fence, in_range_here, line_at_here. reflexivity.
Qed.

(** The turn of a chunk, given what the scan of the options finds. *)
Lemma code_block_chunk (cap lab wid : string) :
  chunk_metadata (List.length lines) lines (S (i st))
    (figure_caption st) (figure_label st) (figure_width st) = (cap, lab, wid) ->
  code_block lines st
  = let code_lines := keep_nonblank (map with_nl texts) in
    let st' := set_i (S (S (List.length pre) + List.length options + List.length texts))
                 (set_figure cap lab wid st) in
    if startswith lab "fig-"
    then set_figure "" "" "70%" (emit (figure cap lab wid code_lines) st')
    else match code_lines with
         | [] => st'
         | _ :: _ => emit (listing cap code_lines) st'
         end.
Proof.
  intros M. unfold code_block. rewrite M, scan_options, body_of_chunk.
  rewrite List.length_map, fence_of_chunk. reflexivity.
Qed.

(** The turn of the loop at the opening fence, past the part of the file in
    which every chunk is skipped and outside an exercise. *)
Lemma step_at_chunk :
  30 <= List.length pre -> in_exercise st = false ->
  step lines st = code_block lines st.
Proof.
  intros H30 Hex. unfold step.
  assert (L : line_at lines (i st) = with_nl "```{r}").
  { rewrite Hi. unfold lines, chunk. cbn [List.app]. rewrite line_at_here. reflexivity. }
  rewrite L.
  change (rstrip (with_nl "```{r}")) with "```{r}".
  assert (N5 : Nat.ltb (i st) 5 = false) by (apply Nat.ltb_ge; lia).
  assert (N30 : Nat.ltb (i st) 30 = false) by (apply Nat.ltb_ge; lia).
  rewrite N5, N30, Hex. reflexivity.
Qed.

(** Without options the scan leaves the caption, the label and the width as
    they were. *)
Lemma metadata_without_options :
  options = [] ->
  chunk_metadata (List.length lines) lines (S (i st))
    (figure_caption st) (figure_label st) (figure_width st)
  = (figure_caption st, figure_label st, figure_width st).
Proof.
  intros E. destruct (List.length lines) as [|fuel]; [reflexivity|].
  cbn [chunk_metadata]. rewrite Hi.
  pose proof tail_head_is_no_option as T. rewrite E in T. cbn [List.length] in T.
  rewrite Nat.add_0_r in T. now rewrite T.
Qed.

End Ch19Chunk.

Section Ch19Listing.
Import Ch19.

Lemma keep_nonblank_with_nl (texts : list string) :
  keep_nonblank (map with_nl texts) = map with_nl (nonblank_texts texts).
Proof.
  unfold keep_nonblank, nonblank_texts.
  induction texts as [|t ts IH]; [reflexivity|].
  cbn [map filter]. rewrite strip_with_nl, IH. now destruct (truthy (strip t)).
Qed.

Lemma escape_xml_with_nl (t : string) : escape_xml (with_nl t) = escape_xml t ++ nl.
Proof. unfold with_nl. now rewrite !plain_escape_xml_esc, esc_app. Qed.

Lemma listing_lines_with_nl (ts : list string) :
  map (fun code_line => escape_xml code_line ++ nl) (map with_nl ts)
  = map (fun t => escape_xml t ++ nl ++ nl) ts.
Proof.
  rewrite map_map. apply map_ext. intros t. now rewrite escape_xml_with_nl, sapp_assoc.
Qed.

End Ch19Listing.



Section Ch19Figure.
Import Ch19.

Lemma contains_skip_free (a : ascii) (q pre s : string) :
  free_of (String a "") pre = true ->
  contains (pre ++ s) (String a q) = contains s (String a q).
Proof.
  induction pre as [|c pre IH]; intros H; [reflexivity|].
  apply free_of_head in H as [Hc Hp].
  cbn [append]. rewrite contains_cons, startswith_cons, Hc, (IH Hp). reflexivity.
Qed.

Lemma label_char_plain (c : ascii) :
  label_char c = true -> is_space c = false /\ Ascii.eqb ":" c = false.
Proof. destruct c as [[] [] [] [] [] [] [] []]; vm_compute; intros H; split; congruence. Qed.

Lemma label_free (x : string) :
  all_chars label_char x = true -> free_of ":" x = true.
Proof.
  induction x as [|c x IH]; [reflexivity|]. cbn [all_chars free_of mem_char].
  intros H. apply andb_true_iff in H as [Hc H].
  destruct (label_char_plain c Hc) as [_ ->]. now rewrite (IH H).
Qed.

Lemma rstrip_by_solid (p : ascii -> bool) (s : string) :
  all_chars (fun c => negb (p c)) s = true -> rstrip_by p s = s.
Proof.
  induction s as [|c s IH]; [reflexivity|]. cbn [all_chars rstrip_by].
  intros H. apply andb_true_iff in H as [Hc H]. apply negb_true_iff in Hc.
  rewrite (IH H), Hc. now destruct s.
Qed.

Lemma label_solid (x : string) :
  all_chars label_char x = true -> all_chars (fun c => negb (is_space c)) x = true.
Proof.
  induction x as [|c x IH]; [reflexivity|]. cbn [all_chars].
  intros H. apply andb_true_iff in H as [Hc H].
  destruct (label_char_plain c Hc) as [-> _]. now rewrite (IH H).
Qed.

Variable x : string.
Hypothesis Hx : all_chars label_char x = true.

Let option_line := "#| label: fig-" ++ x.

Lemma label_tail_free : free_of ":" (" fig-" ++ x ++ nl) = true.
Proof. rewrite !free_of_app, (label_free x Hx). reflexivity. Qed.

Lemma label_is_read :
  strip (part (split (with_nl option_line) "label:") 1) = "fig-" ++ x.
Proof.
  unfold with_nl, option_line.
  replace (("#| label: fig-" ++ x) ++ nl) with ("#| " ++ "label:" ++ (" fig-" ++ x ++ nl))
    by (cbn [append]; rewrite ?sapp_assoc; reflexivity).
  rewrite (split_once "l" "abel:" "#| ");
    [| reflexivity
     | apply (contains_absent ":"%char); [reflexivity|apply label_tail_free]].
  cbn [part nth].
  replace (" fig-" ++ x ++ nl) with ((" fig-" ++ x) ++ nl) by now rewrite !sapp_assoc.
  change ((" fig-" ++ x) ++ nl) with (with_nl (" fig-" ++ x)).
  rewrite strip_with_nl. unfold strip, strip_by. cbn [append lstrip_by].
  change (is_space " ") with true. cbv iota.
  change (is_space "f") with false. cbv iota.
  apply (rstrip_by_solid is_space (String "f" (String "i" (String "g" (String "-" x))))).
  cbn [all_chars]. now rewrite (label_solid x Hx).
Qed.

Lemma option_line_holds (p : string) (a : ascii) :
  mem_char p ":" = true ->
  p = String a (match p with String _ q => q | EmptyString => "" end) ->
  free_of (String a "") "#| label:" = true ->
  contains (with_nl option_line) p = false.
Proof.
  intros Hp Ea Hf. unfold with_nl, option_line.
  replace (("#| label: fig-" ++ x) ++ nl) with ("#| label:" ++ (" fig-" ++ x ++ nl))
    by (cbn [append]; rewrite ?sapp_assoc; reflexivity).
  rewrite Ea, contains_skip_free by exact Hf. rewrite <- Ea.
  apply (contains_absent ":"%char); [exact Hp | apply label_tail_free].
Qed.

Variables (pre texts post : list string) (st : state).
Hypothesis Hi : i st = List.length pre.
Hypothesis Htexts : forallb is_body_line texts = true.

Let lines := List.app pre (List.app (chunk [option_line] texts) post).

Lemma metadata_with_label :
  chunk_metadata (List.length lines) lines (S (i st))
    (figure_caption st) (figure_label st) (figure_width st)
  = (figure_caption st, "fig-" ++ x, figure_width st).
Proof.
  assert (L : List.length lines = S (S (List.length pre + List.length texts + 1
                                        + List.length post))).
  { unfold lines, chunk. rewrite !List.length_app. cbn [List.length map List.app].
    rewrite !List.length_app, List.length_map. cbn [List.length]. lia. }
  rewrite L. cbn [chunk_metadata].
  assert (R : in_range lines (S (i st)) = true).
  { unfold in_range. apply Nat.ltb_lt. rewrite L, Hi. lia. }
  assert (A : line_at lines (S (i st)) = with_nl option_line).
  { rewrite Hi. unfold lines, chunk. cbn [map List.app].
    change (pre ++ with_nl "```{r}" :: with_nl option_line
                   :: (map with_nl texts ++ [with_nl "```"]) ++ post)%list
      with (pre ++ [with_nl "```{r}"] ++ with_nl option_line
                   :: (map with_nl texts ++ [with_nl "```"]) ++ post)%list.
    rewrite List.app_assoc.
    replace (S (List.length pre)) with (List.length (List.app pre [with_nl "```{r}"]))
      by (rewrite List.length_app; cbn [List.length]; lia).
    apply line_at_here. }
  rewrite R, A.
  assert (S1 : startswith (with_nl option_line) "#|" = true) by reflexivity.
  assert (C1 : contains (with_nl option_line) "label:" = true).
  { unfold with_nl, option_line.
    replace (("#| label: fig-" ++ x) ++ nl) with ("#| " ++ ("label:" ++ (" fig-" ++ x ++ nl)))
      by (cbn [append]; rewrite ?sapp_assoc; reflexivity).
    apply contains_app_r, contains_here. reflexivity. }
  rewrite S1, C1, label_is_read. cbn [andb].
  rewrite (option_line_holds "fig-cap:" "f" eq_refl eq_refl eq_refl).
  rewrite (option_line_holds "out-width:" "o" eq_refl eq_refl eq_refl).
  pose proof (tail_head_is_no_option pre [option_line] texts post st Hi Htexts) as T.
  cbn [List.length] in T. fold lines in T.
  replace (S (S (i st))) with (S (List.length pre) + 1) by (rewrite Hi; lia).
  now rewrite T.
Qed.

End Ch19Figure.

Section Ch19FigureSource.
Import Ch19.

Lemma no_graphics (texts : list string) :
  forallb (fun t => negb (contains t "include_graphics")) texts = true ->
  contains (join nl (keep_nonblank (map with_nl texts))) "include_graphics" = false.
Proof.
  intros H.
  destruct (contains (join nl (keep_nonblank (map with_nl texts))) "include_graphics") eqn:E;
    [|reflexivity].
  exfalso. apply contains_join_nl in E; [|reflexivity|reflexivity].
  apply Exists_exists in E as [l [Hin Hl]].
  unfold keep_nonblank in Hin. apply filter_In in Hin as [Hin _].
  apply in_map_iff in Hin as [t [<- Ht]].
  rewrite forallb_forall in H. specialize (H t Ht). apply negb_true_iff in H.
  rewrite contains_app_nl_none in Hl by (reflexivity || assumption). discriminate.
Qed.

End Ch19FigureSource.



(** ** Identifiers without annotation in convert_ch17_full.py *)

Section Ch17FullSites.
Import PyRe Ch17Full.

Lemma annotation_unmarked (prefix tail : string) :
  free_of "{" tail = true ->
  annotation prefix tail
  = match lstrip_by is_space tail with "" => Some None | String _ _ => None end.
Proof.
  intros H. unfold annotation.
  destruct (lstrip_by_suffix is_space tail) as [a Ha].
  rewrite Ha, free_of_app in H. apply andb_true_iff in H as [_ H].
  destruct (lstrip_by is_space tail) as [|c r]; [reflexivity|].
  cbn [match_atoms].
  now rewrite (startswith_absent "{"%char ("{#" ++ prefix) eq_refl _ H).
Qed.

Lemma lstrip_by_nonempty (p : ascii -> bool) (c : ascii) (r s : string) :
  lstrip_by p s = String c r -> truthy s = true.
Proof. now destruct s. Qed.

Lemma lazy_heading_unmarked (prefix s : string) :
  truthy s = true -> free_of "{" s = true -> lazy_heading prefix s = Some None.
Proof.
  induction s as [|c s IH]; [discriminate|]. intros _ H.
  apply free_of_head in H as [_ H]. cbn [lazy_heading].
  rewrite (annotation_unmarked prefix s H).
  destruct (lstrip_by is_space s) as [|d r] eqn:E; [reflexivity|].
  apply IH; [now apply (lstrip_by_nonempty is_space d r) | exact H].
Qed.

Lemma heading_match_unmarked (hashes prefix t : string) :
  is_title t = true ->
  heading_match hashes prefix (hashes ++ " " ++ t) = Some None.
Proof.
  intros Ht. unfold heading_match.
  rewrite startswith_app, drop_app.
  destruct t as [|c t]; [discriminate|].
  pose proof Ht as Ht'. unfold is_title in Ht'.
  apply andb_true_iff in Ht' as [Ht' _]. apply andb_true_iff in Ht' as [Ht' Hf].
  apply andb_true_iff in Ht' as [Hc _]. apply negb_true_iff in Hc.
  assert (S : span is_space (" " ++ String c t) = (" ", String c t)).
  { cbn [append]. cbn [span]. change (is_space " ") with true. cbv iota.
    cbn [span]. now rewrite Hc. }
  rewrite S. now apply lazy_heading_unmarked.
Qed.

End Ch17FullSites.

(** C6, as stated, fails inside convert_ch17_full.py: a section heading
    without annotation gets the fixed identifier sec-unknown and a subsection
    subsec-unknown, whatever the title, and the identifier of a worked example
    is the derived text behind the prefix ex-. *)
Lemma ch17_full_section_id_is_not_derived :
  spec_slug "Two Sample Test" = "two-sample-test"
  /\ Ch17Full.sec_id "## Two Sample Test" = Some "sec-unknown"
  /\ Ch17Full.subsec_id "### Two Sample Test" = Some "subsec-unknown"
  /\ Ch17Full.example_open "" "Two Sample Test"
     = "<example xml:id=" ++ dq ++ "ex-two-sample-test" ++ dq ++ ">"
  /\ Ch17Full.sec_id "## Two Sample Test" <> Some (spec_slug "Two Sample Test")
  /\ Ch17Full.sec_id "## Two Sample Test"
     <> Some ("sec-" ++ spec_slug "Two Sample Test").
Proof.
  repeat split; try (vm_compute; reflexivity); vm_compute; discriminate.
Qed.

(** C6, amended.  In convert_ch17_full.py only the worked examples get an
    identifier derived from a title.  For an ASCII title the tag of line 239
    carries ex- followed by the title lower-cased, every run of characters
    other than letters and digits replaced by one hyphen, hyphens trimmed at
    both ends, and ex-example when the title is empty.  A section heading
    [## title] and a subsection heading [### title] without annotation, for an
    ASCII title that neither starts nor ends with a blank and holds no brace
    and no line feed, get the fixed identifiers sec-unknown and
    subsec-unknown. *)
Theorem ch17_full_ids_without_annotation (indent ex_title title : string) :
  is_ascii ex_title = true ->
  is_ascii title = true -> is_title title = true ->
  Ch17Full.example_open indent ex_title
  = indent ++ "<example xml:id=" ++ dq ++ "ex-"
      ++ (if truthy ex_title then spec_slug ex_title else "example") ++ dq ++ ">"
  /\ Ch17Full.sec_id ("## " ++ title) = Some "sec-unknown"
  /\ Ch17Full.subsec_id ("### " ++ title) = Some "subsec-unknown".
Proof.
  intros _ _ Ht. repeat split.
  - unfold Ch17Full.example_open. now rewrite example_id_is_spec_slug.
  - unfold Ch17Full.sec_id.
    change ("## " ++ title) with ("##" ++ " " ++ title).
    now rewrite (heading_match_unmarked "##" "sec-" title Ht).
  - unfold Ch17Full.subsec_id.
    change ("### " ++ title) with ("###" ++ " " ++ title).
    now rewrite (heading_match_unmarked "###" "subsec-" title Ht).
Qed.

Lemma ch17_full_ids_without_annotation_witness :
  Ch17Full.example_open "    " "Hello,  World: again"
  = "    <example xml:id=" ++ dq ++ "ex-hello-world-again" ++ dq ++ ">"
  /\ Ch17Full.sec_id "## Hello, World" = Some "sec-unknown"
  /\ Ch17Full.subsec_id "### Hello, World" = Some "subsec-unknown".
Proof.
  exact (ch17_full_ids_without_annotation "    " "Hello,  World: again" "Hello, World"
           eq_refl eq_refl eq_refl).
Defined.
